(** * court-scheduler: timezone-aware slot conversion and availability aggregation

    A shallow embedding of [utils/timezone.ts], [components/AvailabilityMap.tsx]
    and [utils/storage.ts], and of the handlers of [App.tsx] and
    [components/ParticipantForm.tsx] around them, with the properties of the
    specification stated and settled against it.

    Conventions of the embedding:
    - a JavaScript [Date] is its time value, a [Z] counting milliseconds since
      the epoch; where a [Date] may be the Invalid Date it is an [option Z],
      [None] being the Invalid Date.  Time values are integers of any size:
      the limit of 8.64e15 ms either side of the epoch, past which a [Date]
      becomes invalid, is not modelled;
    - hours, as every [number] the program is handed, are integers ([Z]); what
      it reads off a [Date] that may be invalid is a [number], an integer or
      NaN;
    - the browser's own zone, the zone database behind [date-fns-tz], the
      [Intl] formatter, [JSON] and [localStorage] are collaborators of the
      program: they are fields of records the definitions take as arguments;
    - the zone database does not throw: a zone it cannot resolve gives the
      Invalid Date.  An exception thrown by another collaborator is [None];
    - [console.warn] and [console.error] are recorded in an output log. *)

From Stdlib Require Import ZArith QArith Lia String Ascii List Bool DecimalString.
From stdpp Require Import gmap strings list sorting.

Open Scope string_scope.
Open Scope Z_scope.

(** ** ECMAScript time values *)

Module TimeValue.

Definition msPerSecond : Z := 1000.
Definition msPerMinute : Z := 60000.
Definition msPerHour : Z := 3600000.
Definition msPerDay : Z := 86400000.

Definition Day (t : Z) : Z := t / msPerDay.
Definition TimeWithinDay (t : Z) : Z := t mod msPerDay.
Definition WeekDay (t : Z) : Z := (Day t + 4) mod 7.
Definition HourFromTime (t : Z) : Z := (t / msPerHour) mod 24.

Definition MakeTime (hour min sec ms : Z) : Z :=
  hour * msPerHour + min * msPerMinute + sec * msPerSecond + ms.
Definition MakeDate (day time : Z) : Z := day * msPerDay + time.

(** Day number of a proleptic Gregorian date; [m] is 1..12. *)
Definition days_from_civil (y m d : Z) : Z :=
  let y' := if m <=? 2 then y - 1 else y in
  let era := y' / 400 in
  let yoe := y' mod 400 in
  let mp := if 2 <? m then m - 3 else m + 9 in
  let doy := (153 * mp + 2) / 5 + d - 1 in
  let doe := yoe * 365 + yoe / 4 - yoe / 100 + doy in
  era * 146097 + doe - 719468.

(** Year of era, month counted from March and day of month of a day of era. *)
Definition doe_fields (doe : Z) : Z * Z * Z :=
  let yoe := (doe - doe / 1460 + doe / 36524 - doe / 146096) / 365 in
  let doy := doe - (365 * yoe + yoe / 4 - yoe / 100) in
  let mp := (5 * doy + 2) / 153 in
  (yoe, mp, doy - (153 * mp + 2) / 5 + 1).

(** Year, month (0..11, as [getMonth]) and day of month of a day number. *)
Definition civil_from_days (z : Z) : Z * Z * Z :=
  let z' := z + 719468 in
  let era := z' / 146097 in
  let '(yoe, mp, d) := doe_fields (z' mod 146097) in
  let m := if mp <? 10 then mp + 3 else mp - 9 in
  (if m <=? 2 then yoe + era * 400 + 1 else yoe + era * 400, m - 1, d).

Definition YearFromTime (t : Z) : Z := fst (fst (civil_from_days (Day t))).
Definition MonthFromTime (t : Z) : Z := snd (fst (civil_from_days (Day t))).
Definition DateFromTime (t : Z) : Z := snd (civil_from_days (Day t)).

(** [MakeDay(year, month, date)]: [month] is 0-based and may overflow. *)
Definition MakeDay (year month date : Z) : Z :=
  days_from_civil (year + month / 12) (month mod 12 + 1) 1 + date - 1.

Definition isLeapYear (y : Z) : bool :=
  (y mod 4 =? 0) && (negb (y mod 100 =? 0) || (y mod 400 =? 0)).

Definition daysInMonth (y m : Z) : Z :=
  if m =? 2 then (if isLeapYear y then 29 else 28)
  else if (m =? 4) || (m =? 6) || (m =? 9) || (m =? 11) then 30 else 31.

(** The check behind [civil_roundtrip], run on every day of a 400-year era. *)
Definition doe_ok (doe : Z) : bool :=
  let '(yoe, mp, d) := doe_fields doe in
  (0 <=? yoe) && (yoe <? 400) && (0 <=? mp) && (mp <? 12) &&
  (yoe * 365 + yoe / 4 - yoe / 100 + ((153 * mp + 2) / 5 + d - 1) =? doe).

Fixpoint all_from (lo : Z) (fuel : nat) (p : Z -> bool) : bool :=
  match fuel with
  | O => true
  | S k => p lo && all_from (lo + 1) k p
  end.

End TimeValue.

Import TimeValue.

(** ** Collaborators of the conversion code *)

(** The browser's own zone, as ECMAScript's [LocalTime(t)] and [UTC(t)]: every
    local-field getter and setter of [Date] goes through them. *)
Record Browser := {
  LocalTime : Z -> Z;
  UTC : Z -> Z;
}.

(** Modelled from the spec: the zone database of section 6, which the source
    reaches through [date-fns-tz] (not part of the repository).  "Given an
    IANA identifier and an absolute instant, returns the UTC offset in effect"
    is [utcOffset] (milliseconds, local minus UTC); "given an IANA identifier
    and a local wall-clock datetime, resolves it to an absolute instant" is
    [localToInstant], whose policy at DST transitions is the database's own.
    For an identifier that does not resolve there is no offset and no instant
    ([None]).  The specification has the database raise an error then;
    [date-fns-tz] raises nothing: it computes NaN and hands its caller the
    Invalid Date, which is how the definitions below read [None]. *)
Record ZoneDb := {
  utcOffset : string -> Z -> option Z;
  localToInstant : string -> Z -> option Z;
}.

Inductive ConsoleEntry :=
  | console_warn (msg : string)
  | console_error (msg : string).

(** ** Strings and numbers of the host language *)

(** [Number.prototype.toString] on an integer. *)
Definition Number_toString (n : Z) : string :=
  NilZero.string_of_int (Z.to_int n).

Fixpoint replicate_char (n : nat) (c : ascii) : string :=
  match n with
  | O => ""
  | S k => String c (replicate_char k c)
  end.

(** [s.padStart(n, c)] for a one-character filler. *)
Definition padStart (n : nat) (c : ascii) (s : string) : string :=
  replicate_char (n - String.length s) c +:+ s.

(** A [number] read off a [Date] that may be the Invalid Date: an integer, or
    NaN. *)
Inductive number :=
  | num (z : Z)
  | NaN.

Coercion num : Z >-> number.

(** [a === b]: NaN equals nothing, itself included. *)
Definition number_eqb (a b : number) : bool :=
  match a, b with
  | num x, num y => x =? y
  | _, _ => false
  end.

(** [a + b], [a - b] and, for a divisor that is not zero, [a % b]. *)
Definition number_add (a b : number) : number :=
  match a, b with
  | num x, num y => num (x + y)
  | _, _ => NaN
  end.

Definition number_sub (a b : number) : number :=
  match a, b with
  | num x, num y => num (x - y)
  | _, _ => NaN
  end.

Definition number_rem (a b : number) : number :=
  match a, b with
  | num x, num y => if y =? 0 then NaN else num (Z.rem x y)
  | _, _ => NaN
  end.

(** [n.toString()] *)
Definition number_toString (n : number) : string :=
  match n with
  | num z => Number_toString z
  | NaN => "NaN"
  end.

Definition digit (c : ascii) : option Z :=
  let n := Z.of_N (N_of_ascii c) in
  if (48 <=? n) && (n <=? 57) then Some (n - 48) else None.

Fixpoint digits_value (s : string) (acc : Z) : option Z :=
  match s with
  | "" => Some acc
  | String c r =>
      match digit c with
      | Some d => digits_value r (10 * acc + d)
      | None => None
      end
  end.

(** A non-empty run of decimal digits. *)
Definition decimal (s : string) : option Z :=
  match s with
  | "" => None
  | _ => digits_value s 0
  end.

(** Modelled from the spec: a wall-clock datetime "built directly from
    date+hour", written [YYYY-MM-DDTHH:mm:ss] with no offset, read as the
    wall-clock time value it names.  The parsers of [Date] and of
    [date-fns-tz] are not part of the repository; anything that is not of this
    shape, or names no calendar day or time of day, is a construction failure
    ([None]). *)
Definition parseISOLocal (s : string) : option Z :=
  if negb (Nat.eqb (String.length s) 19) then None
  else if negb (String.eqb (substring 4 1 s) "-" && String.eqb (substring 7 1 s) "-"
                && String.eqb (substring 10 1 s) "T"
                && String.eqb (substring 13 1 s) ":" && String.eqb (substring 16 1 s) ":")
  then None
  else
    y ← decimal (substring 0 4 s);
    m ← decimal (substring 5 2 s);
    d ← decimal (substring 8 2 s);
    h ← decimal (substring 11 2 s);
    mi ← decimal (substring 14 2 s);
    sec ← decimal (substring 17 2 s);
    if (1 <=? m) && (m <=? 12) && (1 <=? d) && (d <=? daysInMonth y m)
       && (h <=? 23) && (mi <=? 59) && (sec <=? 59)
    then Some (MakeDate (days_from_civil y m d) (MakeTime h mi sec 0))
    else None.

(** ** [Date] and [date-fns-tz] *)

Section Conversion.

Variable br : Browser.
Variable db : ZoneDb.

(** The clock read by [new Date()], frozen for one call. *)
Variable now : Z.

Definition getFullYear (d : Z) : Z := YearFromTime (LocalTime br d).
Definition getMonth (d : Z) : Z := MonthFromTime (LocalTime br d).
Definition getDate (d : Z) : Z := DateFromTime (LocalTime br d).
Definition getDay (d : Z) : Z := WeekDay (LocalTime br d).
Definition getHours (d : Z) : Z := HourFromTime (LocalTime br d).

(** [new Date(year, month, date)], which reads the years 0 to 99 as 1900 to
    1999. *)
Definition newDate (year month date : Z) : Z :=
  let yr := if (0 <=? year) && (year <=? 99) then 1900 + year else year in
  UTC br (MakeDate (MakeDay yr month date) 0).

(** [d.setDate(date)] *)
Definition setDate (d date : Z) : Z :=
  let t := LocalTime br d in
  UTC br (MakeDate (MakeDay (YearFromTime t) (MonthFromTime t) date) (TimeWithinDay t)).

(** [d.setHours(hour, min, sec, ms)] *)
Definition setHours (d hour min sec ms : Z) : Z :=
  let t := LocalTime br d in
  UTC br (MakeDate (Day t) (MakeTime hour min sec ms)).

(** [new Date(string)] for a string without offset: local time; [None] is the
    Invalid Date. *)
Definition newDate_string (s : string) : option Z :=
  UTC br <$> parseISOLocal s.

(** A getter called on a [Date] that may be the Invalid Date, where it
    returns NaN. *)
Definition onDate (getter : Z -> Z) (date : option Z) : number :=
  match date with
  | Some d => num (getter d)
  | None => NaN
  end.

(** [utcToZonedTime(date, timeZone)]: a [Date] whose local fields read the
    wall clock of [timeZone] at the instant [date]; the Invalid Date when
    [date] is, or when the zone does not resolve. *)
Definition utcToZonedTime (date : option Z) (timeZone : string) : option Z :=
  d ← date;
  off ← utcOffset db timeZone d;
  Some (UTC br (d + off)).

(** [zonedTimeToUtc(date, timeZone)]: the instant at which the wall clock of
    [timeZone] shows the local fields of [date]; the Invalid Date when [date]
    is, or when the zone does not resolve. *)
Definition zonedTimeToUtc (date : option Z) (timeZone : string) : option Z :=
  d ← date;
  localToInstant db timeZone (LocalTime br d).

(** [zonedTimeToUtc(string, timeZone)]; the Invalid Date when the string names
    no datetime, or when the zone does not resolve. *)
Definition zonedTimeToUtc_string (s : string) (timeZone : string) : option Z :=
  w ← parseISOLocal s;
  localToInstant db timeZone w.

(** ** utils/timezone.ts *)

Definition days : list string :=
  ["Monday"; "Tuesday"; "Wednesday"; "Thursday"; "Friday"; "Saturday"; "Sunday"].

(** [array.indexOf(x)] *)
Fixpoint indexOf (l : list string) (x : string) : Z :=
  match l with
  | [] => -1
  | y :: r =>
      if String.eqb y x then 0
      else let i := indexOf r x in if i =? -1 then -1 else i + 1
  end.

(** [array[i]] on an index the program keeps within the array. *)
Definition arrayGet (l : list string) (i : Z) : string :=
  if i <? 0 then "undefined" else nth (Z.to_nat i) l "undefined".

(** [array[i]] on a [number]: with NaN the read misses. *)
Definition arrayAt (l : list string) (i : number) : string :=
  match i with
  | num z => arrayGet l z
  | NaN => "undefined"
  end.

Definition getDayIndex (dayName : string) : Z := indexOf days dayName.

Definition getDayName (dayIndex : number) : string :=
  arrayAt days (number_rem dayIndex 7).

(** [day] is [undefined], read as a missed array read is, and [hour] NaN when
    the conversion went through the Invalid Date. *)
Record Slot := { day : string; hour : number }.

(** Truthiness of an optional string argument. *)
Definition truthy (s : option string) : bool :=
  match s with
  | Some v => negb (String.eqb v "")
  | None => false
  end.

(** [convertTimeSlot].  Nothing its [try] block calls throws: the methods of
    [Date] answer the Invalid Date with NaN or with the Invalid Date, and so
    does [date-fns-tz].  The [catch] block is therefore never entered, and
    has no counterpart here. *)
Definition convertTimeSlot (participantTimezone userTimezone day : string)
    (hour : Z) (specificDate : option string) : Slot * list ConsoleEntry :=
  let finish (targetDate : option Z) : Slot * list ConsoleEntry :=
    let utcTime := zonedTimeToUtc targetDate participantTimezone in
    let userLocalTime := utcToZonedTime utcTime userTimezone in
    let userDayOfWeek := onDate getDay userLocalTime in
    let userDayIndex :=
      if number_eqb userDayOfWeek 0 then num 6 else number_sub userDayOfWeek 1 in
    let userDay := getDayName userDayIndex in
    let userHour := onDate getHours userLocalTime in
    ({| day := userDay; hour := userHour |}, []) in
  if truthy specificDate then
    let targetDate := newDate_string (default "" specificDate +:+ "T00:00:00") in
    let targetDate := (fun d => setHours d hour 0 0 0) <$> targetDate in
    finish targetDate
  else
    let currentYear := getFullYear now in
    let currentMonth := getMonth now in
    let today := newDate currentYear currentMonth (getDate now) in
    let todayDayIndex := getDay today in
    let targetDayIndex := getDayIndex day in
    if targetDayIndex =? -1 then
      ({| day := day; hour := hour |},
       [console_warn ("Invalid day name: " +:+ day)])
    else
      let jsDayIndex := if targetDayIndex =? 6 then 0 else targetDayIndex + 1 in
      let daysToAdd := jsDayIndex - todayDayIndex in
      let daysToAdd := if daysToAdd <? 0 then daysToAdd + 7 else daysToAdd in
      let targetDate := today in
      let targetDate := setDate targetDate (getDate today + daysToAdd) in
      let targetDate := setHours targetDate hour 0 0 0 in
      finish (Some targetDate).

End Conversion.

(** ** types/index.ts *)

Inductive ParticipantRole :=
  | Judge | Prosecution | Defendant | DefenseAttorney | Witness.

Inductive AvailabilityType := weekly | specific.

(** [availability] is the object [{ [day]: number[] }], read through
    [Object.entries]: its keys in insertion order, each with its hours. *)
Record Participant := {
  id : string;
  name : string;
  role : ParticipantRole;
  timezone : string;
  availability : list (string * list Z);
  availabilityType : AvailabilityType;
  createdAt : string;
}.

Definition PARTICIPANT_COLORS : list string :=
  ["#3B82F6"; "#EF4444"; "#10B981"; "#FACC15"; "#6B7280"; "#F472B6";
   "#0EA5E9"; "#5EEAD4"; "#FB923C"; "#8B5CF6"; "#6366F1"; "#D97706"].

(** ** components/AvailabilityMap.tsx *)

Module Specific.
Record t := { date : string; hour : number; dayName : string }.
End Specific.

Module Data.
Record t := {
  participants : list Participant;
  count : Z;
  participantNames : list string;
}.
End Data.

(** What [renderTimeSlot] draws: the empty cell, or the colour segments, the
    overlay text and the names of the tooltip. *)
Inductive SlotView :=
  | EmptySlot
  | FilledSlot (segments : list string) (isAllParticipants : bool)
               (overlay : string) (tooltipNames : list string).

(** The full-coverage flag of a drawn cell: [isAllParticipants] where the cell
    computes it; the empty cell is drawn before it would be. *)
Definition isFullCoverage (v : SlotView) : bool :=
  match v with
  | EmptySlot => false
  | FilledSlot _ b _ _ => b
  end.

(** [array.forEach] threading the variables its callback mutates. *)
Definition forEach {A S : Type} (l : list A) (f : A -> S -> S) (s : S) : S :=
  fold_left (fun acc a => f a acc) l s.

(** [set.add(x)] on a [Set] kept in insertion order. *)
Definition Set_add (x : string) (s : list string) : list string :=
  if decide (x ∈ s) then s else (s ++ [x])%list.

(** [array.sort()] on strings: ascending by code unit. *)
Definition Array_sort (l : list string) : list string := merge_sort String.le l.

(** [array.findIndex(p => p.id === x)] *)
Fixpoint findIndex (l : list Participant) (x : string) : Z :=
  match l with
  | [] => -1
  | p :: r =>
      if String.eqb (id p) x then 0
      else let i := findIndex r x in if i =? -1 then -1 else i + 1
  end.

Section AvailabilityMap.

Variable br : Browser.
Variable db : ZoneDb.
Variable now : Z.

(** The props of the component. *)
Variable participants : list Participant.
Variable userTimezone : string.

Definition hours : list Z := seqZ 0 24.

(** Nothing the [try] block of [convertTimeSlotSpecific] calls throws (see
    [convertTimeSlot]): its [catch] block has no counterpart here, and the
    console output is empty. *)
Definition convertTimeSlotSpecific (participantTimezone userTimezone : string)
    (participantDateKey : string) (participantHour : Z)
    : Specific.t * list ConsoleEntry :=
  let participantDateTimeString :=
    participantDateKey +:+ "T"
      +:+ padStart 2 "0" (Number_toString participantHour) +:+ ":00:00" in
  let utcTime := zonedTimeToUtc_string db participantDateTimeString participantTimezone in
  let userDateTime := utcToZonedTime br db utcTime userTimezone in
  let userYear := onDate (getFullYear br) userDateTime in
  let userMonth := onDate (getMonth br) userDateTime in
  let userDay := onDate (getDate br) userDateTime in
  let userHour := onDate (getHours br) userDateTime in
  let userDateString :=
    number_toString userYear +:+ "-"
      +:+ padStart 2 "0" (number_toString (number_add userMonth 1)) +:+ "-"
      +:+ padStart 2 "0" (number_toString userDay) in
  let userDayOfWeek := onDate (getDay br) userDateTime in
  let userDayIndex :=
    if number_eqb userDayOfWeek 0 then num 6 else number_sub userDayOfWeek 1 in
  let dayName := arrayAt days userDayIndex in
  ({| Specific.date := userDateString;
      Specific.hour := userHour;
      Specific.dayName := dayName |}, []).

(** The console output of the conversions is not part of what
    [getAllPossibleDates] returns. *)
Definition getAllPossibleDates : list string :=
  let allDates :=
    forEach participants (fun participant allDates =>
      match availabilityType participant with
      | specific =>
          forEach (availability participant) (fun '(dateKey, hours) allDates =>
            forEach hours (fun hour allDates =>
              let converted :=
                fst (convertTimeSlotSpecific (timezone participant) userTimezone
                       dateKey hour) in
              Set_add (Specific.date converted) allDates) allDates) allDates
      | weekly => allDates
      end) [] in
  Array_sort allDates.

(** [availableParticipants] and the console, as the loops of
    [getAvailabilityData] leave them. *)
Definition AggState : Type := list Participant * list ConsoleEntry.

Definition push (p : Participant) (st : AggState) : AggState :=
  ((fst st ++ [p])%list, snd st).

Definition logged (es : list ConsoleEntry) (st : AggState) : AggState :=
  (fst st, (snd st ++ es)%list).

(** The callback of the innermost [forEach] of the weekly branch.  Nothing
    its [try] block calls throws (see [convertTimeSlot]): the [catch] block
    has no counterpart here. *)
Definition weeklyEntry (day : string) (hour : Z) (participant : Participant)
    (participantDay : string) (participantHour : Z) (st : AggState) : AggState :=
  let currentYear := getFullYear br now in
  let currentMonth := getMonth br now in
  let today := newDate br currentYear currentMonth (getDate br now) in
  let todayDayIndex := getDay br today in
  let dayIndex := indexOf days participantDay in
  if dayIndex =? -1 then st
  else
    let jsDayIndex := if dayIndex =? 6 then 0 else dayIndex + 1 in
    let daysToAdd := jsDayIndex - todayDayIndex in
    let daysToAdd := if daysToAdd <? 0 then daysToAdd + 7 else daysToAdd in
    let targetDate := today in
    let targetDate := setDate br targetDate (getDate br today + daysToAdd) in
    let targetDate := setHours br targetDate participantHour 0 0 0 in
    let utcTime := zonedTimeToUtc br db (Some targetDate) (timezone participant) in
    let userDateTime := utcToZonedTime br db utcTime userTimezone in
    let userDayOfWeek := onDate (getDay br) userDateTime in
    let userDayIndex :=
      if number_eqb userDayOfWeek 0 then num 6 else number_sub userDayOfWeek 1 in
    let userDay := arrayAt days userDayIndex in
    let userHour := onDate (getHours br) userDateTime in
    if String.eqb userDay day && number_eqb userHour hour
    then push participant st
    else st.

(** The callback of the innermost [forEach] of the specific-date branch. *)
Definition specificEntry (day : string) (hour : Z) (specificDate : string)
    (participant : Participant) (participantDateKey : string)
    (participantHour : Z) (st : AggState) : AggState :=
  let '(converted, out) :=
    convertTimeSlotSpecific (timezone participant) userTimezone
      participantDateKey participantHour in
  let st := logged out st in
  if String.eqb (Specific.date converted) specificDate
     && number_eqb (Specific.hour converted) hour
     && String.eqb (Specific.dayName converted) day
  then push participant st
  else st.

(** The callback of the outer [forEach]: one participant. *)
Definition perParticipant (day : string) (hour : Z) (specificDate : option string)
    (participant : Participant) (st : AggState) : AggState :=
  match availabilityType participant, truthy specificDate with
  | weekly, false =>
      forEach (availability participant) (fun '(participantDay, participantHours) st =>
        forEach participantHours (fun participantHour st =>
          weeklyEntry day hour participant participantDay participantHour st) st) st
  | specific, true =>
      forEach (availability participant) (fun '(participantDateKey, participantHours) st =>
        forEach participantHours (fun participantHour st =>
          specificEntry day hour (default "" specificDate) participant
            participantDateKey participantHour st) st) st
  | _, _ => st
  end.

Definition getAvailabilityData (day : string) (hour : Z) (specificDate : option string)
    : Data.t * list ConsoleEntry :=
  let '(availableParticipants, out) :=
    forEach participants (perParticipant day hour specificDate) ([], []) in
  ({| Data.participants := availableParticipants;
      Data.count := Z.of_nat (length availableParticipants);
      Data.participantNames := map name availableParticipants |}, out).

Definition getParticipantColor (participantId : string) : string :=
  let index := findIndex participants participantId in
  arrayGet PARTICIPANT_COLORS (Z.rem index (Z.of_nat (length PARTICIPANT_COLORS))).

Definition renderTimeSlot (day : string) (hour : Z) (specificDate : option string)
    : SlotView :=
  let r := fst (getAvailabilityData day hour specificDate) in
  let availableParticipants := Data.participants r in
  let count := Data.count r in
  let participantNames := Data.participantNames r in
  if count =? 0 then EmptySlot
  else
    let totalParticipants := Z.of_nat (length participants) in
    let isAllParticipants := count =? totalParticipants in
    FilledSlot (map (fun participant => getParticipantColor (id participant))
                    availableParticipants)
               isAllParticipants
               (if isAllParticipants then "all" else Number_toString count)
               participantNames.

End AvailabilityMap.

(** ** utils/timezone.ts, the DST check *)

Section DaylightSaving.

Variable br : Browser.
Variable db : ZoneDb.

(** [getTimezoneOffset]; [new Date(date.toISOString())] is [date] again, and
    the quotient is a fraction of minutes, or NaN ([None]) when [utcTime] is
    the Invalid Date. *)
Definition getTimezoneOffset (date : Z) (timezone : string) : option Q :=
  let utcDate := date in
  let zonedDate := utcToZonedTime br db (Some utcDate) timezone in
  let utcTime := zonedTimeToUtc br db zonedDate timezone in
  (fun t => (inject_Z (t - utcDate) / inject_Z (1000 * 60))%Q) <$> utcTime.

(** [isDaylightSavingTime] of a valid [date]: nothing in its [try] block
    throws then, and [a !== b] is true of two NaN. *)
Definition isDaylightSavingTime (date : Z) (timezone : string) : bool :=
  let currentOffset := getTimezoneOffset date timezone in
  let winterDate := newDate br (getFullYear br date) 0 1 in
  let winterOffset := getTimezoneOffset winterDate timezone in
  negb (match currentOffset, winterOffset with
        | Some a, Some b => Qeq_bool a b
        | _, _ => false
        end).

End DaylightSaving.

(** ** utils/timezone.ts, [getLocalTimeParts] *)

Module Intl.
(** One element of [formatToParts]. *)
Record Part := { type : string; value : string }.
End Intl.

Module LocalTimeParts.
(** [hour] is a [number]: [None] is NaN. *)
Record t := { weekday : string; hour : option Z }.
End LocalTimeParts.

Definition isWhiteSpace (c : ascii) : bool :=
  let n := N_of_ascii c in
  ((9 <=? n) && (n <=? 13))%N || (n =? 32)%N.

Fixpoint skipWhiteSpace (s : string) : string :=
  match s with
  | String c r => if isWhiteSpace c then skipWhiteSpace r else s
  | "" => ""
  end.

(** The value of the longest prefix of digits; [None] when it is empty. *)
Fixpoint leadingDigits (s : string) (acc : option Z) : option Z :=
  match s with
  | String c r =>
      match digit c with
      | Some d => leadingDigits r (Some (10 * default 0 acc + d))
      | None => acc
      end
  | "" => acc
  end.

(** [parseInt(s, 10)]; [None] is NaN. *)
Definition parseInt (s : string) : option Z :=
  match skipWhiteSpace s with
  | String "-" r => Z.opp <$> leadingDigits r None
  | String "+" r => leadingDigits r None
  | r => leadingDigits r None
  end.

(** [a || b] on an optional string. *)
Definition orElse (a : option string) (b : string) : string :=
  if truthy a then default "" a else b.

Section LocalTimeParts.

(** [new Intl.DateTimeFormat('en-US', { timeZone, hour12: false,
    weekday: 'long', hour: 'numeric' }).formatToParts(date)]; [None] when the
    constructor or the formatting throws. *)
Variable formatToParts : string -> Z -> option (list Intl.Part).

Definition findPart (ty : string) (parts : list Intl.Part) : option string :=
  Intl.value <$> find (fun p => String.eqb (Intl.type p) ty) parts.

Definition getLocalTimeParts (date : Z) (timeZone : string)
    : option LocalTimeParts.t :=
  parts ← formatToParts timeZone date;
  let weekday := orElse (findPart "weekday" parts) "" in
  let hour :=
    (fun n => Z.rem n 24) <$> parseInt (orElse (findPart "hour" parts) "0") in
  Some {| LocalTimeParts.weekday := weekday; LocalTimeParts.hour := hour |}.

End LocalTimeParts.

(** ** utils/storage.ts *)

(** [localStorage]: its items, and whether reading or writing throws (access
    denied, quota exceeded). *)
Record LocalStorage := {
  items : gmap string string;
  readable : bool;
  writable : bool;
}.

Definition setItem (ls : LocalStorage) (k v : string) : option LocalStorage :=
  if writable ls
  then Some {| items := <[k := v]> (items ls);
               readable := readable ls; writable := writable ls |}
  else None.

Definition getItem (ls : LocalStorage) (k : string) : option (option string) :=
  if readable ls then Some (items ls !! k) else None.

(** [array.join(sep)] *)
Fixpoint Array_join (sep : string) (l : list string) : string :=
  match l with
  | [] => ""
  | [x] => x
  | x :: r => x +:+ sep +:+ Array_join sep r
  end.

Definition STORAGE_KEY : string := "rp-court-participants".

Section Storage.

(** [JSON.stringify] of one participant object. *)
Variable stringifyParticipant : Participant -> string.

(** [JSON.parse], typed as the program types its result; [None] when it
    throws. *)
Variable JSON_parse : string -> option (list Participant).

(** [JSON.stringify] of an array. *)
Definition JSON_stringify (ps : list Participant) : string :=
  "[" +:+ Array_join "," (map stringifyParticipant ps) +:+ "]".

Definition saveParticipants (ls : LocalStorage) (participants : list Participant)
    : LocalStorage * list ConsoleEntry :=
  match setItem ls STORAGE_KEY (JSON_stringify participants) with
  | Some ls' => (ls', [])
  | None => (ls, [console_error "Failed to save participants:"])
  end.

Definition loadParticipants (ls : LocalStorage)
    : list Participant * list ConsoleEntry :=
  let attempt :=
    stored ← getItem ls STORAGE_KEY;
    if truthy stored then JSON_parse (default "" stored) else Some [] in
  match attempt with
  | Some r => (r, [])
  | None => ([], [console_error "Failed to load participants:"])
  end.

End Storage.

(** ** A browser and a zone database to run the program on *)

(** The wall-clock time value of hour [h] of the calendar day [y]-[m]-[d]. *)
Definition wallClock (y m d h : Z) : Z :=
  MakeDate (days_from_civil y m d) (h * msPerHour).

Module Sample.

(** A browser whose own zone is UTC. *)
Definition browser : Browser := {| LocalTime := fun t => t; UTC := fun t => t |}.

(** A zone: its standard offset and the offset changes of 2024, each from the
    instant it takes effect. *)
Record Zone := {
  zoneName : string;
  standard : Z;
  changes : list (Z * Z);
}.

Definition zones : list Zone := [
  {| zoneName := "UTC"; standard := 0; changes := [] |};
  {| zoneName := "Asia/Tokyo"; standard := 9 * msPerHour; changes := [] |};
  {| zoneName := "Asia/Kolkata"; standard := 5 * msPerHour + 30 * msPerMinute;
     changes := [] |};
  {| zoneName := "Europe/London"; standard := 0;
     changes := [(wallClock 2024 3 31 1, msPerHour); (wallClock 2024 10 27 1, 0)] |};
  {| zoneName := "America/New_York"; standard := -5 * msPerHour;
     changes := [(wallClock 2024 3 10 7, -4 * msPerHour); (wallClock 2024 11 3 6, -5 * msPerHour)] |};
  {| zoneName := "America/Los_Angeles"; standard := -8 * msPerHour;
     changes := [(wallClock 2024 3 10 10, -7 * msPerHour); (wallClock 2024 11 3 9, -8 * msPerHour)] |}
].

Definition offsetAt (z : Zone) (t : Z) : Z :=
  fold_left (fun acc c => if fst c <=? t then snd c else acc) (changes z) (standard z).

Definition lookup (zone : string) : option Zone :=
  find (fun z => String.eqb (zoneName z) zone) zones.

(** A wall-clock time is resolved with the offset in effect a day earlier
    when that offset still holds at the instant it gives, and with the offset
    in effect a day later otherwise. *)
Definition resolve (z : Zone) (w : Z) : Z :=
  let before := offsetAt z (w - msPerDay) in
  let after := offsetAt z (w + msPerDay) in
  if offsetAt z (w - before) =? before then w - before else w - after.

Definition zoneDb : ZoneDb := {|
  utcOffset := fun zone t => (fun z => offsetAt z t) <$> lookup zone;
  localToInstant := fun zone w => (fun z => resolve z w) <$> lookup zone;
|}.

(** A browser whose own zone is [zone], as ECMAScript has [LocalTime] and
    [UTC]: a wall-clock time that the zone skips, or shows twice, is read with
    the offset in effect before the change. *)
Definition browserIn (zone : string) : Browser :=
  match lookup zone with
  | Some z =>
      {| LocalTime := fun t => t + offsetAt z t;
         UTC := fun w =>
           let before := offsetAt z (w - msPerDay) in
           let after := offsetAt z (w + msPerDay) in
           if offsetAt z (w - before) =? before then w - before
           else if offsetAt z (w - after) =? after then w - after
           else w - before |}
  | None => browser
  end.

(** Monday 2024-07-01, 09:30 UTC. *)
Definition now : Z := wallClock 2024 7 1 9 + 30 * msPerMinute.

(** Saturday 2024-03-09, 17:00 UTC: noon in New York, the day before its
    clocks skip from 02:00 to 03:00. *)
Definition springEve : Z := wallClock 2024 3 9 17.

Definition participant (id tz : string) (ty : AvailabilityType)
    (av : list (string * list Z)) : Participant :=
  {| id := id; name := id; role := Witness; timezone := tz;
     availability := av; availabilityType := ty;
     createdAt := "2024-06-30T00:00:00.000Z" |}.

End Sample.

(** * Vocabulary of the properties *)

(** Appending to the state of the loops of [getAvailabilityData]. *)
Definition st_app (a b : AggState) : AggState :=
  ((fst a ++ fst b)%list, (snd a ++ snd b)%list).

Definition st_nil : AggState := ([], []).

(** A callback that leaves what was there and appends its own output. *)
Definition Appender (f : AggState -> AggState) : Prop :=
  forall st, f st = st_app st (f st_nil).

(** The raw (key, hour) entries of a participant, in the order the loops
    visit them. *)
Definition entries (p : Participant) : list (string * Z) :=
  flat_map (fun kh => map (pair (fst kh)) (snd kh)) (availability p).

Definition withAvailability (p : Participant) (av : list (string * list Z))
    : Participant :=
  {| id := id p; name := name p; role := role p; timezone := timezone p;
     availability := av; availabilityType := availabilityType p;
     createdAt := createdAt p |}.

Section Vocabulary.

Variable br : Browser.
Variable db : ZoneDb.
Variable now : Z.
Variable userTimezone : string.

(** The callback the loops run on one raw entry of [p]. *)
Definition entryStep (day : string) (hour : Z) (specificDate : option string)
    (p : Participant) (e : string * Z) (st : AggState) : AggState :=
  match availabilityType p, truthy specificDate with
  | weekly, false => weeklyEntry br db now userTimezone day hour p (fst e) (snd e) st
  | specific, true =>
      specificEntry br db userTimezone day hour (default "" specificDate) p
        (fst e) (snd e) st
  | _, _ => st
  end.

(** The raw entry [e] of [p], taken alone, converts to the cell. *)
Definition lands (day : string) (hour : Z) (specificDate : option string)
    (p : Participant) (e : string * Z) : bool :=
  negb (Data.count (fst (getAvailabilityData br db now
          [withAvailability p [(fst e, [snd e])]] userTimezone
          day hour specificDate)) =? 0).

(** The observer-zone date a raw specific-date entry converts to. *)
Definition convertedDate (p : Participant) (e : string * Z) : string :=
  Specific.date (fst (convertTimeSlotSpecific br db (timezone p) userTimezone
                        (fst e) (snd e))).

End Vocabulary.

(** Strictly ascending strings: the order [sort()] puts them in, without
    repetition. *)
Definition String_lt (a b : string) : Prop := String.compare a b = Lt.

(** The browser's own clock skips no wall-clock time: local fields written
    into a [Date] are the local fields read back. *)
Definition Gapless (br : Browser) : Prop := forall w, LocalTime br (UTC br w) = w.

(** Monday-first index to [getDay] index, and back. *)
Definition toSundayFirst (i : Z) : Z := if i =? 6 then 0 else i + 1.
Definition toMondayFirst (w : Z) : Z := if w =? 0 then 6 else w - 1.

Definition daysToAdd (jsDayIndex todayDayIndex : Z) : Z :=
  let d := jsDayIndex - todayDayIndex in if d <? 0 then d + 7 else d.

(** The day number of the [Date] the weekly conversion starts from,
    [new Date(currentYear, currentMonth, now.getDate())]: today, unless now is
    in the years 0 to 99. *)
Definition todayNumber (br : Browser) (now : Z) : Z :=
  let t := LocalTime br now in
  let year := YearFromTime t in
  MakeDay (if (0 <=? year) && (year <=? 99) then 1900 + year else year)
          (MonthFromTime t) (DateFromTime t).

(** The wall-clock time the weekly conversion of ([dayName], [hour]) pivots
    on: that hour of the first such weekday from today on. *)
Definition weeklyPivot (br : Browser) (now : Z) (dayName : string) (hour : Z) : Z :=
  let today := todayNumber br now in
  MakeDate (today + daysToAdd (toSundayFirst (getDayIndex dayName))
                              (WeekDay (MakeDate today 0)))
           (MakeTime hour 0 0 0).

(** The converted slot, read off the wall-clock time [w] of the observer. *)
Definition slotOfWall (w : Z) : Slot :=
  {| day := getDayName (toMondayFirst (WeekDay w)); hour := HourFromTime w |}.

(** The wall-clock times the weekly conversion of ([dayName], [hour]) writes
    into a [Date] of the browser and reads back: midnight today, midnight of
    the target day, the pivot, and the wall-clock time [wall] the observer's
    zone shows. *)
Definition weeklyWalls (br : Browser) (now : Z) (dayName : string) (hour wall : Z)
    : list Z :=
  let today := todayNumber br now in
  [MakeDate today 0;
   MakeDate (today + daysToAdd (toSundayFirst (getDayIndex dayName))
                               (WeekDay (MakeDate today 0))) 0;
   weeklyPivot br now dayName hour;
   wall].

(** What the conversions return when they went through the Invalid Date. *)
Definition invalidSlot : Slot := {| day := "undefined"; hour := NaN |}.

Definition invalidSpecific : Specific.t :=
  {| Specific.date := "NaN-NaN-NaN"; Specific.hour := NaN;
     Specific.dayName := "undefined" |}.

(** The browser's own clock does not skip the wall-clock time [w]. *)
Definition GaplessAt (br : Browser) (w : Z) : Prop := LocalTime br (UTC br w) = w.

(** * Further parts of the program *)

(** ** utils/storage.ts and the form's last-used timezone *)

Definition removeItem (ls : LocalStorage) (k : string) : option LocalStorage :=
  if writable ls
  then Some {| items := delete k (items ls);
               readable := readable ls; writable := writable ls |}
  else None.

Definition clearParticipants (ls : LocalStorage) : LocalStorage * list ConsoleEntry :=
  match removeItem ls STORAGE_KEY with
  | Some ls' => (ls', [])
  | None => (ls, [console_error "Failed to clear participants:"])
  end.

Definition LAST_TIMEZONE_KEY : string := "rp-court-last-timezone".

Definition saveLastTimezone (ls : LocalStorage) (timezone : string)
    : LocalStorage * list ConsoleEntry :=
  match setItem ls LAST_TIMEZONE_KEY timezone with
  | Some ls' => (ls', [])
  | None => (ls, [console_error "Failed to save last timezone:"])
  end.

(** [None] is [null]. *)
Definition loadLastTimezone (ls : LocalStorage) : option string * list ConsoleEntry :=
  match getItem ls LAST_TIMEZONE_KEY with
  | Some r => (r, [])
  | None => (None, [console_error "Failed to load last timezone:"])
  end.

(** The [value]s of [TIMEZONE_OPTIONS], in order. *)
Definition TIMEZONE_OPTIONS : list string :=
  ["Etc/GMT+12"; "Pacific/Honolulu"; "America/Anchorage"; "America/Los_Angeles";
   "America/Denver"; "America/Chicago"; "America/New_York"; "America/Caracas";
   "America/Sao_Paulo"; "America/Argentina/Buenos_Aires"; "Etc/GMT+2";
   "Atlantic/Azores"; "Europe/London"; "Europe/Berlin"; "Europe/Paris";
   "Africa/Cairo"; "Europe/Moscow"; "Asia/Dubai"; "Asia/Karachi"; "Asia/Dhaka";
   "Asia/Bangkok"; "Asia/Hong_Kong"; "Asia/Tokyo"; "Australia/Sydney";
   "Pacific/Auckland"].

(** The timezone the form starts with when it opens (the effect on [isOpen]). *)
Definition initialTimezone (ls : LocalStorage) (userTimezone : string) : string :=
  let lastTimezone := fst (loadLastTimezone ls) in
  if truthy lastTimezone
     && existsb (fun tz => String.eqb tz (default "" lastTimezone)) TIMEZONE_OPTIONS
  then default "" lastTimezone
  else userTimezone.

(** ** App.tsx *)

(** What the form submits: a participant without [id] and [createdAt]. *)
Module ParticipantData.
Record t := {
  name : string;
  role : ParticipantRole;
  timezone : string;
  availability : list (string * list Z);
  availabilityType : AvailabilityType;
}.
End ParticipantData.

(** [uuid] is what [crypto.randomUUID()] returns and [isoNow] what
    [new Date().toISOString()] does. *)
Definition handleAddParticipant (uuid isoNow : string)
    (participantData : ParticipantData.t) (prev : list Participant)
    : list Participant :=
  let newParticipant :=
    {| id := uuid;
       name := ParticipantData.name participantData;
       role := ParticipantData.role participantData;
       timezone := ParticipantData.timezone participantData;
       availability := ParticipantData.availability participantData;
       availabilityType := ParticipantData.availabilityType participantData;
       createdAt := isoNow |} in
  (prev ++ [newParticipant])%list.

Definition handleRemoveParticipant (id_ : string) (prev : list Participant)
    : list Participant :=
  List.filter (fun p => negb (String.eqb (id p) id_)) prev.

(** [confirmed] is the answer of [window.confirm]. *)
Definition handleClearAll (confirmed : bool) (participants : list Participant)
    (ls : LocalStorage) : list Participant * LocalStorage * list ConsoleEntry :=
  if confirmed
  then let '(ls', out) := clearParticipants ls in ([], ls', out)
  else (participants, ls, []).

(** [getTotalAvailableHours] of the participant card. *)
Definition getTotalAvailableHours (participant : Participant) : Z :=
  fold_left (fun total hours => total + Z.of_nat (length hours))
            (map snd (availability participant)) 0.

(** The "total available hours" figure of the action bar. *)
Definition totalAvailableHours (participants : list Participant) : Z :=
  fold_left (fun total p =>
    total + fold_left (fun sum hours => sum + Z.of_nat (length hours))
                      (map snd (availability p)) 0) participants 0.

(** ** components/AvailabilityMap.tsx, the grid *)

Section Grid.

Variable br : Browser.
Variable db : ZoneDb.
Variable now : Z.
Variable participants : list Participant.
Variable userTimezone : string.

(** [participants.length > 0 ? participants[0].availabilityType : 'weekly'] *)
Definition gridAvailabilityType : AvailabilityType :=
  match participants with
  | p :: _ => availabilityType p
  | [] => weekly
  end.

Definition specificDates : list string :=
  match gridAvailabilityType with
  | specific => getAllPossibleDates br db participants userTimezone
  | weekly => []
  end.

(** The weekday name a date column is headed and rendered with:
    [new Date(dateKey + 'T12:00:00').getDay()], Monday first.  On an Invalid
    Date [getDay()] is NaN and the array read misses. *)
Definition displayDayName (dateKey : string) : string :=
  match newDate_string br (dateKey +:+ "T12:00:00") with
  | Some date =>
      let dayOfWeek := getDay br date in
      let mondayFirstIndex := if dayOfWeek =? 0 then 6 else dayOfWeek - 1 in
      arrayGet days mondayFirstIndex
  | None => "undefined"
  end.

(** The arguments of every [renderTimeSlot] call of the grid, row by row. *)
Definition gridCells : list (string * Z * option string) :=
  match gridAvailabilityType with
  | weekly =>
      flat_map (fun hour => map (fun day => (day, hour, None)) days) hours
  | specific =>
      flat_map (fun hour =>
        map (fun dateKey => (displayDayName dateKey, hour, Some dateKey))
            specificDates) hours
  end.

End Grid.

(** ** The first version of the component ([getAvailabilityData] calling
    [convertTimeSlot]) *)

Section AvailabilityMapV1.

Variable br : Browser.
Variable db : ZoneDb.
Variable now : Z.
Variable participants : list Participant.
Variable userTimezone : string.

Definition getAvailabilityData_v1 (day : string) (hour : Z)
    : Data.t * list ConsoleEntry :=
  let '(availableParticipants, out) :=
    forEach participants (fun participant st =>
      forEach (availability participant) (fun '(participantDay, participantHours) st =>
        forEach participantHours (fun participantHour st =>
          let '({| day := convertedDay; hour := convertedHour |}, out) :=
            convertTimeSlot br db now (timezone participant) userTimezone
              participantDay participantHour None in
          let st := logged out st in
          if String.eqb convertedDay day && number_eqb convertedHour hour
          then push participant st
          else st) st) st) ([], []) in
  ({| Data.participants := availableParticipants;
      Data.count := Z.of_nat (length availableParticipants);
      Data.participantNames := map name availableParticipants |}, out).

(** The callback of its innermost loop, on one raw entry. *)
Definition v1Entry (cellDay : string) (cellHour : Z) (p : Participant)
    (e : string * Z) (st : AggState) : AggState :=
  let '({| day := convertedDay; hour := convertedHour |}, out) :=
    convertTimeSlot br db now (timezone p) userTimezone (fst e) (snd e) None in
  let st := logged out st in
  if String.eqb convertedDay cellDay && number_eqb convertedHour cellHour
  then push p st
  else st.

End AvailabilityMapV1.

(** ** Checks behind the date-string round trip *)

(** The day of month of a day of era is a day of its month. *)
Definition dom_ok (doe : Z) : bool :=
  let '(yoe, mp, d) := doe_fields doe in
  let m := if mp <? 10 then mp + 3 else mp - 9 in
  let y := if m <=? 2 then yoe + 1 else yoe in
  (1 <=? d) && (d <=? daysInMonth y m).

(** A year that [toString] writes in four digits which read back. *)
Definition year4_ok (y : Z) : bool :=
  match Number_toString y with
  | String _ (String _ (String _ (String _ ""))) =>
      match decimal (Number_toString y) with
      | Some v => v =? y
      | None => false
      end
  | _ => false
  end.

(** A number that [padStart(2, '0')] writes in two digits which read back. *)
Definition pad2_ok (n : Z) : bool :=
  match padStart 2 "0" (Number_toString n) with
  | String _ (String _ "") =>
      match decimal (padStart 2 "0" (Number_toString n)) with
      | Some v => v =? n
      | None => false
      end
  | _ => false
  end.

(** The date [convertTimeSlotSpecific] writes for the wall-clock time [w]. *)
Definition dateString (w : Z) : string :=
  Number_toString (YearFromTime w) +:+ "-"
    +:+ padStart 2 "0" (Number_toString (MonthFromTime w + 1)) +:+ "-"
    +:+ padStart 2 "0" (Number_toString (DateFromTime w)).

(** The wall-clock time of the observer that the specific-date entry
    ([key], [hour]) converts to, when its conversion succeeds. *)
Definition specificWall (db : ZoneDb) (participantTimezone userTimezone : string)
    (key : string) (hour : Z) : option Z :=
  utcTime ← zonedTimeToUtc_string db
    (key +:+ "T" +:+ padStart 2 "0" (Number_toString hour) +:+ ":00:00")
    participantTimezone;
  off ← utcOffset db userTimezone utcTime;
  Some (utcTime + off).

(** ** components/ParticipantForm.tsx, editing the availability *)

(** Objects keyed by day names or dates (no key is an array index): their
    entries in insertion order.  [objGet] is [o[k]], [objSet] is
    [{ ...o, [k]: v }] (or [o[k] = v] on a copy), [objDelete] is [delete o[k]]
    on a copy. *)
Fixpoint objGet {V : Type} (o : list (string * V)) (k : string) : option V :=
  match o with
  | [] => None
  | (k', v) :: r => if String.eqb k' k then Some v else objGet r k
  end.

Fixpoint objSet {V : Type} (o : list (string * V)) (k : string) (v : V)
    : list (string * V) :=
  match o with
  | [] => [(k, v)]
  | (k', v') :: r =>
      if String.eqb k' k then (k', v) :: r else (k', v') :: objSet r k v
  end.

Definition objDelete {V : Type} (o : list (string * V)) (k : string)
    : list (string * V) :=
  List.filter (fun kv => negb (String.eqb (fst kv) k)) o.

(** [set.delete(x)] *)
Definition Set_delete (x : string) (s : list string) : list string :=
  List.filter (fun y => negb (String.eqb y x)) s.

(** [array.includes(x)] on numbers *)
Definition includes (l : list Z) (x : Z) : bool := existsb (Z.eqb x) l.

(** [array.sort((a, b) => a - b)] *)
Definition sortNumbers (l : list Z) : list Z := merge_sort Z.le l.

Definition DAYS_OF_WEEK : list string :=
  ["Monday"; "Tuesday"; "Wednesday"; "Thursday"; "Friday"; "Saturday"; "Sunday"].

Module Form.

(** The state of the form that the availability handlers read and set. *)
Record t := {
  availabilityType : AvailabilityType;
  availability : list (string * list Z);
  expandedDays : list (string * bool);
  selectedDates : list string;
  expandedCalendarDates : list (string * bool);
}.

Definition initial : t :=
  {| availabilityType := weekly; availability := []; expandedDays := [];
     selectedDates := []; expandedCalendarDates := [] |}.

Definition setAvailability (f : list (string * list Z) -> list (string * list Z))
    (st : t) : t :=
  {| availabilityType := availabilityType st;
     availability := f (availability st);
     expandedDays := expandedDays st;
     selectedDates := selectedDates st;
     expandedCalendarDates := expandedCalendarDates st |}.

Definition setExpandedDays (f : list (string * bool) -> list (string * bool))
    (st : t) : t :=
  {| availabilityType := availabilityType st;
     availability := availability st;
     expandedDays := f (expandedDays st);
     selectedDates := selectedDates st;
     expandedCalendarDates := expandedCalendarDates st |}.

Definition setSelectedDates (f : list string -> list string) (st : t) : t :=
  {| availabilityType := availabilityType st;
     availability := availability st;
     expandedDays := expandedDays st;
     selectedDates := f (selectedDates st);
     expandedCalendarDates := expandedCalendarDates st |}.

Definition setExpandedCalendarDates (f : list (string * bool) -> list (string * bool))
    (st : t) : t :=
  {| availabilityType := availabilityType st;
     availability := availability st;
     expandedDays := expandedDays st;
     selectedDates := selectedDates st;
     expandedCalendarDates := f (expandedCalendarDates st) |}.

Definition handleAvailabilityTypeChange (newType : AvailabilityType) (st : t) : t :=
  {| availabilityType := newType; availability := []; expandedDays := [];
     selectedDates := []; expandedCalendarDates := [] |}.

Definition toggleDay (day : string) (st : t) : t :=
  let st' := setExpandedDays (fun prev =>
               objSet prev day (negb (default false (objGet prev day)))) st in
  if default false (objGet (expandedDays st) day)
     && match objGet (availability st) day with
        | None => true
        | Some hs => Nat.eqb (length hs) 0
        end
  then setAvailability (fun _ => objDelete (availability st) day) st'
  else st'.

Definition toggleTimeSlot (day : string) (hour : Z) (st : t) : t :=
  setAvailability (fun prev =>
    objSet prev day
      (match objGet prev day with
       | Some hs =>
           if includes hs hour
           then List.filter (fun h => negb (h =? hour)) hs
           else sortNumbers (hs ++ [hour])
       | None => sortNumbers ([] ++ [hour])
       end)) st.

Definition selectAllHours (day : string) (st : t) : t :=
  setAvailability (fun prev => objSet prev day (seqZ 0 24)) st.

Definition clearAllHours (day : string) (st : t) : t :=
  setAvailability (fun prev => objDelete prev day) st.

Definition copyHoursToAllDays (sourceDay : string) (st : t) : t :=
  let sourceHours := default [] (objGet (availability st) sourceDay) in
  if Nat.eqb (length sourceHours) 0 then st
  else
    let newAvailability :=
      forEach DAYS_OF_WEEK (fun day newAvailability =>
        if negb (String.eqb day sourceDay)
        then objSet newAvailability day sourceHours
        else newAvailability) (availability st) in
    let newExpandedDays :=
      forEach DAYS_OF_WEEK (fun day newExpandedDays =>
        objSet newExpandedDays day true) (expandedDays st) in
    setExpandedDays (fun _ => newExpandedDays)
      (setAvailability (fun _ => newAvailability) st).

Definition copyHoursToSelectedDays (sourceDay : string) (targetDays : list string)
    (st : t) : t :=
  let sourceHours := default [] (objGet (availability st) sourceDay) in
  if Nat.eqb (length sourceHours) 0 then st
  else
    let newAvailability :=
      forEach targetDays (fun day newAvailability =>
        if negb (String.eqb day sourceDay)
        then objSet newAvailability day sourceHours
        else newAvailability) (availability st) in
    setAvailability (fun _ => newAvailability) st.

Definition copyHoursToAllSelectedDates (sourceDateKey : string) (st : t) : t :=
  let sourceHours := default [] (objGet (availability st) sourceDateKey) in
  if Nat.eqb (length sourceHours) 0 then st
  else
    let newAvailability :=
      forEach (selectedDates st) (fun dateKey newAvailability =>
        if negb (String.eqb dateKey sourceDateKey)
        then objSet newAvailability dateKey sourceHours
        else newAvailability) (availability st) in
    let newExpandedDates :=
      forEach (selectedDates st) (fun dateKey newExpandedDates =>
        objSet newExpandedDates dateKey true) (expandedCalendarDates st) in
    setExpandedCalendarDates (fun _ => newExpandedDates)
      (setAvailability (fun _ => newAvailability) st).

Definition setCommonWorkingHours (st : t) : t :=
  let workingHours := [9; 10; 11; 12; 13; 14; 15; 16; 17] in
  let newAvailability :=
    forEach (firstn 5 DAYS_OF_WEEK) (fun day newAvailability =>
      objSet newAvailability day workingHours) (availability st) in
  let newExpandedDays :=
    forEach (firstn 5 DAYS_OF_WEEK) (fun day newExpandedDays =>
      objSet newExpandedDays day true) (expandedDays st) in
  setExpandedDays (fun _ => newExpandedDays)
    (setAvailability (fun _ => newAvailability) st).

Definition clearAllDays (st : t) : t :=
  setExpandedDays (fun _ => []) (setAvailability (fun _ => []) st).

Definition clearAllSelectedDates (st : t) : t :=
  setExpandedCalendarDates (fun _ => []) (setAvailability (fun _ => []) st).

(** [toggleCalendarDate(date)], on the key [formatDateKey(date)] gives. *)
Definition toggleCalendarDate (dateKey : string) (st : t) : t :=
  if bool_decide (dateKey ∈ selectedDates st)
  then setSelectedDates (fun _ => Set_delete dateKey (selectedDates st))
         (setAvailability (fun _ => objDelete (availability st) dateKey) st)
  else setSelectedDates (fun _ => Set_add dateKey (selectedDates st)) st.

Definition toggleCalendarDateExpansion (dateKey : string) (st : t) : t :=
  setExpandedCalendarDates (fun prev =>
    objSet prev dateKey (negb (default false (objGet prev dateKey)))) st.

Definition isDaySelected (day : string) (st : t) : bool :=
  match objGet (availability st) day with
  | Some hs => negb (Nat.eqb (length hs) 0)
  | None => false
  end.

(** [formatHour] is [formatHourForLocation(h, userLocale)]. *)
Definition getSelectedHoursText (formatHour : Z -> string) (day : string) (st : t)
    : string :=
  let hours := default [] (objGet (availability st) day) in
  if Nat.eqb (length hours) 0 then "No selected hours"
  else if Nat.eqb (length hours) 24 then "Full day available"
  else if Nat.leb (length hours) 3 then Array_join ", " (map formatHour hours)
  else Number_toString (Z.of_nat (length hours)) +:+ " hours selected".

(** One click on the availability part of the form. *)
Inductive Action :=
  | AvailabilityTypeChange (newType : AvailabilityType)
  | ToggleDay (day : string)
  | ToggleTimeSlot (day : string) (hour : Z)
  | SelectAllHours (day : string)
  | ClearAllHours (day : string)
  | CopyHoursToAllDays (sourceDay : string)
  | CopyHoursToSelectedDays (sourceDay : string) (targetDays : list string)
  | CopyHoursToAllSelectedDates (sourceDateKey : string)
  | SetCommonWorkingHours
  | ClearAllDays
  | ClearAllSelectedDates
  | ToggleCalendarDate (dateKey : string)
  | ToggleCalendarDateExpansion (dateKey : string).

Definition step (a : Action) (st : t) : t :=
  match a with
  | AvailabilityTypeChange newType => handleAvailabilityTypeChange newType st
  | ToggleDay day => toggleDay day st
  | ToggleTimeSlot day hour => toggleTimeSlot day hour st
  | SelectAllHours day => selectAllHours day st
  | ClearAllHours day => clearAllHours day st
  | CopyHoursToAllDays sourceDay => copyHoursToAllDays sourceDay st
  | CopyHoursToSelectedDays sourceDay targetDays =>
      copyHoursToSelectedDays sourceDay targetDays st
  | CopyHoursToAllSelectedDates sourceDateKey =>
      copyHoursToAllSelectedDates sourceDateKey st
  | SetCommonWorkingHours => setCommonWorkingHours st
  | ClearAllDays => clearAllDays st
  | ClearAllSelectedDates => clearAllSelectedDates st
  | ToggleCalendarDate dateKey => toggleCalendarDate dateKey st
  | ToggleCalendarDateExpansion dateKey => toggleCalendarDateExpansion dateKey st
  end.

(** The hour buttons of the form are those of hours 0 to 23. *)
Definition offered (a : Action) : Prop :=
  match a with
  | ToggleTimeSlot _ hour => 0 <= hour <= 23
  | _ => True
  end.

(** Hours strictly ascending and between 0 and 23. *)
Definition hoursOk (hs : list Z) : Prop :=
  StronglySorted Z.lt hs /\ Forall (fun h => 0 <= h <= 23) hs.

(** Distinct keys, each with such hours. *)
Definition WellFormed (av : list (string * list Z)) : Prop :=
  NoDup (map fst av) /\ Forall (fun kv => hoursOk (snd kv)) av.

(** A form with some hours chosen and a run of clicks, for the examples. *)
Definition sample : t :=
  {| availabilityType := weekly;
     availability := [("Monday", [9; 14]); ("Friday", [10])];
     expandedDays := [];
     selectedDates := ["2024-07-04"; "2024-07-05"];
     expandedCalendarDates := [] |}.

Definition sampleClicks : list Action :=
  [ToggleTimeSlot "Monday" 14; ToggleTimeSlot "Monday" 9;
   CopyHoursToAllDays "Monday"; ToggleTimeSlot "Sunday" 9;
   SetCommonWorkingHours; SelectAllHours "Saturday"; ToggleDay "Tuesday"].

End Form.

(** ** components/ParticipantForm.tsx, the calendar *)

Definition MinFromTime (t : Z) : Z := (t / msPerMinute) mod 60.
Definition SecFromTime (t : Z) : Z := (t / msPerSecond) mod 60.
Definition msFromTime (t : Z) : Z := t mod msPerSecond.

(** [d.toISOString()]: the fields of the instant in UTC. *)
Definition toISOString (d : Z) : string :=
  let y := YearFromTime d in
  (if (0 <=? y) && (y <=? 9999) then padStart 4 "0" (Number_toString y)
   else (if y <? 0 then "-" else "+") +:+ padStart 6 "0" (Number_toString (Z.abs y)))
  +:+ "-" +:+ padStart 2 "0" (Number_toString (MonthFromTime d + 1))
  +:+ "-" +:+ padStart 2 "0" (Number_toString (DateFromTime d))
  +:+ "T" +:+ padStart 2 "0" (Number_toString (HourFromTime d))
  +:+ ":" +:+ padStart 2 "0" (Number_toString (MinFromTime d))
  +:+ ":" +:+ padStart 2 "0" (Number_toString (SecFromTime d))
  +:+ "." +:+ padStart 3 "0" (Number_toString (msFromTime d))
  +:+ "Z".

(** [s.split(c)[0]] *)
Fixpoint splitFirst (c : ascii) (s : string) : string :=
  match s with
  | "" => ""
  | String a r => if Ascii.eqb a c then "" else String a (splitFirst c r)
  end.

Definition formatDateKey (date : Z) : string := splitFirst "T" (toISOString date).

Section Calendar.

Variable br : Browser.

(** The clock read by [new Date()]. *)
Variable now : Z.

Definition generateCalendarDates : list (list Z) :=
  let today := now in
  let dayOfWeek := getDay br today in
  let daysToSubtract := if dayOfWeek =? 0 then 6 else dayOfWeek - 1 in
  let startOfCurrentWeek := setDate br today (getDate br today - daysToSubtract) in
  map (fun week =>
    map (fun day =>
      setDate br startOfCurrentWeek (getDate br startOfCurrentWeek + week * 7 + day))
      (seqZ 0 7))
    (seqZ 0 5).

End Calendar.

(** A string without the letter T. *)
Fixpoint noT (s : string) : bool :=
  match s with
  | "" => true
  | String a r => negb (Ascii.eqb a "T") && noT r
  end.

Definition year4_noT (y : Z) : bool := noT (Number_toString y).
Definition pad2_noT (n : Z) : bool := noT (padStart 2 "0" (Number_toString n)).

(** ** Timezone names on display *)

(** [s.replace(/c/g, r)] for a one-character pattern and filler. *)
Fixpoint replaceAll (c r : ascii) (s : string) : string :=
  match s with
  | "" => ""
  | String a t => String (if Ascii.eqb a c then r else a) (replaceAll c r t)
  end.

(** [s.replace(c, r)], which replaces the first match only. *)
Fixpoint replaceFirst (c r : ascii) (s : string) : string :=
  match s with
  | "" => ""
  | String a t => if Ascii.eqb a c then String r t else String a (replaceFirst c r t)
  end.

(** utils/timezone.ts *)
Definition formatTimezone (timezone : string) : string := replaceAll "_" " " timezone.

(** The legend of the availability map. *)
Definition legendTimezone (userTimezone : string) : string :=
  replaceFirst "_" " " userTimezone.

Fixpoint occurrences (c : ascii) (s : string) : nat :=
  match s with
  | "" => 0
  | String a t => ((if Ascii.eqb a c then 1 else 0) + occurrences c t)%nat
  end.

(** * Properties *)

(** ** The calendar *)

Module TimeFacts.

Lemma all_from_spec fuel : forall lo p,
  all_from lo fuel p = true ->
  forall i, lo <= i < lo + Z.of_nat fuel -> p i = true.
Proof.
  induction fuel as [|k IH]; simpl; intros lo p H i Hi; [lia|].
  apply andb_true_iff in H as [Hlo Hrest].
  destruct (Z.eq_dec i lo) as [->|Hne]; [exact Hlo|].
  apply (IH (lo + 1)); [exact Hrest | lia].
Qed.

Lemma doe_ok_era : all_from 0 (Z.to_nat 146097) doe_ok = true.
Proof. vm_compute. reflexivity. Qed.

Lemma doe_ok_all : forall doe, 0 <= doe < 146097 -> doe_ok doe = true.
Proof.
  intros doe Hdoe.
  apply (all_from_spec _ _ _ doe_ok_era).
  rewrite Z2Nat.id; lia.
Qed.

Lemma civil_roundtrip z :
  let '(y, m, d) := civil_from_days z in
  0 <= m < 12 /\ days_from_civil y (m + 1) d = z.
Proof.
  unfold civil_from_days.
  pose proof (Z.mod_pos_bound (z + 719468) 146097 eq_refl) as Hdoe.
  pose proof (doe_ok_all _ Hdoe) as Hok. unfold doe_ok in Hok.
  destruct (doe_fields ((z + 719468) mod 146097)) as [[yoe mp] d].
  repeat (apply andb_true_iff in Hok as [Hok ?]).
  assert (Hera : (z + 719468) = 146097 * ((z + 719468) / 146097)
                               + (z + 719468) mod 146097)
    by (apply Z.div_mod; lia).
  set (era := (z + 719468) / 146097) in *.
  set (doe := (z + 719468) mod 146097) in *.
  assert (Hy : forall k, 0 <= k < 400 ->
             (k + era * 400) / 400 = era /\ (k + era * 400) mod 400 = k).
  { intros k Hk. rewrite Z.div_add, Z.mod_add by lia.
    rewrite Z.div_small, Z.mod_small by lia. lia. }
  destruct (Hy yoe ltac:(lia)) as [Hq Hr].
  unfold days_from_civil.
  destruct (mp <? 10) eqn:Hmp.
  - assert ((mp + 3 <=? 2) = false) as -> by lia.
    assert ((mp + 3 - 1 + 1 <=? 2) = false) as -> by lia.
    assert ((2 <? mp + 3 - 1 + 1) = true) as -> by lia.
    rewrite Hq, Hr. replace (mp + 3 - 1 + 1 - 3) with mp by lia. lia.
  - assert ((mp - 9 <=? 2) = true) as -> by lia.
    assert ((mp - 9 - 1 + 1 <=? 2) = true) as -> by lia.
    assert ((2 <? mp - 9 - 1 + 1) = false) as -> by lia.
    replace (yoe + era * 400 + 1 - 1) with (yoe + era * 400) by lia.
    rewrite Hq, Hr. replace (mp - 9 - 1 + 1 + 9) with mp by lia. lia.
Qed.

(** Rebuilding a day from its own calendar fields, shifted by [k] days of the
    month, moves it by [k] days: what [setDate(getDate() + k)] relies on. *)
Lemma MakeDay_fields n k :
  let '(y, m, d) := civil_from_days n in MakeDay y m (d + k) = n + k.
Proof.
  pose proof (civil_roundtrip n) as H.
  destruct (civil_from_days n) as [[y m] d]. destruct H as [Hm H].
  unfold MakeDay. rewrite Z.div_small, Z.mod_small, Z.add_0_r by lia.
  unfold days_from_civil in *.
  destruct (m + 1 <=? 2), (2 <? m + 1); lia.
Qed.

Lemma WeekDay_range t : 0 <= WeekDay t < 7.
Proof. unfold WeekDay. apply Z.mod_pos_bound. lia. Qed.

Lemma HourFromTime_range t : 0 <= HourFromTime t < 24.
Proof. unfold HourFromTime. apply Z.mod_pos_bound. lia. Qed.

Lemma Day_MakeDate d h : 0 <= h < msPerDay -> Day (MakeDate d h) = d.
Proof.
  intros Hh. unfold Day, MakeDate.
  rewrite Z.add_comm, Z.div_add by (unfold msPerDay; lia).
  rewrite Z.div_small by lia. lia.
Qed.

End TimeFacts.

Import TimeFacts.

(** ** The loops of [getAvailabilityData] only append *)

Lemma st_app_nil_r st : st_app st st_nil = st.
Proof. destruct st. unfold st_app. simpl. by rewrite !app_nil_r. Qed.

Lemma st_app_assoc a b c : st_app (st_app a b) c = st_app a (st_app b c).
Proof. unfold st_app. simpl. by rewrite !app_assoc. Qed.

Lemma forEach_cons {A S} (f : A -> S -> S) a l s :
  forEach (a :: l) f s = forEach l f (f a s).
Proof. reflexivity. Qed.

Lemma forEach_app {A S} (f : A -> S -> S) l1 l2 s :
  forEach (l1 ++ l2) f s = forEach l2 f (forEach l1 f s).
Proof. unfold forEach. apply fold_left_app. Qed.

Lemma Appender_forEach {A} (f : A -> AggState -> AggState) l :
  (forall a, Appender (f a)) -> Appender (forEach l f).
Proof.
  intros Hf. induction l as [|a l IH]; intros st.
  - by rewrite st_app_nil_r.
  - rewrite !forEach_cons, IH, (IH (f a st_nil)), (Hf a st).
    apply st_app_assoc.
Qed.

Lemma forEach_concat {A} (f : A -> AggState -> AggState) l :
  (forall a, Appender (f a)) ->
  fst (forEach l f st_nil) = flat_map (fun a => fst (f a st_nil)) l /\
  snd (forEach l f st_nil) = flat_map (fun a => snd (f a st_nil)) l.
Proof.
  intros Hf. induction l as [|a l [IH1 IH2]]; [done|].
  rewrite forEach_cons, (Appender_forEach f l Hf). simpl.
  by rewrite IH1, IH2.
Qed.

Lemma forEach_nested {K V S} (g : K -> V -> S -> S) (l : list (K * list V)) s :
  forEach l (fun '(k, vs) s => forEach vs (fun v s => g k v s) s) s =
  forEach (flat_map (fun kv => map (pair (fst kv)) (snd kv)) l)
          (fun e s => g (fst e) (snd e) s) s.
Proof.
  revert s. induction l as [|[k vs] l IH]; intros s; [done|].
  rewrite forEach_cons. cbn [flat_map fst snd]. rewrite forEach_app, <- IH.
  f_equal. clear. revert s. induction vs as [|v vs IH]; intros s; [done|].
  cbn [map]. rewrite !forEach_cons. apply IH.
Qed.

Lemma forEach_skip {A S} (l : list A) (s : S) : forEach l (fun _ s => s) s = s.
Proof. induction l; done. Qed.

Section Aggregation.

Variable br : Browser.
Variable db : ZoneDb.
Variable now : Z.
Variable userTimezone : string.

(** What one raw entry does to the state depends on the entry and on the zone
    of its participant alone. *)
Lemma weeklyEntry_zone day hour p p' k h st :
  timezone p' = timezone p ->
  weeklyEntry br db now userTimezone day hour p' k h st =
  let r := weeklyEntry br db now userTimezone day hour p k h st_nil in
  st_app st (map (fun _ => p') (fst r), snd r).
Proof.
  intros Htz. unfold weeklyEntry. rewrite Htz.
  destruct st as [a o]. unfold push, st_app, st_nil.
  destruct (indexOf days k =? -1); [cbn; by rewrite !app_nil_r|].
  cbn zeta. destruct (String.eqb _ day && _); cbn; by rewrite ?app_nil_r.
Qed.

Lemma specificEntry_zone day hour sd p p' k h st :
  timezone p' = timezone p ->
  specificEntry br db userTimezone day hour sd p' k h st =
  let r := specificEntry br db userTimezone day hour sd p k h st_nil in
  st_app st (map (fun _ => p') (fst r), snd r).
Proof.
  intros Htz. unfold specificEntry. rewrite Htz.
  destruct (convertTimeSlotSpecific _ _ _ _ _ _) as [converted out].
  destruct st as [a o]. unfold push, logged, st_app, st_nil.
  destruct (_ && _); cbn; by rewrite ?app_nil_r.
Qed.

Lemma perParticipant_entries day hour sd p st :
  perParticipant br db now userTimezone day hour sd p st =
  forEach (entries p) (entryStep br db now userTimezone day hour sd p) st.
Proof.
  unfold perParticipant, entryStep, entries.
  destruct (availabilityType p), (truthy sd);
    by rewrite ?forEach_nested, ?forEach_skip.
Qed.

Lemma entryStep_zone day hour sd p p' e st :
  timezone p' = timezone p -> availabilityType p' = availabilityType p ->
  entryStep br db now userTimezone day hour sd p' e st =
  let r := entryStep br db now userTimezone day hour sd p e st_nil in
  st_app st (map (fun _ => p') (fst r), snd r).
Proof.
  intros Htz Hty. unfold entryStep. rewrite Hty.
  destruct (availabilityType p), (truthy sd).
  all: try (by apply weeklyEntry_zone).
  all: try (by apply specificEntry_zone).
  all: destruct st; unfold st_app, st_nil; cbn.
  all: rewrite ?app_nil_r; reflexivity.
Qed.

Lemma entryStep_hit day hour sd p e :
  fst (entryStep br db now userTimezone day hour sd p e st_nil) = [] \/
  fst (entryStep br db now userTimezone day hour sd p e st_nil) = [p].
Proof.
  unfold entryStep.
  destruct (availabilityType p), (truthy sd); try (by left).
  - unfold weeklyEntry, push, st_nil.
    destruct (indexOf days _ =? -1); [by left|].
    cbn zeta. destruct (String.eqb _ day && _); cbn; auto.
  - unfold specificEntry, push, logged, st_nil.
    destruct (convertTimeSlotSpecific _ _ _ _ _ _) as [converted out].
    destruct (_ && _); cbn; auto.
Qed.

Lemma Appender_entryStep day hour sd p e : Appender (entryStep br db now userTimezone day hour sd p e).
Proof.
  intros st. rewrite (entryStep_zone day hour sd p p e st) by done.
  cbn zeta. destruct (entryStep br db now userTimezone day hour sd p e st_nil) as [hit out] eqn:Hr.
  pose proof (entryStep_hit day hour sd p e) as Hhit. rewrite Hr in Hhit.
  cbn in Hhit. by destruct Hhit as [-> | ->].
Qed.

Lemma Appender_perParticipant day hour sd p :
  Appender (perParticipant br db now userTimezone day hour sd p).
Proof.
  intros st. rewrite !perParticipant_entries.
  apply Appender_forEach. intros e. apply Appender_entryStep.
Qed.

(** The membership of a cell is, participant by participant and entry by
    entry, what each raw entry appends. *)
Lemma getAvailabilityData_entries ps day hour sd :
  let r := getAvailabilityData br db now ps userTimezone day hour sd in
  Data.participants (fst r) =
    flat_map (fun p => flat_map (fun e => fst (entryStep br db now userTimezone day hour sd p e st_nil))
                                (entries p)) ps /\
  snd r =
    flat_map (fun p => flat_map (fun e => snd (entryStep br db now userTimezone day hour sd p e st_nil))
                                (entries p)) ps.
Proof.
  unfold getAvailabilityData.
  pose proof (forEach_concat (perParticipant br db now userTimezone day hour sd) ps
                (Appender_perParticipant day hour sd)) as [H1 H2].
  fold st_nil.
  destruct (forEach ps _ st_nil) as [a o]. cbn in *. subst a o.
  split; apply flat_map_ext; intros p; rewrite perParticipant_entries;
    by destruct (forEach_concat (entryStep br db now userTimezone day hour sd p) (entries p)
                   (Appender_entryStep day hour sd p)).
Qed.

Lemma getAvailabilityData_count ps day hour sd :
  let r := fst (getAvailabilityData br db now ps userTimezone day hour sd) in
  Data.count r = Z.of_nat (length (Data.participants r)) /\
  Data.participantNames r = map name (Data.participants r).
Proof.
  unfold getAvailabilityData. by destruct (forEach ps _ _).
Qed.

End Aggregation.

(** ** Full coverage (C3) *)

(** C3.  A drawn cell carries the full-coverage flag exactly when its
    membership count equals the number of participants and there is at least
    one participant; with no participants no cell carries it. *)
Theorem full_coverage_iff br db now ps userTimezone day hour sd :
  (isFullCoverage (renderTimeSlot br db now ps userTimezone day hour sd) = true <->
     Data.count (fst (getAvailabilityData br db now ps userTimezone day hour sd))
       = Z.of_nat (length ps) /\ length ps <> 0%nat) /\
  isFullCoverage (renderTimeSlot br db now [] userTimezone day hour sd) = false.
Proof.
  split; [|reflexivity].
  unfold renderTimeSlot.
  destruct (getAvailabilityData_count br db now userTimezone ps day hour sd) as [Hc _].
  cbn zeta in Hc.
  set (r := fst (getAvailabilityData br db now ps userTimezone day hour sd)) in *.
  destruct (Data.count r =? 0) eqn:H0; cbn [isFullCoverage].
  - split; [done|]. intros [Heq Hne]. lia.
  - split.
    + intros Hall. split; lia.
    + intros [Heq _]. lia.
Qed.

(** ** Membership lists (C4) *)

Section Membership.

Variable br : Browser.
Variable db : ZoneDb.
Variable now : Z.
Variable userTimezone : string.
Variables (day : string) (hour : Z) (specificDate : option string).

Lemma lands_spec p e :
  fst (entryStep br db now userTimezone day hour specificDate p e st_nil) =
  if lands br db now userTimezone day hour specificDate p e then [p] else [].
Proof.
  unfold lands.
  destruct (getAvailabilityData_count br db now userTimezone
              [withAvailability p [(e.1, [e.2])]] day hour specificDate) as [-> _].
  destruct (getAvailabilityData_entries br db now userTimezone
              [withAvailability p [(e.1, [e.2])]] day hour specificDate) as [-> _].
  cbn [flat_map entries withAvailability availability map fst snd].
  rewrite !app_nil_r. cbn [flat_map]. rewrite !app_nil_r.
  rewrite (entryStep_zone br db now userTimezone day hour specificDate
             p (withAvailability p [(e.1, [e.2])]) (e.1, e.2) st_nil) by done.
  cbn zeta. cbn [st_app fst snd st_nil app]. rewrite length_map.
  replace (e.1, e.2) with e by (by destruct e).
  by destruct (entryStep_hit br db now userTimezone day hour specificDate p e)
    as [-> | ->].
Qed.

Lemma hits_repeat p l :
  flat_map (fun e => fst (entryStep br db now userTimezone day hour specificDate
                            p e st_nil)) l =
  repeat p (length (filter (lands br db now userTimezone day hour specificDate p) l)).
Proof.
  induction l as [|e l IH]; [done|].
  cbn [flat_map]. rewrite IH, lands_spec, filter_cons.
  by destruct (lands br db now userTimezone day hour specificDate p e).
Qed.

Lemma flat_map_repeat_elem {A} (n : A -> nat) (l : list A) x :
  x ∈ flat_map (fun p => repeat p (n p)) l -> x ∈ l.
Proof.
  induction l as [|a l IH]; cbn [flat_map]; [done|].
  rewrite elem_of_app. intros [Hx | Hx].
  - apply list_elem_of_In, repeat_spec in Hx. subst. left.
  - right. by apply IH.
Qed.

(** C4, amended.  The membership list of a cell lists the participants in
    their canonical order, each once for every raw entry of theirs that
    converts to the cell; a participant is therefore listed at most once when
    at most one of their entries converts to the cell. *)
Theorem membership_order_multiplicity (ps : list Participant) :
  let members := Data.participants (fst (getAvailabilityData br db now ps
                   userTimezone day hour specificDate)) in
  members = flat_map (fun p => repeat p (length (filter (lands br db now userTimezone day hour specificDate p) (entries p)))) ps /\
  (NoDup ps ->
   (forall p, p ∈ ps -> (length (filter (lands br db now userTimezone day hour specificDate p) (entries p)) <= 1)%nat) ->
   NoDup members).
Proof.
  cbn zeta.
  destruct (getAvailabilityData_entries br db now userTimezone ps day hour
              specificDate) as [-> _].
  assert (Heq : flat_map (fun p => flat_map (fun e =>
                   fst (entryStep br db now userTimezone day hour specificDate
                          p e st_nil)) (entries p)) ps
              = flat_map (fun p => repeat p (length (filter (lands br db now userTimezone day hour specificDate p) (entries p)))) ps).
  { apply flat_map_ext. intros p. apply hits_repeat. }
  rewrite Heq. split; [done|]. clear Heq.
  induction ps as [|p ps IH]; intros Hnd Hone; cbn [flat_map]; [constructor|].
  apply NoDup_cons in Hnd as [Hp Hnd].
  apply NoDup_app. split_and!.
  - assert (Hle := Hone p ltac:(left)).
    destruct (length (filter (lands br db now userTimezone day hour specificDate p) (entries p))) as [|[|n]]; cbn;
      [constructor | apply NoDup_singleton | lia].
  - intros x Hx%list_elem_of_In%repeat_spec Hx'%flat_map_repeat_elem. by subst.
  - apply IH; [done|]. intros q Hq. apply Hone. by right.
Qed.

End Membership.

(** C4 as stated fails: two distinct raw entries of one participant, an hour
    apart across the end of daylight saving time in the observer's zone,
    convert to the same cell, and the participant is listed twice. *)
Lemma membership_duplicate :
  let p := Sample.participant "b" "UTC" specific [("2024-11-03", [5; 6])] in
  let members := Data.participants (fst (getAvailabilityData Sample.browser
                   Sample.zoneDb Sample.now [p] "America/New_York"
                   "Sunday" 1 (Some "2024-11-03"))) in
  entries p = [("2024-11-03", 5); ("2024-11-03", 6)] /\
  members = [p; p] /\ ~ NoDup members.
Proof.
  cbn zeta. split; [reflexivity|].
  assert (H : Data.participants (fst (getAvailabilityData Sample.browser
                   Sample.zoneDb Sample.now
                   [Sample.participant "b" "UTC" specific [("2024-11-03", [5; 6])]]
                   "America/New_York" "Sunday" 1 (Some "2024-11-03")))
              = [Sample.participant "b" "UTC" specific [("2024-11-03", [5; 6])];
                 Sample.participant "b" "UTC" specific [("2024-11-03", [5; 6])]])
    by (vm_compute; reflexivity).
  rewrite H. split; [reflexivity|].
  intros Hnd. apply NoDup_cons in Hnd as [Hin _]. apply Hin. left.
Qed.

Lemma membership_order_multiplicity_witness :
  let p := Sample.participant "a" "America/New_York" weekly [("Monday", [22])] in
  NoDup (Data.participants (fst (getAvailabilityData Sample.browser Sample.zoneDb
           Sample.now [p] "Asia/Tokyo" "Tuesday" 11 None))).
Proof.
  cbn zeta.
  apply (membership_order_multiplicity Sample.browser Sample.zoneDb Sample.now
           "Asia/Tokyo" "Tuesday" 11 None).
  - apply NoDup_singleton.
  - intros p Hp. apply list_elem_of_singleton in Hp. subst p.
    vm_compute. lia.
Defined.

(** ** Invalid entries, and zones that do not resolve (C1) *)

Section Failures.

Variable br : Browser.
Variable db : ZoneDb.
Variable now : Z.
Variable userTimezone : string.

Lemma names_withAvailability day hour sd p av l :
  map name (flat_map (fun e => fst (entryStep br db now userTimezone day hour sd
                                      (withAvailability p av) e st_nil)) l) =
  map name (flat_map (fun e => fst (entryStep br db now userTimezone day hour sd
                                      p e st_nil)) l) /\
  flat_map (fun e => snd (entryStep br db now userTimezone day hour sd
                            (withAvailability p av) e st_nil)) l =
  flat_map (fun e => snd (entryStep br db now userTimezone day hour sd
                            p e st_nil)) l.
Proof.
  induction l as [|e l [IH1 IH2]]; [done|].
  cbn [flat_map]. rewrite !map_app, IH1, IH2.
  rewrite (entryStep_zone br db now userTimezone day hour sd p
             (withAvailability p av) e st_nil) by done.
  cbn zeta. cbn [st_app st_nil fst snd app].
  by destruct (entryStep_hit br db now userTimezone day hour sd p e) as [-> | ->].
Qed.

Lemma names_flat_map {A} (f : A -> list Participant) l :
  map name (flat_map f l) = flat_map (fun a => map name (f a)) l.
Proof. induction l as [|a l IH]; [done|]. cbn. by rewrite map_app, IH. Qed.

(** The names and console output of a cell, entry by entry. *)
Lemma getAvailabilityData_names ps day hour sd :
  let r := getAvailabilityData br db now ps userTimezone day hour sd in
  Data.participantNames (fst r) =
    flat_map (fun p => map name (flat_map (fun e =>
      fst (entryStep br db now userTimezone day hour sd p e st_nil)) (entries p))) ps.
Proof.
  cbn zeta.
  destruct (getAvailabilityData_count br db now userTimezone ps day hour sd) as [_ ->].
  destruct (getAvailabilityData_entries br db now userTimezone ps day hour sd) as [-> _].
  apply names_flat_map.
Qed.

(** A zone that does not resolve sends the conversions through the Invalid
    Date: they return [undefined] and NaN, write nothing to the console, and
    the entry is a member of no cell. *)
Lemma unresolved_zone_invalid (tz : string) :
  (forall w, localToInstant db tz w = None) \/
  (forall t, utcOffset db userTimezone t = None) ->
  (forall d h sd,
     getDayIndex d <> -1 \/ truthy sd = true ->
     convertTimeSlot br db now tz userTimezone d h sd = (invalidSlot, [])) /\
  (forall k h,
     convertTimeSlotSpecific br db tz userTimezone k h = (invalidSpecific, [])) /\
  (forall day hour sd p e,
     timezone p = tz ->
     entryStep br db now userTimezone day hour sd p e st_nil = st_nil).
Proof.
  intros Hfail.
  assert (Hfin : forall target,
            utcToZonedTime br db (zonedTimeToUtc br db target tz) userTimezone = None).
  { intros target. unfold zonedTimeToUtc, utcToZonedTime.
    destruct target as [t|]; [|done]. cbn [mbind option_bind].
    destruct Hfail as [Hz | Hu]; [by rewrite Hz|].
    destruct (localToInstant db tz _); [cbn; by rewrite Hu | done]. }
  assert (Hstr : forall s,
            utcToZonedTime br db (zonedTimeToUtc_string db s tz) userTimezone = None).
  { intros s. unfold zonedTimeToUtc_string, utcToZonedTime.
    destruct (parseISOLocal s) as [w|]; [|done]. cbn [mbind option_bind].
    destruct Hfail as [Hz | Hu]; [by rewrite Hz|].
    destruct (localToInstant db tz w); [cbn; by rewrite Hu | done]. }
  split_and!.
  - intros d h sd Hd. unfold convertTimeSlot. cbn zeta.
    destruct (truthy sd).
    + by rewrite Hfin.
    + destruct Hd as [Hd|Hd]; [|done]. apply Z.eqb_neq in Hd. rewrite Hd.
      by rewrite Hfin.
  - intros k h. unfold convertTimeSlotSpecific. cbn zeta. by rewrite Hstr.
  - intros day hour sd p e Htz. unfold entryStep.
    destruct (availabilityType p), (truthy sd); try done.
    + unfold weeklyEntry. cbn zeta.
      destruct (indexOf days e.1 =? -1); [done|]. rewrite Htz, Hfin.
      cbn [onDate number_eqb]. by rewrite andb_false_r.
    + unfold specificEntry, convertTimeSlotSpecific. cbn zeta.
      rewrite Htz, Hstr. cbn [onDate number_eqb Specific.hour].
      by rewrite andb_false_r.
Qed.

Lemma indexOf_absent l x : x ∉ l -> indexOf l x = -1.
Proof.
  induction l as [|y l IH]; [done|]. intros Hx. cbn [indexOf].
  apply not_elem_of_cons in Hx as [Hne Hx].
  destruct (String.eqb_spec y x) as [->|_]; [done|]. by rewrite (IH Hx).
Qed.

(** Entries that append nothing can be left out. *)
Lemma flat_map_entries_drop {B} (F : string * Z -> list B) p av1 k hs av2 :
  availability p = (av1 ++ (k, hs) :: av2)%list ->
  (forall h, F (k, h) = []) ->
  flat_map F (entries p) = flat_map F (entries (withAvailability p (av1 ++ av2))).
Proof.
  intros Hav Hnil.
  assert (Hhs : flat_map F (map (pair k) hs) = []).
  { clear Hav. induction hs as [|h hs IH]; [done|].
    cbn [map flat_map]. by rewrite Hnil, IH. }
  unfold entries. cbn [withAvailability availability]. rewrite Hav.
  rewrite !flat_map_app. cbn [flat_map fst snd]. rewrite !flat_map_app.
  by rewrite Hhs.
Qed.

(** C1, amended.  A weekly raw entry whose weekday name is not one of the
    seven is skipped by the aggregation without a word: with or without it
    every cell has the same count, the same names and the same console
    output; [convertTimeSlot] answers it with a warning and the slot
    unconverted.  (Hours are not validated.) *)
Theorem invalid_weekday_skipped ps1 p ps2 av1 k hs av2 day hour sd :
  k ∉ days ->
  availabilityType p = weekly ->
  availability p = (av1 ++ (k, hs) :: av2)%list ->
  let with_ := getAvailabilityData br db now (ps1 ++ p :: ps2) userTimezone
                 day hour sd in
  let without := getAvailabilityData br db now
                   (ps1 ++ withAvailability p (av1 ++ av2) :: ps2) userTimezone
                   day hour sd in
  Data.count (fst with_) = Data.count (fst without) /\
  Data.participantNames (fst with_) = Data.participantNames (fst without) /\
  snd with_ = snd without /\
  forall tz h,
    convertTimeSlot br db now tz userTimezone k h None =
    ({| day := k; hour := h |}, [console_warn ("Invalid day name: " +:+ k)]).
Proof.
  intros Hk%indexOf_absent Hty Hav. cbn zeta.
  assert (Hskip : forall h,
            entryStep br db now userTimezone day hour sd p (k, h) st_nil = st_nil).
  { intros h. unfold entryStep. rewrite Hty.
    destruct (truthy sd); [done|].
    unfold weeklyEntry. cbn [fst snd]. cbn zeta. by rewrite Hk. }
  set (p' := withAvailability p (av1 ++ av2)).
  pose proof (flat_map_entries_drop
    (fun e => fst (entryStep br db now userTimezone day hour sd p e st_nil))
    p av1 k hs av2 Hav (fun h => f_equal fst (Hskip h))) as Hfst.
  pose proof (flat_map_entries_drop
    (fun e => snd (entryStep br db now userTimezone day hour sd p e st_nil))
    p av1 k hs av2 Hav (fun h => f_equal snd (Hskip h))) as Hsnd.
  fold p' in Hfst, Hsnd.
  destruct (names_withAvailability day hour sd p (av1 ++ av2) (entries p'))
    as [Hn Ho]. fold p' in Hn, Ho.
  assert (Hnames :
    Data.participantNames (fst (getAvailabilityData br db now (ps1 ++ p :: ps2)
                                  userTimezone day hour sd)) =
    Data.participantNames (fst (getAvailabilityData br db now (ps1 ++ p' :: ps2)
                                  userTimezone day hour sd))).
  { rewrite !getAvailabilityData_names, !flat_map_app. cbn [flat_map].
    by rewrite Hfst, Hn. }
  split_and!.
  - destruct (getAvailabilityData_count br db now userTimezone (ps1 ++ p :: ps2)
                day hour sd) as [-> Hn1].
    destruct (getAvailabilityData_count br db now userTimezone (ps1 ++ p' :: ps2)
                day hour sd) as [-> Hn2].
    rewrite Hn1, Hn2 in Hnames.
    apply (f_equal length) in Hnames. rewrite !length_map in Hnames.
    by rewrite Hnames.
  - exact Hnames.
  - destruct (getAvailabilityData_entries br db now userTimezone (ps1 ++ p :: ps2)
                day hour sd) as [_ ->].
    destruct (getAvailabilityData_entries br db now userTimezone (ps1 ++ p' :: ps2)
                day hour sd) as [_ ->].
    rewrite !flat_map_app. cbn [flat_map]. by rewrite Hsnd, Ho.
  - intros tz h. unfold convertTimeSlot, getDayIndex.
    cbn [truthy]. cbn zeta. by rewrite Hk.
Qed.

End Failures.

(** C1 as stated fails: hours are not validated.  The weekly entry (Monday,
    24) is not skipped; it is a member of the cell (Tuesday, 0). *)
Lemma hour_out_of_range_lands :
  let p := Sample.participant "a" "UTC" weekly [("Monday", [24])] in
  ~ (0 <= 24 <= 23) /\ "Tuesday" ∈ days /\ 0 ∈ hours /\
  Data.participants (fst (getAvailabilityData Sample.browser Sample.zoneDb
    Sample.now [p] "UTC" "Tuesday" 0 None)) = [p].
Proof.
  cbn zeta. split_and!; [lia | | | vm_compute; reflexivity].
  - unfold days. set_solver.
  - apply elem_of_seqZ. lia.
Qed.

Lemma invalid_weekday_skipped_witness :
  let p := Sample.participant "a" "UTC" weekly [("Funday", [5]); ("Monday", [10])] in
  Data.count (fst (getAvailabilityData Sample.browser Sample.zoneDb Sample.now
                     [p] "UTC" "Monday" 10 None)) =
  Data.count (fst (getAvailabilityData Sample.browser Sample.zoneDb Sample.now
                     [withAvailability p [("Monday", [10])]] "UTC" "Monday" 10 None)).
Proof.
  cbn zeta.
  refine (proj1 (invalid_weekday_skipped Sample.browser Sample.zoneDb Sample.now "UTC"
    [] (Sample.participant "a" "UTC" weekly [("Funday", [5]); ("Monday", [10])])
    [] [] "Funday" [5] [("Monday", [10])] "Monday" 10 None _ eq_refl eq_refl)).
  apply (bool_decide_unpack _). vm_compute. exact I.
Defined.

(** ** The date axis of specific-date mode (C6) *)

Lemma String_le_lt a b : String.le a b -> a <> b -> String_lt a b.
Proof.
  unfold String.le, String.leb, String_lt. intros Hle Hne.
  destruct (String.compare a b) eqn:Hc; [|done|done].
  by apply String.compare_eq_iff in Hc.
Qed.

Lemma sorted_nodup_strict (l : list string) :
  StronglySorted String.le l -> NoDup l -> StronglySorted String_lt l.
Proof.
  induction 1 as [|a l Hs IH Hall]; intros Hnd; constructor.
  - apply IH. by apply NoDup_cons in Hnd as [_ ?].
  - apply NoDup_cons in Hnd as [Ha _].
    rewrite Forall_forall in Hall |- *. intros x Hx.
    apply String_le_lt; [by apply Hall|]. intros ->. by apply Ha.
Qed.

Lemma Set_add_spec x s :
  (NoDup s -> NoDup (Set_add x s)) /\
  (forall y, y ∈ Set_add x s <-> y ∈ s \/ y = x).
Proof.
  unfold Set_add. destruct (decide (x ∈ s)) as [Hin | Hout]; split.
  - done.
  - intros y. split; [by left|]. intros [?| ->]; done.
  - intros Hnd. apply NoDup_app. split_and!; [done | | apply NoDup_singleton].
    intros y Hy Hy'%list_elem_of_singleton. by subst.
  - intros y. rewrite elem_of_app, list_elem_of_singleton. done.
Qed.

(** A loop that adds [g a] to a [Set] for every [a] of [l]. *)
Lemma forEach_Set_add {A} (g : A -> string) (l : list A) : forall acc,
  let r := forEach l (fun a acc => Set_add (g a) acc) acc in
  (NoDup acc -> NoDup r) /\
  (forall y, y ∈ r <-> y ∈ acc \/ exists a, a ∈ l /\ g a = y).
Proof.
  induction l as [|a l IH]; intros acc; cbn zeta.
  - split; [done|]. intros y. split; [by left|].
    intros [?|(a & Ha & _)]; [done|]. by apply elem_of_nil in Ha.
  - rewrite forEach_cons.
    destruct (IH (Set_add (g a) acc)) as [IHn IHm].
    destruct (Set_add_spec (g a) acc) as [Hn Hm].
    split; [auto|]. intros y. rewrite IHm, Hm. split.
    + intros [[?| ->]|(b & Hb & Hg)]; [by left | |].
      * right. exists a. split; [left | done].
      * right. exists b. split; [by right | done].
    + intros [?|(b & Hb & Hg)]; [by left; left|].
      apply elem_of_cons in Hb as [-> |Hb]; [left; by right|].
      right. by exists b.
Qed.

Section DateAxis.

Variable br : Browser.
Variable db : ZoneDb.
Variable userTimezone : string.

(** The loop of [getAllPossibleDates] over the participants. *)
Lemma allDates_spec (ps : list Participant) : forall acc,
  let r :=
    forEach ps (fun participant allDates =>
      match availabilityType participant with
      | specific =>
          forEach (availability participant) (fun '(dateKey, hours) allDates =>
            forEach hours (fun hour allDates =>
              let converted :=
                fst (convertTimeSlotSpecific br db (timezone participant)
                       userTimezone dateKey hour) in
              Set_add (Specific.date converted) allDates) allDates) allDates
      | weekly => allDates
      end) acc in
  (NoDup acc -> NoDup r) /\
  (forall y, y ∈ r <-> y ∈ acc \/
     exists p e, p ∈ ps /\ availabilityType p = specific /\ e ∈ entries p /\
                 convertedDate br db userTimezone p e = y).
Proof.
  induction ps as [|p ps IH]; intros acc; cbn zeta.
  - split; [done|]. intros y. split; [by left|].
    intros [?|(p & e & Hp & _)]; [done|]. by apply elem_of_nil in Hp.
  - rewrite forEach_cons.
    match goal with
    | |- context [forEach ps ?F ?a] => destruct (IH a) as [IHn IHm]; set (acc' := a) in *
    end.
    assert (Hacc' : (NoDup acc -> NoDup acc') /\
              forall y, y ∈ acc' <-> y ∈ acc \/
                (availabilityType p = specific /\
                 exists e, e ∈ entries p /\ convertedDate br db userTimezone p e = y)).
    { subst acc'. destruct (availabilityType p).
      - split; [done|]. intros y. split; [by left|]. by intros [?|[? _]].
      - rewrite (forEach_nested (fun dateKey hour allDates =>
          Set_add (Specific.date (fst (convertTimeSlotSpecific br db (timezone p)
                                         userTimezone dateKey hour))) allDates)).
        destruct (forEach_Set_add (convertedDate br db userTimezone p) (entries p) acc) as [Hn Hm].
        split; [exact Hn|]. intros y. unfold entries in *. rewrite Hm.
        split; (intros [?|H]; [by left | right]); [by split | by destruct H]. }
    destruct Hacc' as [Hn Hm].
    split; [auto|]. intros y. rewrite IHm, Hm. split.
    + intros [[?|[Hty (e & He & Hd)]]|(q & e & Hq & Hty & He & Hd)].
      * by left.
      * right. exists p, e. split_and!; [left | done..].
      * right. exists q, e. split_and!; [by right | done..].
    + intros [?|(q & e & Hq & Hty & He & Hd)]; [by left; left|].
      apply elem_of_cons in Hq as [-> |Hq].
      * left. right. split; [done|]. by exists e.
      * right. by exists q, e.
Qed.

(** C6.  [getAllPossibleDates] returns, in strictly ascending order and so
    without repetition, exactly the observer-zone dates that the raw entries
    of the specific-date participants convert to. *)
Theorem getAllPossibleDates_sorted_exact (ps : list Participant) :
  let dates := getAllPossibleDates br db ps userTimezone in
  StronglySorted String_lt dates /\
  forall d, d ∈ dates <->
    exists p e, p ∈ ps /\ availabilityType p = specific /\ e ∈ entries p /\
                convertedDate br db userTimezone p e = d.
Proof.
  cbn zeta. unfold getAllPossibleDates, Array_sort.
  match goal with
  | |- context [merge_sort _ ?l] => set (allDates := l)
  end.
  destruct (allDates_spec ps []) as [Hn Hm]. cbn zeta in Hn, Hm. fold allDates in Hn, Hm.
  split.
  - apply sorted_nodup_strict.
    + apply StronglySorted_merge_sort; apply _.
    + rewrite merge_sort_Permutation. apply Hn. constructor.
  - intros d. rewrite merge_sort_Permutation, Hm. split; [|by right].
    intros [Hd|?]; [|done]. by apply elem_of_nil in Hd.
Qed.

End DateAxis.

(** ** Weekly conversion through its pivot (C7) *)

Lemma MakeDay_of_time t k :
  MakeDay (YearFromTime t) (MonthFromTime t) (DateFromTime t + k) = Day t + k.
Proof.
  unfold YearFromTime, MonthFromTime, DateFromTime.
  pose proof (MakeDay_fields (Day t) k) as H.
  by destruct (civil_from_days (Day t)) as [[y m] d].
Qed.

Lemma MakeDay_today t :
  MakeDay (YearFromTime t) (MonthFromTime t) (DateFromTime t) = Day t.
Proof.
  pose proof (MakeDay_of_time t 0) as H. by rewrite !Z.add_0_r in H.
Qed.

Lemma Day_midnight n : Day (MakeDate n 0) = n.
Proof. apply Day_MakeDate. unfold msPerDay. lia. Qed.

Lemma TimeWithinDay_midnight n : TimeWithinDay (MakeDate n 0) = 0.
Proof.
  unfold TimeWithinDay, MakeDate. rewrite Z.add_0_r. apply Z.mod_mul.
  unfold msPerDay. lia.
Qed.

Section Weekly.

Variable br : Browser.
Variable db : ZoneDb.
Variable now : Z.

Lemma newDate_today :
  newDate br (getFullYear br now) (getMonth br now) (getDate br now)
  = UTC br (MakeDate (todayNumber br now) 0).
Proof. unfold newDate, todayNumber, getFullYear, getMonth, getDate. reflexivity. Qed.

(** The [Date] both weekly conversions build before they call the zone
    database reads, in local fields, [weeklyPivot]. *)
Lemma weekly_target dayName hour wall :
  Forall (GaplessAt br) (weeklyWalls br now dayName hour wall) ->
  let today := newDate br (getFullYear br now) (getMonth br now) (getDate br now) in
  let jsDayIndex := toSundayFirst (getDayIndex dayName) in
  LocalTime br
    (setHours br
       (setDate br today
          (getDate br today + daysToAdd jsDayIndex (getDay br today)))
       hour 0 0 0)
  = weeklyPivot br now dayName hour.
Proof.
  unfold weeklyWalls, weeklyPivot. rewrite newDate_today.
  generalize (todayNumber br now). intros T. cbn zeta.
  intros Hg. apply Forall_cons in Hg as [H0 Hg].
  apply Forall_cons in Hg as [H1 Hg]. apply Forall_cons in Hg as [H2 _].
  unfold GaplessAt in *.
  unfold setHours, setDate, getDate, getDay. cbn zeta.
  rewrite !H0, MakeDay_of_time.
  rewrite TimeWithinDay_midnight, Day_midnight, H1, Day_midnight. exact H2.
Qed.

Lemma convertTimeSlot_weekly A B dayName hour utcTime off :
  getDayIndex dayName <> -1 ->
  localToInstant db A (weeklyPivot br now dayName hour) = Some utcTime ->
  utcOffset db B utcTime = Some off ->
  Forall (GaplessAt br) (weeklyWalls br now dayName hour (utcTime + off)) ->
  convertTimeSlot br db now A B dayName hour None = (slotOfWall (utcTime + off), []).
Proof.
  intros Hidx HA HB Hgap. unfold convertTimeSlot. cbn [truthy]. cbn zeta.
  apply Z.eqb_neq in Hidx. rewrite Hidx.
  unfold zonedTimeToUtc. cbn [mbind option_bind].
  pose proof (weekly_target dayName hour _ Hgap) as Ht. cbn zeta in Ht.
  unfold toSundayFirst, daysToAdd in Ht. rewrite Ht, HA.
  unfold utcToZonedTime. cbn [mbind option_bind]. rewrite HB.
  cbn [mbind option_bind onDate]. unfold getDay, getHours.
  assert (Hw : LocalTime br (UTC br (utcTime + off)) = utcTime + off).
  { unfold weeklyWalls in Hgap. cbn zeta in Hgap.
    by do 3 apply Forall_cons in Hgap as [_ Hgap]; apply Forall_cons in Hgap as [? _]. }
  rewrite Hw. unfold slotOfWall, toMondayFirst. cbn [number_eqb number_sub].
  by destruct (WeekDay (utcTime + off) =? 0).
Qed.

End Weekly.

Lemma toSundayFirst_back i :
  0 <= i <= 6 -> 0 <= toSundayFirst i <= 6 /\ toMondayFirst (toSundayFirst i) = i.
Proof.
  intros Hi. unfold toSundayFirst, toMondayFirst.
  destruct (Z.eqb_spec i 6); [by subst|].
  destruct (Z.eqb_spec (i + 1) 0); lia.
Qed.

Lemma toMondayFirst_back w :
  0 <= w <= 6 -> 0 <= toMondayFirst w <= 6 /\ toSundayFirst (toMondayFirst w) = w.
Proof.
  intros Hw. unfold toSundayFirst, toMondayFirst.
  destruct (Z.eqb_spec w 0); [by subst|].
  destruct (Z.eqb_spec (w - 1) 6); lia.
Qed.

(** [daysToAdd] reaches the wanted weekday within the next seven days. *)
Lemma daysToAdd_weekday N js :
  0 <= js <= 6 ->
  0 <= daysToAdd js ((N + 4) mod 7) <= 6 /\
  (N + daysToAdd js ((N + 4) mod 7) + 4) mod 7 = js.
Proof.
  intros Hjs. unfold daysToAdd.
  destruct (Z.ltb_spec (js - (N + 4) mod 7) 0); Z.div_mod_to_equations; lia.
Qed.

(** The arithmetic of the round trip, in hours: [N] is today's day number,
    [i] the Monday-first index, [q] the offset difference. *)
Lemma roundtrip_hours N i h q :
  0 <= i <= 6 -> 0 <= h <= 23 ->
  let wd0 := (N + 4) mod 7 in
  let m1 := (N + daysToAdd (toSundayFirst i) wd0) * 24 + h + q in
  let i1 := toMondayFirst ((m1 / 24 + 4) mod 7) in
  let m2 := (N + daysToAdd (toSundayFirst i1) wd0) * 24 + m1 mod 24 - q in
  toMondayFirst ((m2 / 24 + 4) mod 7) = i /\ m2 mod 24 = h.
Proof.
  intros Hi Hh. cbn zeta.
  destruct (toSundayFirst_back i Hi) as [Hjs Hback].
  destruct (daysToAdd_weekday N _ Hjs) as [Hk1 Hw1].
  set (k1 := daysToAdd (toSundayFirst i) ((N + 4) mod 7)) in *.
  set (m1 := (N + k1) * 24 + h + q).
  assert (Hwd1 : 0 <= (m1 / 24 + 4) mod 7 <= 6)
    by (pose proof (Z.mod_pos_bound (m1 / 24 + 4) 7); lia).
  destruct (toMondayFirst_back _ Hwd1) as [_ Hjs1]. rewrite Hjs1.
  destruct (daysToAdd_weekday N _ Hwd1) as [Hk2 Hw2].
  set (k2 := daysToAdd ((m1 / 24 + 4) mod 7) ((N + 4) mod 7)) in *.
  assert (Hm2 : (N + k2) * 24 + m1 mod 24 - q
                = (N + k2 - m1 / 24 + (N + k1)) * 24 + h).
  { unfold m1. Z.div_mod_to_equations. lia. }
  rewrite Hm2. set (D := N + k2 - m1 / 24 + (N + k1)).
  assert (Hdm : (D * 24 + h) / 24 = D /\ (D * 24 + h) mod 24 = h)
    by (Z.div_mod_to_equations; lia).
  destruct Hdm as [-> ->]. split; [|done].
  transitivity (toMondayFirst (toSundayFirst i)); [f_equal | done].
  rewrite <- Hw1. unfold D. clear -Hw2. Z.div_mod_to_equations. lia.
Qed.

Lemma getDayIndex_days d :
  d ∈ days -> 0 <= getDayIndex d <= 6 /\ getDayName (getDayIndex d) = d.
Proof.
  unfold days. rewrite !elem_of_cons, elem_of_nil.
  intros [->|[->|[->|[->|[->|[->|[->|[]]]]]]]]; by vm_compute.
Qed.

Lemma getDayName_index i :
  0 <= i <= 6 -> getDayIndex (getDayName i) = i.
Proof.
  intros Hi.
  assert (H : i = 0 \/ i = 1 \/ i = 2 \/ i = 3 \/ i = 4 \/ i = 5 \/ i = 6) by lia.
  destruct H as [->|[->|[->|[->|[->|[->| ->]]]]]]; by vm_compute.
Qed.

(** The weekday index the conversions read off a [Date] is always within
    [days]: the array read never misses. *)
Lemma dayName_defined t : arrayGet days (toMondayFirst (WeekDay t)) ∈ days.
Proof.
  pose proof (WeekDay_range t) as Hw.
  assert (H : WeekDay t = 0 \/ WeekDay t = 1 \/ WeekDay t = 2 \/ WeekDay t = 3 \/
              WeekDay t = 4 \/ WeekDay t = 5 \/ WeekDay t = 6) by lia.
  destruct H as [->|[->|[->|[->|[->|[->| ->]]]]]];
    apply (bool_decide_unpack _); by vm_compute.
Qed.

(** Wall-clock times on the hour, counted in hours. *)
Lemma wall_in_hours n h : MakeDate n (MakeTime h 0 0 0) = (n * 24 + h) * msPerHour.
Proof. unfold MakeDate, MakeTime, msPerDay, msPerHour, msPerMinute, msPerSecond. lia. Qed.

Lemma WeekDay_hours m : WeekDay (m * msPerHour) = (m / 24 + 4) mod 7.
Proof.
  unfold WeekDay, Day, msPerDay, msPerHour. do 2 f_equal.
  Z.div_mod_to_equations. lia.
Qed.

Lemma HourFromTime_hours m : HourFromTime (m * msPerHour) = m mod 24.
Proof.
  unfold HourFromTime, msPerHour. by rewrite Z.div_mul by lia.
Qed.

Lemma WeekDay_midnight n : WeekDay (MakeDate n 0) = (n + 4) mod 7.
Proof. unfold WeekDay. by rewrite Day_midnight. Qed.

(** C7, amended.  For zones whose offsets in effect differ by a whole number
    of hours and are the same at the pivots of both conversions, and a browser
    whose own clock skips none of the wall-clock times the two conversions
    write into a [Date], converting a valid weekly slot from A to B gives the
    slot of the wall-clock time B shows, and converting that back from B to A
    returns the slot. *)
Theorem convertTimeSlot_roundtrip br db now A B d h oA oB :
  d ∈ days -> 0 <= h <= 23 ->
  (oB - oA) mod msPerHour = 0 ->
  let W1 := weeklyPivot br now d h in
  localToInstant db A W1 = Some (W1 - oA) ->
  utcOffset db B (W1 - oA) = Some oB ->
  let d1 := getDayName (toMondayFirst (WeekDay (W1 - oA + oB))) in
  let h1 := HourFromTime (W1 - oA + oB) in
  let W2 := weeklyPivot br now d1 h1 in
  localToInstant db B W2 = Some (W2 - oB) ->
  utcOffset db A (W2 - oB) = Some oA ->
  Forall (GaplessAt br)
    (weeklyWalls br now d h (W1 - oA + oB) ++ weeklyWalls br now d1 h1 (W2 - oB + oA)) ->
  fst (convertTimeSlot br db now A B d h None) = {| day := d1; hour := h1 |} /\
  fst (convertTimeSlot br db now B A d1 h1 None) = {| day := d; hour := h |}.
Proof.
  intros Hd Hh Hq W1 HA1 HB1 d1 h1 W2 HB2 HA2 [Hg1 Hg2]%Forall_app.
  destruct (getDayIndex_days d Hd) as [Hi Hname].
  split.
  { assert (Hne : getDayIndex d <> -1) by lia.
    by rewrite (convertTimeSlot_weekly br db now A B d h (W1 - oA) oB Hne HA1 HB1 Hg1). }
  set (N := todayNumber br now).
  apply Z.mod_divide in Hq as [q Hq]; [|done].
  assert (HW1 : W1 - oA + oB
                = ((N + daysToAdd (toSundayFirst (getDayIndex d)) ((N + 4) mod 7)) * 24
                   + h + q) * msPerHour).
  { unfold W1, weeklyPivot. fold N. rewrite wall_in_hours, WeekDay_midnight. lia. }
  set (m1 := (N + daysToAdd (toSundayFirst (getDayIndex d)) ((N + 4) mod 7)) * 24
             + h + q) in *.
  assert (Hday : d1 = getDayName (toMondayFirst ((m1 / 24 + 4) mod 7)))
    by (unfold d1; by rewrite HW1, WeekDay_hours).
  assert (Hhour : h1 = m1 mod 24)
    by (unfold h1; by rewrite HW1, HourFromTime_hours).
  assert (Hwd : 0 <= (m1 / 24 + 4) mod 7 <= 6)
    by (pose proof (Z.mod_pos_bound (m1 / 24 + 4) 7); lia).
  destruct (toMondayFirst_back _ Hwd) as [Hi1 _].
  assert (Hidx : getDayIndex d1 = toMondayFirst ((m1 / 24 + 4) mod 7))
    by (rewrite Hday; by apply getDayName_index).
  assert (Hne : getDayIndex d1 <> -1) by (rewrite Hidx; lia).
  rewrite (convertTimeSlot_weekly br db now B A d1 h1 (W2 - oB) oA Hne HB2 HA2 Hg2).
  cbn [fst].
  assert (HW2 : W2 - oB + oA
                = ((N + daysToAdd (toSundayFirst (toMondayFirst ((m1 / 24 + 4) mod 7)))
                                  ((N + 4) mod 7)) * 24 + m1 mod 24 - q) * msPerHour).
  { unfold W2, weeklyPivot. fold N. rewrite wall_in_hours, WeekDay_midnight, Hidx, Hhour. lia. }
  rewrite HW2. unfold slotOfWall. rewrite WeekDay_hours, HourFromTime_hours.
  destruct (roundtrip_hours N (getDayIndex d) h q Hi Hh) as [Hback Hh'].
  cbn zeta in Hback, Hh'. fold m1 in Hback, Hh'. by rewrite Hback, Hh', Hname.
Qed.

(** C7 as stated fails, in two ways.  The offsets of UTC and Asia/Kolkata
    differ by five and a half hours, [getHours] drops the half, and the way
    back lands an hour early.  And between UTC and Asia/Tokyo, nine whole
    hours apart and both without daylight saving time, the slot (Sunday, 2)
    comes back as (Sunday, 3) in a New York browser on the eve of 2024-03-10:
    the [Date] the conversion writes its pivot into cannot show 02:00 that
    day. *)
Lemma roundtrip_fails :
  (let r := fst (convertTimeSlot Sample.browser Sample.zoneDb Sample.now
                   "UTC" "Asia/Kolkata" "Monday" 10 None) in
   r = {| day := "Monday"; hour := 15 |} /\
   fst (convertTimeSlot Sample.browser Sample.zoneDb Sample.now
          "Asia/Kolkata" "UTC" "Monday" 15 None)
     = {| day := "Monday"; hour := 9 |}) /\
  (let br := Sample.browserIn "America/New_York" in
   fst (convertTimeSlot br Sample.zoneDb Sample.springEve
          "UTC" "Asia/Tokyo" "Sunday" 2 None)
     = {| day := "Sunday"; hour := 12 |} /\
   fst (convertTimeSlot br Sample.zoneDb Sample.springEve
          "Asia/Tokyo" "UTC" "Sunday" 12 None)
     = {| day := "Sunday"; hour := 3 |} /\
   ~ GaplessAt br (weeklyPivot br Sample.springEve "Sunday" 2)).
Proof.
  cbn zeta. split_and!; try (vm_compute; reflexivity).
  vm_compute. discriminate.
Qed.

Lemma convertTimeSlot_roundtrip_witness :
  fst (convertTimeSlot (Sample.browserIn "America/New_York") Sample.zoneDb Sample.now
         "America/New_York" "Asia/Tokyo" "Monday" 22 None)
    = {| day := "Tuesday"; hour := 11 |} /\
  fst (convertTimeSlot (Sample.browserIn "America/New_York") Sample.zoneDb Sample.now
         "Asia/Tokyo" "America/New_York" "Tuesday" 11 None)
    = {| day := "Monday"; hour := 22 |}.
Proof.
  refine (convertTimeSlot_roundtrip (Sample.browserIn "America/New_York")
            Sample.zoneDb Sample.now
            "America/New_York" "Asia/Tokyo" "Monday" 22
            (-4 * msPerHour) (9 * msPerHour) _ _ _ _ _ _ _ _).
  - unfold days. set_solver.
  - lia.
  - reflexivity.
  - vm_compute. reflexivity.
  - vm_compute. reflexivity.
  - vm_compute. reflexivity.
  - vm_compute. reflexivity.
  - repeat (constructor; [vm_compute; reflexivity|]). constructor.
Defined.

(** ** Scenario B (C8) *)

(** C8.  With Los Angeles at UTC-7 for the wall-clock time 2024-07-04 23:00
    and London at UTC+1 at that instant, in a browser whose own clock shows
    2024-07-05 07:00, the specific-date slot ("2024-07-04", 23) converts to
    ("2024-07-05", 7), a Friday. *)
Theorem scenario_B br db :
  LocalTime br (UTC br (wallClock 2024 7 5 7)) = wallClock 2024 7 5 7 ->
  localToInstant db "America/Los_Angeles" (wallClock 2024 7 4 23)
    = Some (wallClock 2024 7 4 23 + 7 * msPerHour) ->
  utcOffset db "Europe/London" (wallClock 2024 7 4 23 + 7 * msPerHour)
    = Some (1 * msPerHour) ->
  fst (convertTimeSlotSpecific br db "America/Los_Angeles" "Europe/London"
         "2024-07-04" 23)
  = {| Specific.date := "2024-07-05"; Specific.hour := 7;
       Specific.dayName := "Friday" |}.
Proof.
  intros Hclock HLA HLon.
  unfold convertTimeSlotSpecific, zonedTimeToUtc_string. cbn zeta.
  match goal with
  | |- context [parseISOLocal ?s] =>
      replace (parseISOLocal s) with (Some (wallClock 2024 7 4 23))
        by (vm_compute; reflexivity)
  end.
  cbn [mbind option_bind]. rewrite HLA.
  unfold utcToZonedTime. cbn [mbind option_bind]. rewrite HLon.
  cbn [mbind option_bind onDate].
  replace (wallClock 2024 7 4 23 + 7 * msPerHour + 1 * msPerHour)
    with (wallClock 2024 7 5 7) by (vm_compute; reflexivity).
  unfold getFullYear, getMonth, getDate, getHours, getDay. rewrite !Hclock.
  vm_compute. reflexivity.
Qed.

Lemma scenario_B_witness :
  fst (convertTimeSlotSpecific Sample.browser Sample.zoneDb
         "America/Los_Angeles" "Europe/London" "2024-07-04" 23)
  = {| Specific.date := "2024-07-05"; Specific.hour := 7;
       Specific.dayName := "Friday" |}.
Proof.
  apply (scenario_B Sample.browser Sample.zoneDb).
  - reflexivity.
  - vm_compute. reflexivity.
  - vm_compute. reflexivity.
Defined.

(** ** The DST check (C5) *)

(** Whenever the zone database resolves the wall-clock time of an instant
    back to that instant, [getTimezoneOffset] measures a round trip, not an
    offset: it is zero, in summer as on January 1. *)
Lemma isDaylightSavingTime_never br db date timezone :
  Gapless br ->
  (forall t, exists off, utcOffset db timezone t = Some off /\
                         localToInstant db timezone (t + off) = Some t) ->
  isDaylightSavingTime br db date timezone = false.
Proof.
  intros Hgap Hinv.
  assert (Hoff : forall t, getTimezoneOffset br db t timezone
                           = Some (inject_Z 0 / inject_Z (1000 * 60))%Q).
  { intros t. unfold getTimezoneOffset, utcToZonedTime, zonedTimeToUtc.
    destruct (Hinv t) as (off & Ho & Hl). cbn [mbind option_bind]. rewrite Ho.
    cbn [mbind option_bind]. rewrite Hgap, Hl. cbn [fmap option_fmap option_map].
    by rewrite Z.sub_diag. }
  unfold isDaylightSavingTime. cbn zeta. by rewrite !Hoff.
Qed.

(** For a zone that does not resolve both offsets are NaN, which differ. *)
Lemma isDaylightSavingTime_unresolved br db date timezone :
  (forall t, utcOffset db timezone t = None) ->
  isDaylightSavingTime br db date timezone = true.
Proof.
  intros Hnone. unfold isDaylightSavingTime, getTimezoneOffset, utcToZonedTime.
  cbn zeta. cbn [mbind option_bind]. by rewrite !Hnone.
Qed.

(** C5, on the code.  At noon UTC on 2024-07-04 Los Angeles is at UTC-7, on
    January 1 of that year at UTC-8, and [isDaylightSavingTime] answers
    [false]. *)
Lemma isDaylightSavingTime_summer :
  let date := wallClock 2024 7 4 12 in
  utcOffset Sample.zoneDb "America/Los_Angeles" date = Some (-7 * msPerHour) /\
  utcOffset Sample.zoneDb "America/Los_Angeles"
    (newDate Sample.browser (getFullYear Sample.browser date) 0 1)
    = Some (-8 * msPerHour) /\
  isDaylightSavingTime Sample.browser Sample.zoneDb date "America/Los_Angeles" = false.
Proof. cbn zeta. split_and!; vm_compute; reflexivity. Qed.

(** ** [getLocalTimeParts] (C9) *)

Lemma digit_range c d : digit c = Some d -> 0 <= d <= 9.
Proof.
  unfold digit. destruct (_ && _) eqn:H; [|done]. intros [= <-].
  apply andb_true_iff in H as [H1%Z.leb_le H2%Z.leb_le].
  revert H1 H2. generalize (Z.of_N (N_of_ascii c)). lia.
Qed.

Lemma digit_not_sign c d :
  digit c = Some d -> isWhiteSpace c = false /\ c <> "-"%char /\ c <> "+"%char.
Proof.
  destruct c as [[] [] [] [] [] [] [] []]; vm_compute; intros H;
    try discriminate H; by split_and!.
Qed.

Lemma digits_value_leading s : forall acc n,
  0 <= acc -> digits_value s acc = Some n ->
  leadingDigits s (Some acc) = Some n /\ 0 <= n.
Proof.
  induction s as [|c r IH]; intros acc n Hacc; cbn [digits_value leadingDigits].
  - intros [= <-]. done.
  - destruct (digit c) as [d|] eqn:Hd; [|done].
    apply digit_range in Hd. intros H.
    change (default 0 (Some acc)) with acc. apply IH; [lia | done].
Qed.

(** On a run of decimal digits [parseInt] reads the number they write. *)
Lemma parseInt_decimal s n : decimal s = Some n -> parseInt s = Some n /\ 0 <= n.
Proof.
  destruct s as [|c r]; [done|]. cbn [decimal digits_value].
  destruct (digit c) as [d|] eqn:Hd; [|done].
  destruct (digit_not_sign c d Hd) as (Hws & Hm & Hp).
  pose proof (digit_range c d Hd) as Hr. intros H.
  destruct (digits_value_leading r (10 * 0 + d) n ltac:(lia) H) as [Hl Hn].
  split; [|done]. unfold parseInt. cbn [skipWhiteSpace]. rewrite Hws.
  assert (Hlead : leadingDigits (String c r) None = Some n)
    by (cbn [leadingDigits]; by rewrite Hd).
  destruct c as [[] [] [] [] [] [] [] []]; try done.
Qed.

Section LocalTimePartsRange.

Variable formatToParts : string -> Z -> option (list Intl.Part).


End LocalTimePartsRange.


(** ** Storage (C10) *)

Section StorageRoundtrip.

Variable stringifyParticipant : Participant -> string.
Variable JSON_parse : string -> option (list Participant).

(** C10.  With [localStorage] working and a list that [JSON.parse] reads back
    from its serialization, loading right after saving returns the list; with
    nothing stored, or when reading or parsing throws, loading returns the
    empty list. *)
Theorem load_after_save ls ps :
  (writable ls = true -> readable ls = true ->
   JSON_parse (JSON_stringify stringifyParticipant ps) = Some ps ->
   fst (loadParticipants JSON_parse
          (fst (saveParticipants stringifyParticipant ls ps))) = ps) /\
  (items ls !! STORAGE_KEY = None -> fst (loadParticipants JSON_parse ls) = []) /\
  (readable ls = false -> fst (loadParticipants JSON_parse ls) = []) /\
  (forall s, items ls !! STORAGE_KEY = Some s -> JSON_parse s = None ->
             fst (loadParticipants JSON_parse ls) = []).
Proof.
  split_and!.
  - intros Hw Hr Hjson. unfold saveParticipants, setItem. rewrite Hw. cbn [fst].
    unfold loadParticipants, getItem. cbn [readable items]. rewrite Hr.
    cbn [mbind option_bind]. rewrite lookup_insert_eq.
    set (s := JSON_stringify stringifyParticipant ps) in *.
    assert (Ht : truthy (Some s) = true) by reflexivity.
    rewrite Ht. change (default "" (Some s)) with s. by rewrite Hjson.
  - intros Hnone. unfold loadParticipants, getItem.
    destruct (readable ls); [|done]. cbn [mbind option_bind]. by rewrite Hnone.
  - intros Hr. unfold loadParticipants, getItem. by rewrite Hr.
  - intros s Hs Hparse. unfold loadParticipants, getItem.
    destruct (readable ls); [|done]. cbn [mbind option_bind]. rewrite Hs.
    destruct (truthy (Some s)); [|done].
    change (default "" (Some s)) with s. by rewrite Hparse.
Qed.

End StorageRoundtrip.

Lemma load_after_save_witness :
  let alice := Sample.participant "alice" "Europe/London" weekly [("Monday", [9; 10])] in
  let stringifyParticipant := fun p : Participant => "{" +:+ id p +:+ "}" in
  let JSON_parse := fun s : string =>
    if String.eqb s "[{alice}]" then Some [alice] else None in
  let ls := {| items := ∅; readable := true; writable := true |} in
  fst (loadParticipants JSON_parse
         (fst (saveParticipants stringifyParticipant ls [alice]))) = [alice].
Proof.
  cbn zeta.
  apply load_after_save; reflexivity.
Defined.

(** * Further properties *)

(** ** Storage keys *)

Section StorageKeys.

Variable stringifyParticipant : Participant -> string.
Variable JSON_parse : string -> option (list Participant).

(** X1.  After [clearParticipants] on a storage that can be written,
    [loadParticipants] returns the empty list, whatever was stored; on a
    storage that cannot be written, clearing changes nothing and logs one
    error. *)
Theorem clear_then_load ls :
  (writable ls = true ->
   fst (loadParticipants JSON_parse (fst (clearParticipants ls))) = []) /\
  (writable ls = false ->
   clearParticipants ls = (ls, [console_error "Failed to clear participants:"])).
Proof.
  unfold clearParticipants, removeItem. split; intros ->; [|done].
  cbn [fst]. unfold loadParticipants, getItem. cbn [readable items].
  destruct (readable ls); [|done]. cbn [mbind option_bind].
  by rewrite lookup_delete_eq.
Qed.

(** X2.  The participants and the last-used timezone live under different
    keys: saving the timezone never changes what [loadParticipants] returns,
    and saving or clearing the participants never changes what
    [loadLastTimezone] returns. *)
Theorem storage_keys_independent ls tz ps :
  loadParticipants JSON_parse (fst (saveLastTimezone ls tz))
    = loadParticipants JSON_parse ls /\
  loadLastTimezone (fst (saveParticipants stringifyParticipant ls ps))
    = loadLastTimezone ls /\
  loadLastTimezone (fst (clearParticipants ls)) = loadLastTimezone ls.
Proof.
  split_and!.
  - unfold saveLastTimezone, setItem. destruct (writable ls) eqn:Hw; [|done].
    cbn [fst]. unfold loadParticipants, getItem. cbn [readable items].
    by rewrite lookup_insert_ne.
  - unfold saveParticipants, setItem. destruct (writable ls) eqn:Hw; [|done].
    cbn [fst]. unfold loadLastTimezone, getItem. cbn [readable items].
    by rewrite lookup_insert_ne.
  - unfold clearParticipants, removeItem. destruct (writable ls) eqn:Hw; [|done].
    cbn [fst]. unfold loadLastTimezone, getItem. cbn [readable items].
    by rewrite lookup_delete_ne.
Qed.

End StorageKeys.

Lemma clear_then_load_witness :
  let ls := {| items := {[ STORAGE_KEY := "[{alice}]" ]};
               readable := true; writable := true |} in
  fst (loadParticipants (fun _ => None) (fst (clearParticipants ls))) = [].
Proof.
  cbn zeta. refine (proj1 (clear_then_load (fun _ => None) _) _). reflexivity.
Defined.

(** X3.  The form remembers the last timezone only when it is one of its
    options: opened after [saveLastTimezone tz] on a working storage it
    starts with [tz] if [tz] is listed and with the browser's zone otherwise;
    with nothing stored, or a storage that cannot be read, it starts with the
    browser's zone. *)
Theorem initialTimezone_remembered ls tz userTimezone :
  (readable ls = true -> writable ls = true ->
   initialTimezone (fst (saveLastTimezone ls tz)) userTimezone =
   if bool_decide (tz ∈ TIMEZONE_OPTIONS) then tz else userTimezone) /\
  (items ls !! LAST_TIMEZONE_KEY = None -> initialTimezone ls userTimezone = userTimezone) /\
  (readable ls = false -> initialTimezone ls userTimezone = userTimezone).
Proof.
  split_and!.
  - intros Hr Hw. unfold saveLastTimezone, setItem. rewrite Hw. cbn [fst].
    unfold initialTimezone, loadLastTimezone, getItem. cbn [readable items].
    rewrite Hr, lookup_insert_eq. cbn [fst].
    change (default "" (Some tz)) with tz.
    assert (Hex : existsb (fun o => String.eqb o tz) TIMEZONE_OPTIONS
                  = bool_decide (tz ∈ TIMEZONE_OPTIONS)).
    { apply eq_true_iff_eq. rewrite existsb_exists, bool_decide_eq_true. split.
      - intros (o & Ho & ->%String.eqb_eq). by apply list_elem_of_In.
      - intros Hin. exists tz. split; [by apply list_elem_of_In | apply String.eqb_refl]. }
    rewrite Hex. case_bool_decide as Hin; [|by rewrite andb_false_r].
    cbn [truthy]. destruct (String.eqb_spec tz "") as [->|_]; [|done].
    exfalso. revert Hin. apply (bool_decide_unpack _). by vm_compute.
  - intros Hnone. unfold initialTimezone, loadLastTimezone, getItem.
    destruct (readable ls); [|done]. by rewrite Hnone.
  - intros Hr. unfold initialTimezone, loadLastTimezone, getItem. by rewrite Hr.
Qed.

Lemma initialTimezone_remembered_witness :
  let ls := {| items := ∅; readable := true; writable := true |} in
  initialTimezone (fst (saveLastTimezone ls "America/Phoenix")) "America/Phoenix"
    = "America/Phoenix" /\
  initialTimezone (fst (saveLastTimezone ls "Asia/Tokyo")) "America/Phoenix"
    = "Asia/Tokyo".
Proof.
  cbn zeta. split.
  - by rewrite (proj1 (initialTimezone_remembered _ _ _)).
  - by rewrite (proj1 (initialTimezone_remembered _ _ _)).
Defined.

(** ** The participant list of the application *)

Lemma findIndex_absent ps x : x ∉ map id ps -> findIndex ps x = -1.
Proof.
  induction ps as [|p ps IH]; [done|]. cbn [map findIndex].
  intros [Hne Hx]%not_elem_of_cons.
  destruct (String.eqb_spec (id p) x) as [Heq|_]; [by destruct Hne|].
  by rewrite (IH Hx).
Qed.

Lemma findIndex_lookup ps : forall i p,
  NoDup (map id ps) -> ps !! i = Some p -> findIndex ps (id p) = Z.of_nat i.
Proof.
  induction ps as [|q ps IH]; intros i p Hnd Hi; [done|].
  cbn [map] in Hnd. apply NoDup_cons in Hnd as [Hq Hnd]. cbn [findIndex].
  destruct i as [|i]; cbn in Hi.
  - injection Hi as ->. by rewrite String.eqb_refl.
  - destruct (String.eqb_spec (id q) (id p)) as [Heq|_].
    + exfalso. apply Hq. rewrite Heq.
      apply list_elem_of_In, in_map, list_elem_of_In. by eapply list_elem_of_lookup_2.
    + rewrite (IH i p Hnd Hi).
      destruct (Z.eqb_spec (Z.of_nat i) (-1)); lia.
Qed.

Lemma findIndex_app_present ps qs x :
  x ∈ map id ps -> findIndex (ps ++ qs) x = findIndex ps x.
Proof.
  induction ps as [|q ps IH]; cbn [map app findIndex]; [by intros ?%elem_of_nil|].
  intros Hx. destruct (String.eqb_spec (id q) x) as [_|Hne]; [done|].
  apply elem_of_cons in Hx as [Hx|Hx]; [done|]. by rewrite (IH Hx).
Qed.

(** X4.  With distinct ids, the participant at position [i] is drawn in the
    colour [i mod 12] of the palette, and adding a participant at the end
    changes the colour of none that was there. *)
Theorem participant_color_by_position ps i p :
  NoDup (map id ps) -> ps !! i = Some p ->
  getParticipantColor ps (id p)
    = arrayGet PARTICIPANT_COLORS (Z.of_nat i mod 12) /\
  getParticipantColor ps (id p) ∈ PARTICIPANT_COLORS /\
  forall uuid isoNow data,
    getParticipantColor (handleAddParticipant uuid isoNow data ps) (id p)
    = getParticipantColor ps (id p).
Proof.
  intros Hnd Hi. unfold getParticipantColor.
  rewrite (findIndex_lookup ps i p Hnd Hi).
  change (Z.of_nat (length PARTICIPANT_COLORS)) with 12.
  rewrite Z.rem_mod_nonneg by lia.
  assert (Hpal : forall j, 0 <= j < 12 -> arrayGet PARTICIPANT_COLORS j ∈ PARTICIPANT_COLORS).
  { intros j Hj.
    assert (H : j = 0 \/ j = 1 \/ j = 2 \/ j = 3 \/ j = 4 \/ j = 5 \/ j = 6 \/
                j = 7 \/ j = 8 \/ j = 9 \/ j = 10 \/ j = 11) by lia.
    destruct H as [->|[->|[->|[->|[->|[->|[->|[->|[->|[->|[->| ->]]]]]]]]]]];
      apply (bool_decide_unpack _); by vm_compute. }
  split_and!; [done | apply Hpal, Z.mod_pos_bound; lia |].
  intros uuid isoNow data. unfold handleAddParticipant.
  rewrite findIndex_app_present, (findIndex_lookup ps i p Hnd Hi).
  - by rewrite Z.rem_mod_nonneg by lia.
  - apply list_elem_of_In, in_map, list_elem_of_In. by eapply list_elem_of_lookup_2.
Qed.

Lemma participant_color_by_position_witness :
  let a := Sample.participant "a" "UTC" weekly [] in
  let b := Sample.participant "b" "UTC" weekly [] in
  getParticipantColor [a; b] (id b) = "#EF4444".
Proof.
  cbn zeta.
  refine (proj1 (participant_color_by_position
    [Sample.participant "a" "UTC" weekly []; Sample.participant "b" "UTC" weekly []]
    1%nat (Sample.participant "b" "UTC" weekly []) _ eq_refl)).
  apply (bool_decide_unpack _). by vm_compute.
Defined.

(** X5.  [handleRemoveParticipant] keeps exactly the participants with
    another id; the removed id is then unknown to [findIndex]; removing an id
    nobody has changes nothing, and removing a participant just added under a
    fresh id gives the list back. *)
Theorem handleRemoveParticipant_spec id0 ps :
  (forall p, p ∈ handleRemoveParticipant id0 ps <-> p ∈ ps /\ id p <> id0) /\
  findIndex (handleRemoveParticipant id0 ps) id0 = -1 /\
  (id0 ∉ map id ps -> handleRemoveParticipant id0 ps = ps) /\
  (forall isoNow data,
     id0 ∉ map id ps ->
     handleRemoveParticipant id0 (handleAddParticipant id0 isoNow data ps) = ps).
Proof.
  assert (Hmem : forall p, p ∈ handleRemoveParticipant id0 ps <-> p ∈ ps /\ id p <> id0).
  { intros p. unfold handleRemoveParticipant.
    rewrite !list_elem_of_In, filter_In, negb_true_iff. split.
    - intros [Hp Hne]. split; [done|]. by apply String.eqb_neq.
    - intros [Hp Hne]. split; [done|]. by apply String.eqb_neq. }
  assert (Hid : id0 ∉ map id ps -> handleRemoveParticipant id0 ps = ps).
  { clear Hmem. unfold handleRemoveParticipant. induction ps as [|q ps IH]; [done|].
    cbn [map List.filter]. intros [Hne Hx]%not_elem_of_cons.
    destruct (String.eqb_spec (id q) id0) as [Heq|_]; [by destruct Hne|].
    cbn [negb]. f_equal. by apply IH. }
  split_and!; [done | | done |].
  - apply findIndex_absent. intros Hin.
    apply list_elem_of_In, in_map_iff in Hin as (p & Hp & Hin).
    apply list_elem_of_In, Hmem in Hin as [_ Hne]. done.
  - intros isoNow data Hfresh.
    unfold handleAddParticipant, handleRemoveParticipant.
    rewrite List.filter_app. cbn [List.filter id]. rewrite String.eqb_refl. cbn [negb].
    rewrite app_nil_r. by apply Hid.
Qed.

Lemma handleRemoveParticipant_spec_witness :
  let a := Sample.participant "a" "UTC" weekly [] in
  handleRemoveParticipant "b" [a] = [a].
Proof.
  cbn zeta. apply handleRemoveParticipant_spec.
  apply (bool_decide_unpack _). by vm_compute.
Defined.

(** ** Hours on offer and members of a cell *)

Lemma fold_left_lengths (l : list (list Z)) : forall acc,
  fold_left (fun total hours => total + Z.of_nat (length hours)) l acc
  = acc + Z.of_nat (length (concat l)).
Proof.
  induction l as [|hs l IH]; intros acc; cbn [fold_left concat length]; [lia|].
  rewrite IH, length_app. lia.
Qed.

Lemma length_entries p :
  length (entries p) = length (concat (map snd (availability p))).
Proof.
  unfold entries. induction (availability p) as [|[k hs] av IH]; [done|].
  cbn [flat_map map concat fst snd]. by rewrite !length_app, length_map, IH.
Qed.

Lemma getTotalAvailableHours_entries p :
  getTotalAvailableHours p = Z.of_nat (length (entries p)).
Proof.
  unfold getTotalAvailableHours. rewrite fold_left_lengths, length_entries. lia.
Qed.

Lemma totalAvailableHours_entries ps :
  totalAvailableHours ps = Z.of_nat (length (flat_map entries ps)).
Proof.
  unfold totalAvailableHours.
  assert (H : forall acc,
    fold_left (fun total p =>
      total + fold_left (fun sum hours => sum + Z.of_nat (length hours))
                        (map snd (availability p)) 0) ps acc
    = acc + Z.of_nat (length (flat_map entries ps))).
  { induction ps as [|p ps IH]; intros acc; cbn [fold_left flat_map length]; [lia|].
    rewrite IH, fold_left_lengths, length_app, length_entries. lia. }
  rewrite H. lia.
Qed.

(** X6.  The hours the application counts are the raw entries: a card shows
    the number of raw entries of its participant, the action bar their number
    over all participants, and no cell ever has more members than that. *)
Theorem count_le_total_hours br db now ps userTimezone day hour sd :
  (forall p, getTotalAvailableHours p = Z.of_nat (length (entries p))) /\
  totalAvailableHours ps = Z.of_nat (length (flat_map entries ps)) /\
  0 <= Data.count (fst (getAvailabilityData br db now ps userTimezone day hour sd))
    <= totalAvailableHours ps.
Proof.
  split; [apply getTotalAvailableHours_entries|].
  split; [apply totalAvailableHours_entries|].
  rewrite totalAvailableHours_entries.
  destruct (getAvailabilityData_count br db now userTimezone ps day hour sd) as [-> _].
  destruct (getAvailabilityData_entries br db now userTimezone ps day hour sd) as [-> _].
  split; [lia|].
  apply inj_le. induction ps as [|p ps IH]; [done|].
  cbn [flat_map]. rewrite !length_app.
  apply Nat.add_le_mono; [|exact IH]. clear.
  induction (entries p) as [|e l IH]; [done|]. cbn [flat_map length].
  rewrite length_app.
  destruct (entryStep_hit br db now userTimezone day hour sd p e) as [-> | ->];
    cbn [length]; lia.
Qed.

(** ** Conversions and the cells of the grid *)

Lemma getDayName_arrayGet w :
  0 <= w <= 6 -> getDayName (toMondayFirst w) = arrayGet days (toMondayFirst w).
Proof.
  intros Hw. unfold getDayName. destruct (toMondayFirst_back w Hw) as [Hi _].
  cbn [number_rem arrayAt]. change (7 =? 0) with false. cbn iota.
  by rewrite Z.rem_small by lia.
Qed.

Lemma getDay_range br d : 0 <= getDay br d <= 6.
Proof. unfold getDay. pose proof (WeekDay_range (LocalTime br d)). lia. Qed.

Lemma getHours_range br d : 0 <= getHours br d <= 23.
Proof. unfold getHours. pose proof (HourFromTime_range (LocalTime br d)). lia. Qed.

(** The Monday-first index the conversions compute from [getDay], as a
    [number]. *)
Lemma mondayFirst_number (w : Z) :
  (if number_eqb w 0 then num 6 else number_sub w 1) = num (toMondayFirst w).
Proof. unfold toMondayFirst. cbn [number_eqb number_sub]. by destruct (w =? 0). Qed.

Lemma slot_eqb (s : Slot) d (h : Z) :
  String.eqb (day s) d && number_eqb (hour s) h = true <-> s = {| day := d; hour := h |}.
Proof.
  destruct s as [sd [sh|]]; cbn [day hour number_eqb].
  - rewrite andb_true_iff, String.eqb_eq, Z.eqb_eq. split; [by intros [-> ->]|].
    by intros [= -> ->].
  - rewrite andb_false_r. split; [done | by intros [=]].
Qed.

(** The slot read off a [Date]: a cell of the grid, or [undefined] and NaN
    when it is the Invalid Date. *)
Lemma slot_of_date br (date : option Z) :
  let s := {| day := getDayName (if number_eqb (onDate (getDay br) date) 0 then num 6
                                 else number_sub (onDate (getDay br) date) 1);
              hour := onDate (getHours br) date |} in
  match date with
  | Some d =>
      s = {| day := arrayGet days (toMondayFirst (getDay br d)); hour := getHours br d |}
  | None => s = invalidSlot
  end.
Proof.
  destruct date as [d|]; [|reflexivity]. cbn [onDate].
  by rewrite mondayFirst_number, (getDayName_arrayGet _ (getDay_range br d)).
Qed.

Section Cells.

Variable br : Browser.
Variable db : ZoneDb.
Variable now : Z.
Variable userTimezone : string.

(** The inline conversion of the weekly branch and [convertTimeSlot] are the
    same computation. *)
Lemma weeklyEntry_convertTimeSlot cellDay cellHour p k h :
  fst (weeklyEntry br db now userTimezone cellDay cellHour p k h st_nil) = [p] <->
  convertTimeSlot br db now (timezone p) userTimezone k h None
    = ({| day := cellDay; hour := cellHour |}, []).
Proof.
  unfold weeklyEntry, convertTimeSlot, getDayIndex.
  cbn [truthy]. cbn zeta.
  destruct (indexOf days k =? -1); [split; [done | by intros [=]]|].
  match goal with
  | |- context [utcToZonedTime br db ?u userTimezone] =>
      pose proof (slot_of_date br (utcToZonedTime br db u userTimezone)) as Hs;
      destruct (utcToZonedTime br db u userTimezone) as [l|]
  end; cbn zeta in Hs; rewrite Hs; clear Hs.
  - cbn [onDate]. rewrite mondayFirst_number. cbn [arrayAt].
    set (s := {| day := arrayGet days (toMondayFirst (getDay br l));
                 hour := getHours br l |}).
    change (arrayGet days (toMondayFirst (getDay br l))) with (day s).
    change (num (getHours br l)) with (hour s).
    pose proof (slot_eqb s cellDay cellHour) as Heq.
    destruct (String.eqb (day s) cellDay && number_eqb (hour s) cellHour).
    + split; [|done]. intros _. f_equal. by apply Heq.
    + split; [done|]. intros Hs. apply (f_equal fst) in Hs. cbn [fst] in Hs.
      by apply Heq in Hs.
  - cbn [onDate number_eqb]. rewrite andb_false_r. split; [done | by intros [=]].
Qed.

(** X7.  In the weekly grid a raw entry of a weekly participant is listed in
    the cell ([day], [hour]) exactly when [convertTimeSlot] returns that slot
    and writes nothing to the console: the conversion written out inside
    [getAvailabilityData] is that of [convertTimeSlot], except that entries
    it warns about or fails on are dropped. *)
Theorem weekly_cell_is_convertTimeSlot cellDay cellHour p e :
  availabilityType p = weekly ->
  (lands br db now userTimezone cellDay cellHour None p e = true <->
   convertTimeSlot br db now (timezone p) userTimezone (fst e) (snd e) None
     = ({| day := cellDay; hour := cellHour |}, [])).
Proof.
  intros Hty. rewrite <- weeklyEntry_convertTimeSlot.
  pose proof (lands_spec br db now userTimezone cellDay cellHour None p e) as Hl.
  unfold entryStep in Hl. rewrite Hty in Hl. cbn [truthy] in Hl. rewrite Hl.
  by destruct (lands br db now userTimezone cellDay cellHour None p e).
Qed.

(** X8.  A conversion that writes nothing to the console either names a cell
    of the grid, its weekday one of the seven and its hour between 0 and 23,
    or went through the Invalid Date and returns [undefined] and NaN, which
    is no cell. *)
Theorem converted_slot_in_grid tz k h sd :
  (forall s, convertTimeSlot br db now tz userTimezone k h sd = (s, []) ->
     (exists hr : Z, day s ∈ days /\ hour s = hr /\ hr ∈ hours) \/
     s = invalidSlot) /\
  (forall c, convertTimeSlotSpecific br db tz userTimezone k h = (c, []) ->
     (exists hr : Z, Specific.dayName c ∈ days /\ Specific.hour c = hr /\ hr ∈ hours) \/
     c = invalidSpecific).
Proof.
  assert (Hh : forall d, getHours br d ∈ hours).
  { intros d. apply elem_of_seqZ. pose proof (getHours_range br d). lia. }
  assert (Hd : forall d, arrayGet days (toMondayFirst (getDay br d)) ∈ days).
  { intros d. apply (dayName_defined (LocalTime br d)). }
  split.
  - intros s. unfold convertTimeSlot. cbn zeta.
    assert (Hfin : forall date s,
      ({| day := getDayName (if number_eqb (onDate (getDay br) date) 0 then num 6
                             else number_sub (onDate (getDay br) date) 1);
          hour := onDate (getHours br) date |}, @nil ConsoleEntry) = (s, []) ->
      (exists hr : Z, day s ∈ days /\ hour s = hr /\ hr ∈ hours) \/ s = invalidSlot).
    { intros date s' [= <-]. pose proof (slot_of_date br date) as Hs.
      cbn zeta in Hs. destruct date as [d|]; rewrite Hs; [left | by right].
      exists (getHours br d). cbn [day hour]. split_and!; [apply Hd | done | apply Hh]. }
    destruct (truthy sd); [apply Hfin|].
    destruct (getDayIndex k =? -1); [by intros [=] | apply Hfin].
  - intros c. unfold convertTimeSlotSpecific. cbn zeta.
    destruct (utcToZonedTime br db _ userTimezone) as [l|];
      intros [= <-]; [left | by right].
    exists (getHours br l). cbn [onDate Specific.dayName Specific.hour].
    pose proof (Hd l) as Hdl. unfold toMondayFirst in Hdl.
    cbn [number_eqb number_sub].
    destruct (getDay br l =? 0); cbn [arrayAt];
      (split_and!; [exact Hdl | done | apply Hh]).
Qed.

End Cells.

Lemma weekly_cell_is_convertTimeSlot_witness :
  lands Sample.browser Sample.zoneDb Sample.now "Asia/Tokyo" "Tuesday" 11 None
    (Sample.participant "a" "America/New_York" weekly [("Monday", [22])])
    ("Monday", 22) = true.
Proof.
  refine (proj2 (weekly_cell_is_convertTimeSlot Sample.browser Sample.zoneDb
    Sample.now "Asia/Tokyo" "Tuesday" 11
    (Sample.participant "a" "America/New_York" weekly [("Monday", [22])])
    ("Monday", 22) eq_refl) _).
  vm_compute. reflexivity.
Defined.

Lemma converted_slot_in_grid_witness :
  (exists hr : Z,
     day (fst (convertTimeSlot Sample.browser Sample.zoneDb Sample.now
                 "UTC" "Asia/Tokyo" "Sunday" 24 None)) ∈ days /\
     hour (fst (convertTimeSlot Sample.browser Sample.zoneDb Sample.now
                  "UTC" "Asia/Tokyo" "Sunday" 24 None)) = hr /\
     hr ∈ hours) \/
  fst (convertTimeSlot Sample.browser Sample.zoneDb Sample.now
         "UTC" "Asia/Tokyo" "Sunday" 24 None) = invalidSlot.
Proof.
  refine (proj1 (converted_slot_in_grid Sample.browser Sample.zoneDb Sample.now
    "Asia/Tokyo" "UTC" "Sunday" 24 None)
    (fst (convertTimeSlot Sample.browser Sample.zoneDb Sample.now
            "UTC" "Asia/Tokyo" "Sunday" 24 None)) _).
  vm_compute. reflexivity.
Defined.

(** ** Both versions of the component *)

Section Versions.

Variable br : Browser.
Variable db : ZoneDb.
Variable now : Z.
Variable userTimezone : string.

(** X9.  Whatever the cell, its members have the availability type the cell
    is drawn for: weekly participants are listed only by the weekly grid (no
    date given) and specific-date participants only by the date grid. *)
Theorem members_have_grid_type ps cellDay cellHour sd p :
  p ∈ Data.participants (fst (getAvailabilityData br db now ps userTimezone
                                cellDay cellHour sd)) ->
  p ∈ ps /\
  availabilityType p = (if truthy sd then specific else weekly).
Proof.
  destruct (getAvailabilityData_entries br db now userTimezone ps cellDay cellHour sd)
    as [-> _].
  rewrite list_elem_of_In, in_flat_map. intros (q & Hq & Hp).
  apply in_flat_map in Hp as (e & He & Hp).
  destruct (entryStep_hit br db now userTimezone cellDay cellHour sd q e) as [Hhit|Hhit];
    rewrite Hhit in Hp; [done|].
  destruct Hp as [<-|[]]. split; [by apply list_elem_of_In|].
  unfold entryStep in Hhit.
  by destruct (availabilityType q), (truthy sd).
Qed.

Lemma Appender_v1Entry cellDay cellHour p e :
  Appender (v1Entry br db now userTimezone cellDay cellHour p e).
Proof.
  intros [a o]. unfold v1Entry.
  destruct (convertTimeSlot _ _ _ _ _ _ _ _) as [[cd ch] out].
  unfold push, logged, st_app, st_nil.
  destruct (_ && _); cbn; by rewrite ?app_nil_r.
Qed.

Lemma getAvailabilityData_v1_entries ps cellDay cellHour :
  Data.participants (fst (getAvailabilityData_v1 br db now ps userTimezone
                            cellDay cellHour)) =
  flat_map (fun p => flat_map (fun e => fst (v1Entry br db now userTimezone cellDay cellHour p e st_nil))
                              (entries p)) ps.
Proof.
  unfold getAvailabilityData_v1.
  assert (Hinner : forall p st,
    forEach (availability p) (fun '(participantDay, participantHours) st =>
      forEach participantHours (fun participantHour st =>
        let '({| day := convertedDay; hour := convertedHour |}, out) :=
          convertTimeSlot br db now (timezone p) userTimezone
            participantDay participantHour None in
        let st := logged out st in
        if String.eqb convertedDay cellDay && number_eqb convertedHour cellHour
        then push p st
        else st) st) st
    = forEach (entries p) (v1Entry br db now userTimezone cellDay cellHour p) st).
  { intros p st.
    by rewrite (forEach_nested (fun k h st => v1Entry br db now userTimezone cellDay cellHour p (k, h) st)). }
  assert (Happ : forall p, Appender (fun st =>
    forEach (availability p) (fun '(participantDay, participantHours) st =>
      forEach participantHours (fun participantHour st =>
        let '({| day := convertedDay; hour := convertedHour |}, out) :=
          convertTimeSlot br db now (timezone p) userTimezone
            participantDay participantHour None in
        let st := logged out st in
        if String.eqb convertedDay cellDay && number_eqb convertedHour cellHour
        then push p st
        else st) st) st)).
  { intros p st. rewrite !Hinner. apply Appender_forEach, Appender_v1Entry. }
  match goal with
  | |- context [forEach ps ?F _] =>
      destruct (forEach_concat F ps Happ) as [H1 _]
  end.
  fold st_nil. destruct (forEach ps _ st_nil) as [a o].
  cbn [fst snd Data.participants] in H1 |- *. subst a.
  apply flat_map_ext. intros p. rewrite Hinner.
  by destruct (forEach_concat (v1Entry br db now userTimezone cellDay cellHour p) (entries p)
                 (Appender_v1Entry cellDay cellHour p)).
Qed.

(** X10.  For weekly participants whose every conversion writes nothing to
    the console, the first version of the component (which calls
    [convertTimeSlot]) and the current one list the same members in every
    cell. *)
Theorem versions_agree ps cellDay cellHour :
  (forall p, p ∈ ps -> availabilityType p = weekly) ->
  (forall p e, p ∈ ps -> e ∈ entries p ->
     snd (convertTimeSlot br db now (timezone p) userTimezone (fst e) (snd e) None)
     = []) ->
  Data.participants (fst (getAvailabilityData_v1 br db now ps userTimezone
                            cellDay cellHour)) =
  Data.participants (fst (getAvailabilityData br db now ps userTimezone
                            cellDay cellHour None)).
Proof.
  intros Hty Hok. rewrite getAvailabilityData_v1_entries.
  destruct (getAvailabilityData_entries br db now userTimezone ps cellDay cellHour None)
    as [-> _].
  assert (Hall : forall p, p ∈ ps -> forall e, e ∈ entries p ->
    fst (v1Entry br db now userTimezone cellDay cellHour p e st_nil)
    = fst (entryStep br db now userTimezone cellDay cellHour None p e st_nil)).
  { intros p Hp e He. unfold entryStep. rewrite (Hty p Hp). cbn [truthy].
    specialize (Hok p e Hp He).
    pose proof (weeklyEntry_convertTimeSlot br db now userTimezone cellDay cellHour
                  p (fst e) (snd e)) as Hw.
    destruct (entryStep_hit br db now userTimezone cellDay cellHour None p e) as [Hhit|Hhit];
      unfold entryStep in Hhit; rewrite (Hty p Hp) in Hhit; cbn [truthy] in Hhit;
      rewrite Hhit in *; unfold v1Entry;
      destruct (convertTimeSlot br db now (timezone p) userTimezone e.1 e.2 None)
        as [[cd ch] out]; cbn [snd] in Hok; subst out;
      pose proof (slot_eqb {| day := cd; hour := ch |} cellDay cellHour) as Heq;
      cbn [day hour] in Heq;
      destruct (String.eqb cd cellDay && number_eqb ch cellHour).
    - exfalso. assert (Hs : {| day := cd; hour := ch |}
                            = {| day := cellDay; hour := cellHour |}) by by apply Heq.
      rewrite Hs in Hw. by destruct Hw as [_ Hw]; specialize (Hw eq_refl).
    - done.
    - done.
    - exfalso. destruct Hw as [Hw _]. specialize (Hw eq_refl).
      apply (f_equal fst) in Hw. cbn [fst] in Hw. by apply Heq in Hw. }
  clear Hty Hok. induction ps as [|p ps IH]; [done|]. cbn [flat_map]. f_equal.
  - specialize (Hall p ltac:(left)). clear IH.
    induction (entries p) as [|e l IHl]; [done|]. cbn [flat_map]. f_equal.
    + apply Hall. left.
    + apply IHl. intros e' He'. apply Hall. by right.
  - apply IH. intros q Hq. apply Hall. by right.
Qed.

End Versions.

Lemma members_have_grid_type_witness :
  availabilityType (Sample.participant "a" "UTC" weekly [("Monday", [24])])
  = (if truthy None then specific else weekly).
Proof.
  refine (proj2 (members_have_grid_type Sample.browser Sample.zoneDb Sample.now "UTC"
    [Sample.participant "a" "UTC" weekly [("Monday", [24])]] "Tuesday" 0 None
    (Sample.participant "a" "UTC" weekly [("Monday", [24])]) _)).
  match goal with
  | |- _ ∈ ?l =>
      replace l with [Sample.participant "a" "UTC" weekly [("Monday", [24])]]
        by (vm_compute; reflexivity)
  end.
  by apply list_elem_of_singleton.
Defined.


Lemma versions_agree_witness :
  Data.participants (fst (getAvailabilityData_v1 Sample.browser Sample.zoneDb
    Sample.now [Sample.participant "a" "America/New_York" weekly [("Monday", [22])]]
    "Asia/Tokyo" "Tuesday" 11)) =
  Data.participants (fst (getAvailabilityData Sample.browser Sample.zoneDb
    Sample.now [Sample.participant "a" "America/New_York" weekly [("Monday", [22])]]
    "Asia/Tokyo" "Tuesday" 11 None)).
Proof.
  refine (versions_agree Sample.browser Sample.zoneDb Sample.now "Asia/Tokyo"
    [Sample.participant "a" "America/New_York" weekly [("Monday", [22])]]
    "Tuesday" 11 _ _).
  - intros p Hp. apply list_elem_of_singleton in Hp. by subst p.
  - intros p e Hp He. apply list_elem_of_singleton in Hp. subst p.
    apply list_elem_of_singleton in He. subst e. vm_compute. reflexivity.
Defined.

(** ** A zone that does not resolve (C2) *)

(** C2, on the code.  The zone "Mars/Olympus_Mons" does not resolve, and the
    date "not-a-date" is no date.  [convertTimeSlot] and
    [convertTimeSlotSpecific] then do not fall back to the slot they were
    given, (Monday, 9): they return [undefined] and NaN and write nothing to
    the console, and both versions of the component list the participant in
    no cell. *)
Lemma conversion_failure_no_fallback :
  let p := Sample.participant "a" "Mars/Olympus_Mons" weekly [("Monday", [9])] in
  (forall w, localToInstant Sample.zoneDb "Mars/Olympus_Mons" w = None) /\
  convertTimeSlot Sample.browser Sample.zoneDb Sample.now
    "Mars/Olympus_Mons" "UTC" "Monday" 9 None
    = ({| day := "undefined"; hour := NaN |}, []) /\
  convertTimeSlot Sample.browser Sample.zoneDb Sample.now
    "UTC" "UTC" "Monday" 9 (Some "not-a-date")
    = ({| day := "undefined"; hour := NaN |}, []) /\
  convertTimeSlotSpecific Sample.browser Sample.zoneDb
    "Mars/Olympus_Mons" "UTC" "2024-07-04" 9
    = ({| Specific.date := "NaN-NaN-NaN"; Specific.hour := NaN;
          Specific.dayName := "undefined" |}, []) /\
  forall day hour,
    Data.participants (fst (getAvailabilityData Sample.browser Sample.zoneDb
                              Sample.now [p] "UTC" day hour None)) = [] /\
    Data.participants (fst (getAvailabilityData_v1 Sample.browser Sample.zoneDb
                              Sample.now [p] "UTC" day hour)) = [].
Proof.
  cbn zeta.
  assert (Hnone : forall w, localToInstant Sample.zoneDb "Mars/Olympus_Mons" w = None)
    by (intros w; reflexivity).
  destruct (unresolved_zone_invalid Sample.browser Sample.zoneDb Sample.now "UTC"
              "Mars/Olympus_Mons" (or_introl Hnone)) as (Hslot & Hspec & Hstep).
  split_and!.
  - exact Hnone.
  - apply Hslot. left. by vm_compute.
  - vm_compute. reflexivity.
  - apply Hspec.
  - intros day hour. split.
    + destruct (getAvailabilityData_entries Sample.browser Sample.zoneDb Sample.now
                  "UTC" [Sample.participant "a" "Mars/Olympus_Mons" weekly
                           [("Monday", [9])]] day hour None) as [-> _].
      cbn [flat_map entries Sample.participant availability map fst snd app].
      by rewrite Hstep.
    + rewrite getAvailabilityData_v1_entries.
      cbn [flat_map entries Sample.participant availability map fst snd app].
      unfold v1Entry. cbn [Sample.participant timezone fst snd].
      rewrite Hslot by (left; by vm_compute).
      cbn [invalidSlot number_eqb]. by rewrite andb_false_r.
Qed.

(** ** Date strings written and read back *)

Lemma dom_ok_era : all_from 0 (Z.to_nat 146097) dom_ok = true.
Proof. vm_compute. reflexivity. Qed.

Lemma year4_ok_all : all_from 1000 (Z.to_nat 9000) year4_ok = true.
Proof. vm_compute. reflexivity. Qed.

Lemma pad2_ok_all : all_from 0 (Z.to_nat 100) pad2_ok = true.
Proof. vm_compute. reflexivity. Qed.

Lemma isLeapYear_era y k : isLeapYear (y + k * 400) = isLeapYear y.
Proof.
  unfold isLeapYear.
  replace ((y + k * 400) mod 4) with (y mod 4)
    by (replace (k * 400) with (k * 100 * 4) by lia; by rewrite Z.mod_add).
  replace ((y + k * 400) mod 100) with (y mod 100)
    by (replace (k * 400) with (k * 4 * 100) by lia; by rewrite Z.mod_add).
  by rewrite Z.mod_add.
Qed.

(** The calendar fields of a day name a day of the calendar. *)
Lemma civil_day_valid n :
  let '(y, m, d) := civil_from_days n in 1 <= d <= daysInMonth y (m + 1).
Proof.
  unfold civil_from_days.
  pose proof (Z.mod_pos_bound (n + 719468) 146097 eq_refl) as Hdoe.
  pose proof (all_from_spec _ _ _ dom_ok_era _
                ltac:(rewrite Z2Nat.id; [exact Hdoe | lia])) as Hok.
  unfold dom_ok in Hok.
  destruct (doe_fields ((n + 719468) mod 146097)) as [[yoe mp] d].
  set (m := if mp <? 10 then mp + 3 else mp - 9) in *.
  apply andb_true_iff in Hok as [H1%Z.leb_le H2%Z.leb_le].
  replace (m - 1 + 1) with m by lia.
  assert (Hdim : daysInMonth (if m <=? 2
                              then yoe + (n + 719468) / 146097 * 400 + 1
                              else yoe + (n + 719468) / 146097 * 400) m
                 = daysInMonth (if m <=? 2 then yoe + 1 else yoe) m).
  { unfold daysInMonth. destruct (m =? 2); [|done].
    destruct (m <=? 2).
    - replace (yoe + (n + 719468) / 146097 * 400 + 1)
        with (yoe + 1 + (n + 719468) / 146097 * 400) by lia.
      by rewrite isLeapYear_era.
    - by rewrite isLeapYear_era. }
  rewrite Hdim. lia.
Qed.

Lemma year4_chars y :
  1000 <= y <= 9999 ->
  exists c1 c2 c3 c4,
    Number_toString y = String c1 (String c2 (String c3 (String c4 ""))) /\
    decimal (String c1 (String c2 (String c3 (String c4 "")))) = Some y.
Proof.
  intros Hy.
  pose proof (all_from_spec _ _ _ year4_ok_all y
                ltac:(rewrite Z2Nat.id; lia)) as Hok.
  unfold year4_ok in Hok.
  destruct (Number_toString y) as [|c1 [|c2 [|c3 [|c4 [|c5 r]]]]]; try done.
  exists c1, c2, c3, c4. split; [done|].
  destruct (decimal _) as [v|]; [|done]. by apply Z.eqb_eq in Hok as ->.
Qed.

Lemma pad2_chars n :
  0 <= n <= 99 ->
  exists c1 c2,
    padStart 2 "0" (Number_toString n) = String c1 (String c2 "") /\
    decimal (String c1 (String c2 "")) = Some n.
Proof.
  intros Hn.
  pose proof (all_from_spec _ _ _ pad2_ok_all n
                ltac:(rewrite Z2Nat.id; lia)) as Hok.
  unfold pad2_ok in Hok.
  destruct (padStart 2 "0" (Number_toString n)) as [|c1 [|c2 [|c3 r]]]; try done.
  exists c1, c2. split; [done|].
  destruct (decimal _) as [v|]; [|done]. by apply Z.eqb_eq in Hok as ->.
Qed.

(** Reading a datetime of the expected shape, field by field. *)
Lemma parseISOLocal_chars y1 y2 y3 y4 m1 m2 d1 d2 h1 h2 i1 i2 s1 s2 :
  parseISOLocal
    (String y1 (String y2 (String y3 (String y4 (String "-"
    (String m1 (String m2 (String "-" (String d1 (String d2 (String "T"
    (String h1 (String h2 (String ":" (String i1 (String i2 (String ":"
    (String s1 (String s2 "")))))))))))))))))))
  = (y ← decimal (String y1 (String y2 (String y3 (String y4 ""))));
     m ← decimal (String m1 (String m2 ""));
     d ← decimal (String d1 (String d2 ""));
     h ← decimal (String h1 (String h2 ""));
     mi ← decimal (String i1 (String i2 ""));
     sec ← decimal (String s1 (String s2 ""));
     if (1 <=? m) && (m <=? 12) && (1 <=? d) && (d <=? daysInMonth y m)
        && (h <=? 23) && (mi <=? 59) && (sec <=? 59)
     then Some (MakeDate (days_from_civil y m d) (MakeTime h mi sec 0))
     else None).
Proof. reflexivity. Qed.

(** Written with a four-digit year, the date of a wall-clock time reads back,
    at any hour given in two digits, as that hour of the same day. *)
Lemma dateString_parse w :
  1000 <= YearFromTime w <= 9999 ->
  dateString w <> "" /\
  parseISOLocal (dateString w +:+ "T12:00:00")
    = Some (MakeDate (Day w) (MakeTime 12 0 0 0)).
Proof.
  intros Hy. unfold dateString.
  pose proof (civil_roundtrip (Day w)) as Hrt.
  pose proof (civil_day_valid (Day w)) as Hdv.
  unfold YearFromTime, MonthFromTime, DateFromTime in *.
  destruct (civil_from_days (Day w)) as [[y m] d]. cbn [fst snd] in *.
  destruct Hrt as [Hm Hrt].
  assert (Hd31 : d <= 31).
  { unfold daysInMonth in Hdv.
    destruct (m + 1 =? 2); [destruct (isLeapYear y); lia|].
    destruct (_ || _); lia. }
  destruct (year4_chars y Hy) as (y1 & y2 & y3 & y4 & -> & Hyd).
  destruct (pad2_chars (m + 1) ltac:(lia)) as (m1 & m2 & -> & Hmd).
  destruct (pad2_chars d ltac:(lia)) as (d1 & d2 & -> & Hdd).
  split; [done|].
  lazy beta iota delta [String.append].
  rewrite parseISOLocal_chars, Hyd, Hmd, Hdd.
  cbn [mbind option_bind].
  replace (decimal "12") with (Some 12) by reflexivity.
  replace (decimal "00") with (Some 0) by reflexivity.
  cbn [mbind option_bind].
  assert (Hv : (1 <=? m + 1) && (m + 1 <=? 12) && (1 <=? d)
               && (d <=? daysInMonth y (m + 1)) && (12 <=? 23) && (0 <=? 59)
               && (0 <=? 59) = true).
  { repeat (apply andb_true_iff; split); try reflexivity; apply Z.leb_le; lia. }
  by rewrite Hv, Hrt.
Qed.

(** ** Specific-date entries and the date grid *)

Section DateGrid.

Variable br : Browser.
Variable db : ZoneDb.
Variable now : Z.
Variable userTimezone : string.
Hypothesis gapless : Gapless br.

Lemma convertTimeSlotSpecific_wall tz k h w :
  specificWall db tz userTimezone k h = Some w ->
  convertTimeSlotSpecific br db tz userTimezone k h =
  ({| Specific.date := dateString w;
      Specific.hour := HourFromTime w;
      Specific.dayName := arrayGet days (toMondayFirst (WeekDay w)) |}, []).
Proof.
  unfold specificWall, convertTimeSlotSpecific, utcToZonedTime. cbn zeta.
  destruct (zonedTimeToUtc_string db _ tz) as [u|]; [|done].
  cbn [mbind option_bind].
  destruct (utcOffset db userTimezone u) as [off|]; [|done].
  cbn [mbind option_bind onDate]. intros [= <-].
  rewrite mondayFirst_number. cbn [arrayAt number_toString number_add].
  unfold getFullYear, getMonth, getDate, getHours, getDay. by rewrite !gapless.
Qed.

Lemma displayDayName_dateString w :
  1000 <= YearFromTime w <= 9999 ->
  displayDayName br (dateString w) = arrayGet days (toMondayFirst (WeekDay w)).
Proof.
  intros Hy. destruct (dateString_parse w Hy) as [_ Hparse].
  unfold displayDayName, newDate_string. rewrite Hparse. cbn [fmap option_fmap option_map].
  unfold getDay. rewrite gapless.
  replace (WeekDay (MakeDate (Day w) (MakeTime 12 0 0 0))) with (WeekDay w); [done|].
  unfold WeekDay at 2. rewrite Day_MakeDate; [done|].
  unfold MakeTime, msPerHour, msPerMinute, msPerSecond, msPerDay. lia.
Qed.

(** X11.  In the date grid, in a browser whose clock skips no wall-clock
    time, every raw entry of a specific-date participant that converts to a
    wall-clock time of a year written in four digits is drawn: its hour is the
    hour of that time, the column of its date exists, is headed by the
    weekday the conversion gave, and the cell at its hour lists the
    participant. *)
Theorem specific_entry_is_drawn ps p e w :
  gridAvailabilityType ps = specific ->
  p ∈ ps -> availabilityType p = specific -> e ∈ entries p ->
  specificWall db (timezone p) userTimezone (fst e) (snd e) = Some w ->
  1000 <= YearFromTime w <= 9999 ->
  let c := fst (convertTimeSlotSpecific br db (timezone p) userTimezone (fst e) (snd e)) in
  Specific.hour c = HourFromTime w /\
  Specific.date c ∈ specificDates br db ps userTimezone /\
  displayDayName br (Specific.date c) = Specific.dayName c /\
  (Specific.dayName c, HourFromTime w, Some (Specific.date c))
    ∈ gridCells br db ps userTimezone /\
  p ∈ Data.participants (fst (getAvailabilityData br db now ps userTimezone
         (Specific.dayName c) (HourFromTime w) (Some (Specific.date c)))).
Proof.
  intros Hgrid Hp Hty He Hw Hy.
  pose proof (convertTimeSlotSpecific_wall _ _ _ _ Hw) as Hc.
  cbn zeta. 
  assert (Hdates : dateString w ∈ specificDates br db ps userTimezone).
  { unfold specificDates. rewrite Hgrid. unfold getAllPossibleDates, Array_sort.
    rewrite merge_sort_Permutation.
    apply (allDates_spec br db userTimezone ps []). right.
    exists p, e. split_and!; [done..|]. unfold convertedDate. by rewrite Hc. }
  assert (Hname : displayDayName br (dateString w)
                  = arrayGet days (toMondayFirst (WeekDay w)))
    by by apply displayDayName_dateString.
  rewrite Hc. cbn [fst Specific.date Specific.hour Specific.dayName].
  split_and!; [done | done | done | |].
  - unfold gridCells. rewrite Hgrid.
    apply list_elem_of_In, in_flat_map. exists (HourFromTime w). split.
    + apply list_elem_of_In, elem_of_seqZ. pose proof (HourFromTime_range w). lia.
    + apply in_map_iff. exists (dateString w). split; [by rewrite Hname|].
      by apply list_elem_of_In.
  - destruct (getAvailabilityData_entries br db now userTimezone ps
                (arrayGet days (toMondayFirst (WeekDay w))) (HourFromTime w)
                (Some (dateString w))) as [-> _].
    apply list_elem_of_In, in_flat_map. exists p. split; [by apply list_elem_of_In|].
    apply in_flat_map. exists e. split; [by apply list_elem_of_In|].
    unfold entryStep. rewrite Hty.
    destruct (dateString_parse w Hy) as [Hne _].
    assert (Ht : truthy (Some (dateString w)) = true).
    { cbn [truthy]. by destruct (String.eqb_spec (dateString w) ""). }
    rewrite Ht. change (default "" (Some (dateString w))) with (dateString w).
    unfold specificEntry. rewrite Hc.
    cbn [Specific.date Specific.hour Specific.dayName number_eqb].
    rewrite !String.eqb_refl, Z.eqb_refl. cbn [andb]. left. reflexivity.
Qed.

End DateGrid.

Lemma specific_entry_is_drawn_witness :
  let p := Sample.participant "c" "America/Los_Angeles" specific [("2024-07-04", [23])] in
  ("Friday", 7, Some "2024-07-05") ∈ gridCells Sample.browser Sample.zoneDb [p] "Europe/London".
Proof.
  cbn zeta.
  refine (proj1 (proj2 (proj2 (proj2 (specific_entry_is_drawn Sample.browser Sample.zoneDb
    Sample.now "Europe/London" _
    [Sample.participant "c" "America/Los_Angeles" specific [("2024-07-04", [23])]]
    (Sample.participant "c" "America/Los_Angeles" specific [("2024-07-04", [23])])
    ("2024-07-04", 23) (wallClock 2024 7 5 7) eq_refl _ eq_refl _ _ _))))).
  - intros w. reflexivity.
  - by apply list_elem_of_singleton.
  - by apply list_elem_of_singleton.
  - vm_compute. reflexivity.
  - vm_compute. split; discriminate.
Defined.

(** ** Editing the availability in the form *)

Lemma objGet_objSet {V} (o : list (string * V)) k v k' :
  objGet (objSet o k v) k' = if String.eqb k k' then Some v else objGet o k'.
Proof.
  induction o as [|[k0 v0] o IH]; cbn [objSet objGet].
  - done.
  - destruct (String.eqb_spec k0 k) as [-> |Hne]; cbn [objGet].
    + by destruct (String.eqb_spec k k').
    + rewrite IH. destruct (String.eqb_spec k0 k') as [-> |?]; [|done].
      by destruct (String.eqb_spec k k').
Qed.

Lemma objGet_objDelete {V} (o : list (string * V)) k k' :
  objGet (objDelete o k) k' = if String.eqb k k' then None else objGet o k'.
Proof.
  unfold objDelete.
  induction o as [|[k0 v0] o IH]; cbn [List.filter objGet fst].
  - by destruct (String.eqb k k').
  - destruct (String.eqb_spec k0 k) as [-> |Hne]; cbn [negb objGet].
    + rewrite IH. by destruct (String.eqb_spec k k').
    + rewrite IH. destruct (String.eqb_spec k0 k') as [-> |?]; [|done].
      by destruct (String.eqb_spec k k').
Qed.

Lemma objGet_elem {V} (o : list (string * V)) k v :
  objGet o k = Some v -> (k, v) ∈ o.
Proof.
  induction o as [|[k0 v0] o IH]; cbn [objGet]; [done|].
  destruct (String.eqb_spec k0 k) as [-> |?].
  - intros [= ->]. left.
  - intros. right. auto.
Qed.

Lemma objGet_None {V} (o : list (string * V)) k :
  objGet o k = None <-> k ∉ map fst o.
Proof.
  induction o as [|[k0 v0] o IH]; cbn [objGet map fst].
  - split; [|done]. intros _. apply not_elem_of_nil.
  - rewrite not_elem_of_cons. destruct (String.eqb_spec k0 k) as [-> |?].
    + split; [done|]. by intros [? _].
    + rewrite IH. split; [intros; split; [congruence|done]|by intros [_ ?]].
Qed.

Lemma objSet_keys {V} (o : list (string * V)) k v :
  map fst (objSet o k v) =
  if decide (k ∈ map fst o) then map fst o else (map fst o ++ [k])%list.
Proof.
  induction o as [|[k0 v0] o IH]; cbn [objSet map fst].
  - by rewrite decide_False by apply not_elem_of_nil.
  - destruct (String.eqb_spec k0 k) as [-> |Hne]; cbn [map fst].
    + rewrite decide_True by left. done.
    + rewrite IH. destruct (decide (k ∈ map fst o)) as [Hin|Hout].
      * rewrite decide_True by by right. done.
      * rewrite decide_False; [done|]. rewrite not_elem_of_cons. done.
Qed.

Lemma objSet_present {V} (o : list (string * V)) k v :
  objGet o k = Some v -> objSet o k v = o.
Proof.
  induction o as [|[k0 v0] o IH]; cbn [objGet objSet]; [done|].
  destruct (String.eqb_spec k0 k) as [-> |?].
  - by intros [= ->].
  - intros. by rewrite IH.
Qed.

Lemma objSet_objSet {V} (o : list (string * V)) k v v' :
  objSet (objSet o k v) k v' = objSet o k v'.
Proof.
  induction o as [|[k0 v0] o IH]; cbn [objSet].
  - by rewrite String.eqb_refl.
  - destruct (String.eqb_spec k0 k) as [-> |Hne]; cbn [objSet].
    + by rewrite String.eqb_refl.
    + destruct (String.eqb_spec k0 k); [done|]. by rewrite IH.
Qed.

Lemma includes_spec l x : includes l x = true <-> x ∈ l.
Proof.
  unfold includes. rewrite existsb_exists. split.
  - intros (y & Hy & ->%Z.eqb_eq). by apply list_elem_of_In.
  - intros Hx. exists x. split; [by apply list_elem_of_In|apply Z.eqb_refl].
Qed.

Lemma filter_ne_elem (l : list Z) x h :
  h ∈ List.filter (fun y => negb (y =? x)) l <-> h ∈ l /\ h <> x.
Proof.
  rewrite !list_elem_of_In, List.filter_In, negb_true_iff, Z.eqb_neq. done.
Qed.

Lemma filter_StronglySorted {A} (R : A -> A -> Prop) (f : A -> bool) l :
  StronglySorted R l -> StronglySorted R (List.filter f l).
Proof.
  induction 1 as [|a l Hs IH Hall]; cbn [List.filter]; [constructor|].
  destruct (f a); [|done]. constructor; [done|].
  rewrite Forall_forall in Hall |- *. intros y Hy.
  apply Hall. apply list_elem_of_In. apply list_elem_of_In in Hy.
  by apply List.filter_In in Hy as [? _].
Qed.

Lemma filter_ne_absent (l : list Z) x :
  x ∉ l -> List.filter (fun y => negb (y =? x)) l = l.
Proof.
  induction l as [|a l IH]; cbn [List.filter]; [done|].
  rewrite not_elem_of_cons. intros [Hne Hout].
  destruct (Z.eqb_spec a x); [congruence|]. cbn [negb]. by rewrite IH.
Qed.

Lemma lt_sorted_NoDup (l : list Z) : StronglySorted Z.lt l -> NoDup l.
Proof.
  induction 1 as [|a l Hs IH Hall]; constructor; [|done].
  intros Ha. rewrite Forall_forall in Hall. specialize (Hall _ Ha). lia.
Qed.

Lemma le_sorted_nodup_lt (l : list Z) :
  StronglySorted Z.le l -> NoDup l -> StronglySorted Z.lt l.
Proof.
  induction 1 as [|a l Hs IH Hall]; intros Hnd; constructor.
  - apply IH. by apply NoDup_cons in Hnd as [_ ?].
  - apply NoDup_cons in Hnd as [Ha _].
    rewrite Forall_forall in Hall |- *. intros x Hx.
    specialize (Hall _ Hx). assert (a <> x) by (intros ->; done). lia.
Qed.

Lemma lt_sorted_le (l : list Z) : StronglySorted Z.lt l -> StronglySorted Z.le l.
Proof.
  induction 1 as [|a l Hs IH Hall]; constructor; [done|].
  eapply Forall_impl; [exact Hall|]. intros x Hx. cbn beta in Hx. lia.
Qed.

Lemma lt_sorted_unique (l1 l2 : list Z) :
  StronglySorted Z.lt l1 -> StronglySorted Z.lt l2 -> l1 ≡ₚ l2 -> l1 = l2.
Proof.
  intros H1 H2 Hp.
  apply (StronglySorted_unique Z.le); [by apply lt_sorted_le..|done].
Qed.

Lemma sortNumbers_spec (l : list Z) :
  sortNumbers l ≡ₚ l /\ StronglySorted Z.le (sortNumbers l).
Proof.
  unfold sortNumbers. split.
  - apply merge_sort_Permutation.
  - apply (StronglySorted_merge_sort Z.le).
Qed.

Lemma sortNumbers_insert (hs : list Z) hour :
  StronglySorted Z.lt hs -> hour ∉ hs ->
  StronglySorted Z.lt (sortNumbers (hs ++ [hour])) /\
  sortNumbers (hs ++ [hour]) ≡ₚ hour :: hs.
Proof.
  intros Hs Hout. destruct (sortNumbers_spec (hs ++ [hour])) as [Hp Hle].
  assert (Hp' : sortNumbers (hs ++ [hour]) ≡ₚ hour :: hs).
  { rewrite Hp. by rewrite Permutation_app_comm. }
  split; [|done]. apply le_sorted_nodup_lt; [done|].
  rewrite Hp'. apply NoDup_cons. split; [done|]. by apply lt_sorted_NoDup.
Qed.

Lemma forEach_invariant {A S} (P : S -> Prop) (f : A -> S -> S) (l : list A) :
  (forall a s, P s -> P (f a s)) -> forall s, P s -> P (forEach l f s).
Proof.
  intros Hf. unfold forEach.
  induction l as [|a l IH]; intros s Hs; cbn [fold_left]; [done|].
  apply IH. by apply Hf.
Qed.

(** What the copying loops leave under each key. *)
Lemma forEach_copy (l : list string) src (v : list Z) k : forall o,
  objGet (forEach l (fun day acc =>
            if negb (String.eqb day src) then objSet acc day v else acc) o) k =
  if bool_decide (k ∈ l /\ k <> src) then Some v else objGet o k.
Proof.
  unfold forEach.
  induction l as [|a l IH]; intros o; cbn [fold_left].
  - rewrite bool_decide_eq_false_2; [done|]. intros [?%elem_of_nil _]. done.
  - rewrite IH. destruct (String.eqb_spec a src) as [-> |Hne]; cbn [negb].
    + apply (f_equal (fun b : bool => if b then Some v else objGet o k)).
      apply bool_decide_ext. rewrite elem_of_cons.
      split; [intros [? ?]; split; [by right|done]|intros [[?|?] ?]; [congruence|done]].
    + rewrite objGet_objSet.
      destruct (decide (k ∈ l /\ k <> src)) as [Hin|Hout].
      * rewrite !bool_decide_eq_true_2; [done| |done].
        destruct Hin. split; [by right|done].
      * rewrite (bool_decide_eq_false_2 _ Hout).
        destruct (String.eqb_spec a k) as [-> |Hak].
        -- rewrite bool_decide_eq_true_2; [done|]. split; [left|done].
        -- rewrite bool_decide_eq_false_2; [done|].
           rewrite elem_of_cons. intros [[?|?] ?]; [congruence|tauto].
Qed.

Lemma forEach_set (l : list string) {V} (v : V) k : forall o,
  objGet (forEach l (fun day acc => objSet acc day v) o) k =
  if bool_decide (k ∈ l) then Some v else objGet o k.
Proof.
  unfold forEach.
  induction l as [|a l IH]; intros o; cbn [fold_left].
  - rewrite bool_decide_eq_false_2; [done|]. apply not_elem_of_nil.
  - rewrite IH, objGet_objSet.
    destruct (decide (k ∈ l)) as [Hin|Hout].
    + rewrite !bool_decide_eq_true_2; [done| |done]. by right.
    + rewrite (bool_decide_eq_false_2 _ Hout).
      destruct (String.eqb_spec a k) as [-> |Hak].
      * rewrite bool_decide_eq_true_2; [done|left].
      * rewrite bool_decide_eq_false_2; [done|].
        rewrite elem_of_cons. intros [?|?]; [congruence|tauto].
Qed.

Lemma WellFormed_nil : Form.WellFormed [].
Proof. split; [constructor|constructor]. Qed.

Lemma WellFormed_objSet av k hs :
  Form.WellFormed av -> Form.hoursOk hs -> Form.WellFormed (objSet av k hs).
Proof.
  intros [Hk Hv] Hhs. split.
  - rewrite objSet_keys. destruct (decide (k ∈ map fst av)); [done|].
    apply NoDup_app. split_and!; [done| |apply NoDup_singleton].
    intros x Hx ->%list_elem_of_singleton. done.
  - clear Hk. induction av as [|[k0 v0] av IH]; cbn [objSet].
    + constructor; [done|constructor].
    + apply Forall_cons in Hv as [H0 Hv].
      destruct (String.eqb k0 k); constructor; auto.
Qed.

Lemma WellFormed_objDelete av k : Form.WellFormed av -> Form.WellFormed (objDelete av k).
Proof.
  intros [Hk Hv]. unfold objDelete. split.
  - clear Hv. induction av as [|[k0 v0] av IH]; cbn [List.filter map fst]; [done|].
    cbn [map fst] in Hk. apply NoDup_cons in Hk as [Hout Hk].
    destruct (negb (String.eqb k0 k)); [|auto].
    cbn [map fst]. apply NoDup_cons. split; [|auto].
    intros Hin. apply Hout.
    apply list_elem_of_fmap in Hin as ([k1 v1] & -> & Hin).
    apply list_elem_of_In, List.filter_In in Hin as [Hin _].
    apply list_elem_of_fmap. exists (k1, v1). split; [done|by apply list_elem_of_In].
  - rewrite Forall_forall in Hv |- *. intros x Hx. apply Hv.
    apply list_elem_of_In. apply list_elem_of_In, List.filter_In in Hx as [? _]. done.
Qed.

Lemma WellFormed_objGet av k hs :
  Form.WellFormed av -> objGet av k = Some hs -> Form.hoursOk hs.
Proof.
  intros [_ Hv] Hget. rewrite Forall_forall in Hv.
  exact (Hv _ (objGet_elem _ _ _ Hget)).
Qed.

Lemma hoursOk_seqZ : Form.hoursOk (seqZ 0 24).
Proof.
  split.
  - apply le_sorted_nodup_lt; [|apply NoDup_seqZ].
    apply Sorted_StronglySorted; [intros ???; lia|].
    change (seqZ 0 24) with
      [0;1;2;3;4;5;6;7;8;9;10;11;12;13;14;15;16;17;18;19;20;21;22;23].
    repeat (constructor; [|first [constructor; lia | constructor]]). constructor.
  - apply Forall_forall. intros h Hh. apply elem_of_seqZ in Hh. lia.
Qed.

Lemma hoursOk_working : Form.hoursOk [9; 10; 11; 12; 13; 14; 15; 16; 17].
Proof.
  split.
  - repeat (constructor; [|repeat (constructor; [lia|]); constructor]). constructor.
  - repeat (constructor; [lia|]). constructor.
Qed.

Lemma hoursOk_toggle hs hour :
  Form.hoursOk hs -> 0 <= hour <= 23 ->
  Form.hoursOk (if includes hs hour
           then List.filter (fun h => negb (h =? hour)) hs
           else sortNumbers (hs ++ [hour])).
Proof.
  intros [Hs Hr] Hhour. destruct (includes hs hour) eqn:Hi.
  - split; [by apply filter_StronglySorted|].
    rewrite Forall_forall in Hr |- *. intros h Hh.
    apply filter_ne_elem in Hh as [? _]. auto.
  - assert (Hout : hour ∉ hs).
    { intros Hin%includes_spec. congruence. }
    destruct (sortNumbers_insert hs hour Hs Hout) as [Hs' Hp].
    split; [done|]. rewrite Hp. by constructor.
Qed.

Lemma hoursOk_nil : Form.hoursOk [].
Proof. split; constructor. Qed.

Lemma step_WellFormed a st :
  Form.offered a -> Form.WellFormed (Form.availability st) -> Form.WellFormed (Form.availability (Form.step a st)).
Proof.
  intros Ha Hwf.
  destruct a as [newType|day|day hour|day|day|sourceDay|sourceDay targetDays
                |sourceDateKey| | | |dateKey|dateKey];
    cbn [Form.step Form.offered] in *.
  - apply WellFormed_nil.
  - unfold Form.toggleDay.
    destruct (_ && _); cbn [Form.setAvailability Form.setExpandedDays Form.availability];
      [by apply WellFormed_objDelete|done].
  - cbn [Form.toggleTimeSlot Form.setAvailability Form.availability].
    apply WellFormed_objSet; [done|].
    destruct (objGet (Form.availability st) day) as [hs|] eqn:Hget.
    + apply hoursOk_toggle; [|done]. exact (WellFormed_objGet _ _ _ Hwf Hget).
    + apply (hoursOk_toggle [] hour hoursOk_nil Ha).
  - cbn [Form.selectAllHours Form.setAvailability Form.availability].
    apply WellFormed_objSet; [done|apply hoursOk_seqZ].
  - cbn [Form.clearAllHours Form.setAvailability Form.availability]. by apply WellFormed_objDelete.
  - unfold Form.copyHoursToAllDays.
    destruct (objGet (Form.availability st) sourceDay) as [hs|] eqn:Hget;
      [|done].
    change (default [] (Some hs)) with hs.
    destruct (Nat.eqb (length hs) 0); [done|].
    cbn [Form.setAvailability Form.setExpandedDays Form.availability].
    apply forEach_invariant; [|done]. intros d s Hs. cbn beta.
    destruct (negb _); [|done]. apply WellFormed_objSet; [done|].
    exact (WellFormed_objGet _ _ _ Hwf Hget).
  - unfold Form.copyHoursToSelectedDays.
    destruct (objGet (Form.availability st) sourceDay) as [hs|] eqn:Hget;
      [|done].
    change (default [] (Some hs)) with hs.
    destruct (Nat.eqb (length hs) 0); [done|].
    cbn [Form.setAvailability Form.availability].
    apply forEach_invariant; [|done]. intros d s Hs. cbn beta.
    destruct (negb _); [|done]. apply WellFormed_objSet; [done|].
    exact (WellFormed_objGet _ _ _ Hwf Hget).
  - unfold Form.copyHoursToAllSelectedDates.
    destruct (objGet (Form.availability st) sourceDateKey) as [hs|] eqn:Hget;
      [|done].
    change (default [] (Some hs)) with hs.
    destruct (Nat.eqb (length hs) 0); [done|].
    cbn [Form.setAvailability Form.setExpandedCalendarDates Form.availability].
    apply forEach_invariant; [|done]. intros d s Hs. cbn beta.
    destruct (negb _); [|done]. apply WellFormed_objSet; [done|].
    exact (WellFormed_objGet _ _ _ Hwf Hget).
  - cbn [Form.setCommonWorkingHours Form.setAvailability Form.setExpandedDays Form.availability].
    apply forEach_invariant; [|done]. intros d s Hs. cbn beta.
    apply WellFormed_objSet; [done|apply hoursOk_working].
  - apply WellFormed_nil.
  - apply WellFormed_nil.
  - unfold Form.toggleCalendarDate. destruct (bool_decide _);
      cbn [Form.setSelectedDates Form.setAvailability Form.availability];
      [by apply WellFormed_objDelete|done].
  - done.
Qed.

Lemma WellFormed_entries (p : Participant) :
  Form.WellFormed (availability p) ->
  NoDup (entries p) /\ forall e, e ∈ entries p -> 0 <= snd e <= 23.
Proof.
  unfold entries. generalize (availability p). clear p.
  intros av [Hk Hv]. split.
  - induction av as [|[k hs] av IH]; cbn [flat_map fst snd]; [constructor|].
    cbn [map fst] in Hk. apply NoDup_cons in Hk as [Hout Hk].
    apply Forall_cons in Hv as [[Hs _] Hv]. cbn [snd] in Hs.
    apply NoDup_app. split_and!.
    + apply (NoDup_fmap_2 _). by apply lt_sorted_NoDup.
    + intros [k1 h1] Hin1 Hin2.
      apply list_elem_of_fmap in Hin1 as (h & [= -> ->] & _).
      apply Hout. apply list_elem_of_In, in_flat_map in Hin2 as ([k2 hs2] & Hin2 & Hh).
      cbn [fst snd] in Hh. apply in_map_iff in Hh as (h2 & [= -> ->] & _).
      apply list_elem_of_fmap. exists (k, hs2). split; [done|by apply list_elem_of_In].
    + auto.
  - intros e He. apply list_elem_of_In, in_flat_map in He as ([k hs] & Hin & Hh).
    cbn [fst snd] in Hh. apply in_map_iff in Hh as (h & <- & Hh). cbn [snd].
    rewrite Forall_forall in Hv. destruct (Hv (k, hs)) as [_ Hr].
    { by apply list_elem_of_In. }
    rewrite Forall_forall in Hr. apply Hr. by apply list_elem_of_In.
Qed.

Lemma remove_Permutation (hs : list Z) hour :
  NoDup hs -> hour ∈ hs ->
  hour :: List.filter (fun h => negb (h =? hour)) hs ≡ₚ hs.
Proof.
  intros Hnd Hin. apply NoDup_Permutation; [|done|].
  - apply NoDup_cons. split.
    + rewrite filter_ne_elem. tauto.
    + apply NoDup_ListNoDup, List.NoDup_filter, NoDup_ListNoDup, Hnd.
  - intros h. rewrite elem_of_cons, filter_ne_elem.
    destruct (decide (h = hour)) as [-> |?]; tauto.
Qed.

(** X12.  Whatever sequence of clicks the form receives (hour buttons being
    those of hours 0 to 23), the availability it holds has distinct keys, each
    with strictly ascending hours between 0 and 23; so a participant submitted
    with it has no raw entry twice and no hour outside 0 to 23. *)
Theorem form_availability_well_formed (actions : list Form.Action) :
  Forall Form.offered actions ->
  let st := forEach actions Form.step Form.initial in
  Form.WellFormed (Form.availability st) /\
  forall p : Participant, availability p = Form.availability st ->
    NoDup (entries p) /\ forall e, e ∈ entries p -> 0 <= snd e <= 23.
Proof.
  intros Hoff st.
  assert (Hwf : Form.WellFormed (Form.availability st)).
  { subst st. unfold forEach.
    assert (Hinit : Form.WellFormed (Form.availability Form.initial))
      by apply WellFormed_nil.
    revert Hinit. generalize Form.initial.
    induction Hoff as [|a actions Ha _ IH]; intros s Hs; cbn [fold_left]; [done|].
    apply IH. by apply step_WellFormed. }
  split; [done|]. intros p Hp. apply WellFormed_entries. by rewrite Hp.
Qed.

Lemma form_availability_well_formed_witness :
  Forall Form.offered Form.sampleClicks /\
  Form.WellFormed
    (Form.availability (forEach Form.sampleClicks Form.step Form.initial)).
Proof.
  assert (Hoff : Forall Form.offered Form.sampleClicks).
  { repeat (constructor; [cbn [Form.offered]; try lia; exact I|]). constructor. }
  split; [exact Hoff|].
  exact (proj1 (form_availability_well_formed Form.sampleClicks Hoff)).
Defined.

(** X13.  Clicking an hour of a day flips that hour and no other: afterwards
    the day has the hour exactly if it did not before, has every other hour
    exactly if it did before, and every other day keeps what it had. *)
Theorem toggleTimeSlot_flips day hour st :
  let old := default [] (objGet (Form.availability st) day) in
  let av' := Form.availability (Form.toggleTimeSlot day hour st) in
  (exists hs', objGet av' day = Some hs' /\
     (hour ∈ hs' <-> hour ∉ old) /\
     (forall h, h <> hour -> h ∈ hs' <-> h ∈ old)) /\
  (forall day', day' <> day -> objGet av' day' = objGet (Form.availability st) day').
Proof.
  cbn zeta. cbn [Form.toggleTimeSlot Form.setAvailability Form.availability].
  split.
  - rewrite objGet_objSet, String.eqb_refl. eexists. split; [reflexivity|].
    assert (Hgen : forall hs,
      let hs' := if includes hs hour
                 then List.filter (fun h => negb (h =? hour)) hs
                 else sortNumbers (hs ++ [hour]) in
      (hour ∈ hs' <-> hour ∉ hs) /\ (forall h, h <> hour -> h ∈ hs' <-> h ∈ hs)).
    { intros hs. cbn zeta. destruct (includes hs hour) eqn:Hi.
      - apply includes_spec in Hi. split.
        + rewrite filter_ne_elem. tauto.
        + intros h Hh. rewrite filter_ne_elem. tauto.
      - assert (Hout : hour ∉ hs) by (intros Hin%includes_spec; congruence).
        destruct (sortNumbers_spec (hs ++ [hour])) as [Hp _]. split.
        + rewrite Hp, elem_of_app, list_elem_of_singleton. tauto.
        + intros h Hh. rewrite Hp, elem_of_app, list_elem_of_singleton. tauto. }
    destruct (objGet (Form.availability st) day) as [hs|].
    + apply Hgen.
    + apply (Hgen []).
  - intros day' Hne. rewrite objGet_objSet.
    destruct (String.eqb_spec day day'); [congruence|done].
Qed.

(** X14.  On a well-formed availability, clicking the same hour of a listed
    day twice gives back the form as it was. *)
Theorem toggleTimeSlot_twice day hour st hs :
  Form.WellFormed (Form.availability st) ->
  objGet (Form.availability st) day = Some hs ->
  Form.toggleTimeSlot day hour (Form.toggleTimeSlot day hour st) = st.
Proof.
  intros Hwf Hget. destruct (WellFormed_objGet _ _ _ Hwf Hget) as [Hs _].
  destruct st as [ty av ed sd ecd].
  cbn [Form.availability] in Hwf, Hget.
  unfold Form.toggleTimeSlot, Form.setAvailability.
  cbn [Form.availability Form.availabilityType Form.expandedDays
       Form.selectedDates Form.expandedCalendarDates].
  f_equal. rewrite objGet_objSet, String.eqb_refl, objSet_objSet, Hget.
  apply objSet_present. rewrite Hget. f_equal. symmetry.
  destruct (includes hs hour) eqn:Hi.
  - apply includes_spec in Hi.
    assert (Hout : hour ∉ List.filter (fun h => negb (h =? hour)) hs).
    { rewrite filter_ne_elem. tauto. }
    replace (includes _ hour) with false.
    2:{ symmetry. apply not_true_is_false. by intros ?%includes_spec. }
    destruct (sortNumbers_insert _ hour (filter_StronglySorted _ _ _ Hs) Hout)
      as [Hs' Hp].
    apply lt_sorted_unique; [done..|].
    rewrite Hp. apply remove_Permutation; [by apply lt_sorted_NoDup|done].
  - assert (Hout : hour ∉ hs) by (intros Hin%includes_spec; congruence).
    destruct (sortNumbers_insert hs hour Hs Hout) as [Hs' Hp].
    replace (includes _ hour) with true.
    2:{ symmetry. apply includes_spec. rewrite Hp. left. }
    apply lt_sorted_unique; [by apply filter_StronglySorted|done|].
    apply NoDup_Permutation.
    + apply NoDup_ListNoDup, List.NoDup_filter, NoDup_ListNoDup.
      by apply lt_sorted_NoDup.
    + by apply lt_sorted_NoDup.
    + intros h. rewrite filter_ne_elem, Hp, elem_of_cons.
      destruct (decide (h = hour)) as [-> |?]; tauto.
Qed.

Lemma toggleTimeSlot_twice_witness :
  Form.toggleTimeSlot "Monday" 11 (Form.toggleTimeSlot "Monday" 11 Form.sample)
    = Form.sample /\
  Form.toggleTimeSlot "Monday" 14 (Form.toggleTimeSlot "Monday" 14 Form.sample)
    = Form.sample.
Proof.
  assert (Hwf : Form.WellFormed (Form.availability Form.sample)).
  { split.
    - apply (bool_decide_unpack _). by vm_compute.
    - repeat (constructor; [split; repeat (constructor; try lia)|]). constructor. }
  split.
  - exact (toggleTimeSlot_twice "Monday" 11 Form.sample [9; 14] Hwf eq_refl).
  - exact (toggleTimeSlot_twice "Monday" 14 Form.sample [9; 14] Hwf eq_refl).
Defined.

(** X15.  Copying the hours of a day that has some gives exactly those hours
    to every target (all seven weekdays, the chosen days, or all selected
    dates) and leaves every other key as it was. *)
Theorem copy_hours_spec sourceDay targetDays st hs k :
  objGet (Form.availability st) sourceDay = Some hs -> hs <> [] ->
  let result targets :=
    if bool_decide (k ∈ targets) then Some hs else objGet (Form.availability st) k in
  objGet (Form.availability (Form.copyHoursToAllDays sourceDay st)) k
    = result DAYS_OF_WEEK /\
  objGet (Form.availability (Form.copyHoursToSelectedDays sourceDay targetDays st)) k
    = result targetDays /\
  objGet (Form.availability (Form.copyHoursToAllSelectedDates sourceDay st)) k
    = result (Form.selectedDates st).
Proof.
  intros Hget Hne.
  assert (Hlen : Nat.eqb (length hs) 0 = false).
  { apply Nat.eqb_neq. by destruct hs. }
  assert (Hgen : forall l : list string,
    (if bool_decide (k ∈ l /\ k <> sourceDay) then Some hs
     else objGet (Form.availability st) k) =
    (if bool_decide (k ∈ l) then Some hs else objGet (Form.availability st) k)).
  { intros l. destruct (decide (k ∈ l)) as [Hin|Hout].
    - rewrite (bool_decide_eq_true_2 _ Hin).
      destruct (decide (k = sourceDay)) as [-> |Hk].
      + rewrite bool_decide_eq_false_2 by tauto. done.
      + by rewrite bool_decide_eq_true_2.
    - rewrite (bool_decide_eq_false_2 _ Hout).
      rewrite bool_decide_eq_false_2 by tauto. done. }
  cbn zeta.
  unfold Form.copyHoursToAllDays, Form.copyHoursToSelectedDays,
    Form.copyHoursToAllSelectedDates.
  cbn zeta. rewrite Hget. change (default [] (Some hs)) with hs. rewrite Hlen.
  cbn [Form.setAvailability Form.setExpandedDays Form.setExpandedCalendarDates
       Form.availability Form.selectedDates].
  rewrite !forEach_copy, !Hgen. done.
Qed.

Lemma copy_hours_spec_witness :
  objGet (Form.availability (Form.copyHoursToAllDays "Monday" Form.sample)) "Friday"
    = Some [9; 14] /\
  objGet (Form.availability
            (Form.copyHoursToSelectedDays "Monday" ["Sunday"] Form.sample)) "Friday"
    = Some [10] /\
  objGet (Form.availability
            (Form.copyHoursToAllSelectedDates "Monday" Form.sample)) "Friday"
    = Some [10].
Proof.
  refine (copy_hours_spec "Monday" ["Sunday"] Form.sample [9; 14] "Friday" eq_refl _).
  discriminate.
Defined.

Lemma full_hours (hs : list Z) :
  Form.hoursOk hs ->
  (length hs = 24%nat <-> forall h, 0 <= h <= 23 -> h ∈ hs) /\
  (length hs = 24%nat -> hs = seqZ 0 24).
Proof.
  intros [Hs Hr].
  assert (Hsub : hs ⊆+ seqZ 0 24).
  { apply NoDup_submseteq; [by apply lt_sorted_NoDup|].
    intros h Hh. rewrite Forall_forall in Hr. apply elem_of_seqZ.
    specialize (Hr _ Hh). lia. }
  assert (Hperm : length hs = 24%nat -> hs ≡ₚ seqZ 0 24).
  { intros Hlen. apply submseteq_length_Permutation; [done|].
    rewrite length_seqZ, Hlen. done. }
  split; [split|].
  - intros Hlen h Hh. rewrite (Hperm Hlen). apply elem_of_seqZ. lia.
  - intros Hall.
    assert (Hsup : seqZ 0 24 ⊆+ hs).
    { apply NoDup_submseteq; [apply NoDup_seqZ|].
      intros h Hh%elem_of_seqZ. apply Hall. lia. }
    apply submseteq_length in Hsub, Hsup. rewrite length_seqZ in Hsub, Hsup.
    change (Z.to_nat 24) with 24%nat in *. lia.
  - intros Hlen. apply lt_sorted_unique; [done|apply hoursOk_seqZ|by apply Hperm].
Qed.

(** X16.  On a well-formed availability a day counts 24 hours exactly when it
    has every hour from 0 to 23, its hours are then 0, 1, ..., 23 in order and
    its summary reads 'Full day available'; the summary reads 'No selected
    hours' exactly for the days that are not selected. *)
Theorem full_day_summary (formatHour : Z -> string) day st :
  Form.WellFormed (Form.availability st) ->
  let hs := default [] (objGet (Form.availability st) day) in
  ((forall h, 0 <= h <= 23 -> h ∈ hs) <-> hs = seqZ 0 24) /\
  ((forall h, 0 <= h <= 23 -> h ∈ hs) ->
     Form.getSelectedHoursText formatHour day st = "Full day available") /\
  (Form.isDaySelected day st = false ->
     Form.getSelectedHoursText formatHour day st = "No selected hours").
Proof.
  intros Hwf hs.
  assert (Hok : Form.hoursOk hs).
  { subst hs. destruct (objGet (Form.availability st) day) as [l|] eqn:Hget.
    - exact (WellFormed_objGet _ _ _ Hwf Hget).
    - apply hoursOk_nil. }
  destruct (full_hours hs Hok) as [Hiff Heq].
  split_and!.
  - split.
    + intros Hall. apply Heq, Hiff, Hall.
    + intros -> h Hh. apply elem_of_seqZ. lia.
  - intros Hall. apply Hiff in Hall. unfold Form.getSelectedHoursText.
    fold hs. rewrite Hall. reflexivity.
  - unfold Form.isDaySelected, Form.getSelectedHoursText. subst hs.
    destruct (objGet (Form.availability st) day) as [l|]; [|done].
    change (default [] (Some l)) with l.
    destruct (Nat.eqb (length l) 0); [done|discriminate].
Qed.

Lemma full_day_summary_witness :
  Form.getSelectedHoursText (fun _ => "") "Monday"
    (Form.selectAllHours "Monday" Form.initial) = "Full day available".
Proof.
  refine (proj1 (proj2 (full_day_summary (fun _ => "") "Monday"
            (Form.selectAllHours "Monday" Form.initial) _)) _).
  - apply (WellFormed_objSet [] "Monday" (seqZ 0 24) WellFormed_nil hoursOk_seqZ).
  - intros h Hh. cbn. apply elem_of_seqZ. lia.
Defined.

(** ** The calendar of the form *)

Lemma TimeWithinDay_MakeDate n t :
  0 <= t < msPerDay -> TimeWithinDay (MakeDate n t) = t.
Proof.
  intros Ht. unfold TimeWithinDay, MakeDate.
  rewrite Z.add_comm, Z.mod_add by (unfold msPerDay; lia).
  apply Z.mod_small. lia.
Qed.

Lemma TimeWithinDay_range t : 0 <= TimeWithinDay t < msPerDay.
Proof. unfold TimeWithinDay. apply Z.mod_pos_bound. unfold msPerDay. lia. Qed.

Lemma setDate_local br d k :
  Gapless br ->
  LocalTime br (setDate br d (getDate br d + k))
    = MakeDate (Day (LocalTime br d) + k) (TimeWithinDay (LocalTime br d)).
Proof.
  intros Hg. unfold setDate, getDate. cbn zeta. by rewrite Hg, MakeDay_of_time.
Qed.

(** X17.  In a browser whose clock skips no wall-clock time the calendar has
    five rows of seven days; the day in row w, column d is the local time of
    now moved by whole days to the d-th day (Monday first) of the w-th week
    from the current one, so every row runs from Monday to Sunday. *)
Theorem calendar_weeks_from_monday br now (w d : nat) :
  Gapless br -> (w < 5)%nat -> (d < 7)%nat ->
  length (generateCalendarDates br now) = 5%nat /\
  exists row c,
    generateCalendarDates br now !! w = Some row /\ length row = 7%nat /\
    row !! d = Some c /\
    LocalTime br c = LocalTime br now
      + (7 * Z.of_nat w + Z.of_nat d - toMondayFirst (getDay br now)) * msPerDay /\
    getDay br c = toSundayFirst (Z.of_nat d).
Proof.
  intros Hg Hw Hd. unfold generateCalendarDates. cbn zeta.
  fold (toMondayFirst (getDay br now)).
  set (sub := toMondayFirst (getDay br now)).
  set (start := setDate br now (getDate br now - sub)).
  pose proof (TimeWithinDay_range (LocalTime br now)) as Hr.
  assert (Hcell : forall k,
    LocalTime br (setDate br start (getDate br start + k))
      = MakeDate (Day (LocalTime br now) - sub + k) (TimeWithinDay (LocalTime br now))).
  { intros k. rewrite setDate_local by done. subst start.
    replace (getDate br now - sub) with (getDate br now + - sub) by lia.
    rewrite setDate_local by done.
    rewrite Day_MakeDate, TimeWithinDay_MakeDate by done. f_equal; lia. }
  split; [by rewrite length_map, length_seqZ|].
  eexists _, _. split_and!.
  - rewrite list_lookup_fmap, lookup_seqZ_lt by lia. reflexivity.
  - by rewrite length_map, length_seqZ.
  - rewrite list_lookup_fmap, lookup_seqZ_lt by lia. reflexivity.
  - rewrite <- Z.add_assoc, Hcell.
    unfold MakeDate, TimeWithinDay, Day.
    pose proof (Z.div_mod (LocalTime br now) msPerDay ltac:(unfold msPerDay; lia)).
    lia.
  - unfold getDay at 1. rewrite <- Z.add_assoc, Hcell.
    unfold WeekDay. rewrite Day_MakeDate by done.
    subst sub. unfold getDay, WeekDay, toMondayFirst, toSundayFirst.
    destruct (Z.eqb_spec ((Day (LocalTime br now) + 4) mod 7) 0);
      destruct (Z.eqb_spec (Z.of_nat d) 6);
      Z.div_mod_to_equations; lia.
Qed.

Lemma calendar_weeks_from_monday_witness :
  exists row c,
    generateCalendarDates Sample.browser Sample.now !! 1%nat = Some row /\
    row !! 6%nat = Some c /\ getDay Sample.browser c = 0.
Proof.
  destruct (calendar_weeks_from_monday Sample.browser Sample.now 1 6)
    as (_ & row & c & Hrow & _ & Hc & _ & Hday).
  - intros t. reflexivity.
  - lia.
  - lia.
  - exists row, c. split_and!; [exact Hrow|exact Hc|exact Hday].
Defined.

Lemma year4_noT_all : all_from 1000 (Z.to_nat 9000) year4_noT = true.
Proof. vm_compute. reflexivity. Qed.

Lemma pad2_noT_all : all_from 0 (Z.to_nat 100) pad2_noT = true.
Proof. vm_compute. reflexivity. Qed.

Lemma noT_app a b : noT (a +:+ b) = noT a && noT b.
Proof.
  induction a as [|c a IH]; [done|].
  change (String c a +:+ b) with (String c (a +:+ b)). cbn [noT].
  by rewrite IH, andb_assoc.
Qed.

Lemma splitFirst_app a r :
  noT a = true -> splitFirst "T" (a +:+ String "T" r) = a.
Proof.
  induction a as [|c a IH]; [done|].
  change (String c a +:+ String "T" r) with (String c (a +:+ String "T" r)).
  cbn [noT splitFirst]. intros [Hc Ha]%andb_true_iff.
  apply negb_true_iff in Hc. rewrite Hc. by rewrite IH.
Qed.

Lemma append_assoc (a b c : string) : (a +:+ b) +:+ c = a +:+ (b +:+ c).
Proof.
  induction a as [|x a IH]; [done|].
  change (String x a +:+ b) with (String x (a +:+ b)).
  change (String x (a +:+ b) +:+ c) with (String x ((a +:+ b) +:+ c)).
  change (String x a +:+ (b +:+ c)) with (String x (a +:+ (b +:+ c))).
  by rewrite IH.
Qed.

Lemma YearFromTime_civil t :
  0 <= MonthFromTime t < 12 /\ 1 <= DateFromTime t <= 31.
Proof.
  pose proof (civil_roundtrip (Day t)) as Hrt.
  pose proof (civil_day_valid (Day t)) as Hdv.
  unfold MonthFromTime, DateFromTime.
  destruct (civil_from_days (Day t)) as [[y m] d]. cbn [fst snd].
  destruct Hrt as [Hm _]. split; [done|].
  unfold daysInMonth in Hdv.
  destruct (m + 1 =? 2); [destruct (isLeapYear y); lia|].
  destruct (_ || _); lia.
Qed.

(** The key of a date is the date of its instant in UTC. *)
Lemma formatDateKey_dateString d :
  1000 <= YearFromTime d <= 9999 -> formatDateKey d = dateString d.
Proof.
  intros Hy. unfold formatDateKey, toISOString. cbn zeta.
  destruct (YearFromTime_civil d) as [Hm Hd].
  replace ((0 <=? YearFromTime d) && (YearFromTime d <=? 9999)) with true
    by (symmetry; apply andb_true_iff; split; apply Z.leb_le; lia).
  assert (Hpad : padStart 4 "0" (Number_toString (YearFromTime d))
                 = Number_toString (YearFromTime d)).
  { destruct (year4_chars _ Hy) as (c1 & c2 & c3 & c4 & -> & _). reflexivity. }
  rewrite Hpad.
  set (rest := padStart 2 "0" (Number_toString (HourFromTime d)) +:+ _).
  assert (HnoT : noT (dateString d) = true).
  { unfold dateString. rewrite !noT_app.
    pose proof (all_from_spec _ _ _ year4_noT_all (YearFromTime d)
                  ltac:(rewrite Z2Nat.id; lia)) as H1.
    pose proof (all_from_spec _ _ _ pad2_noT_all (MonthFromTime d + 1)
                  ltac:(rewrite Z2Nat.id; lia)) as H2.
    pose proof (all_from_spec _ _ _ pad2_noT_all (DateFromTime d)
                  ltac:(rewrite Z2Nat.id; lia)) as H3.
    unfold year4_noT, pad2_noT in *. rewrite H1, H2, H3. reflexivity. }
  rewrite <- (splitFirst_app (dateString d) rest HnoT). f_equal.
  unfold dateString. rewrite !append_assoc. reflexivity.
Qed.

(** X18.  The key under which the form stores a calendar day is the UTC date
    of that instant: read back as a local date by the availability map it is
    the UTC day, and it is the date the browser shows for the instant exactly
    when the local day and the UTC day of the instant are the same. *)
Theorem formatDateKey_utc_day br d :
  1000 <= YearFromTime d <= 9999 ->
  1000 <= getFullYear br d <= 9999 ->
  parseISOLocal (formatDateKey d +:+ "T12:00:00")
    = Some (MakeDate (Day d) (MakeTime 12 0 0 0)) /\
  (formatDateKey d = dateString (LocalTime br d) <-> Day (LocalTime br d) = Day d).
Proof.
  intros Hy Hl. rewrite formatDateKey_dateString by done.
  destruct (dateString_parse d Hy) as [_ Hp]. split; [done|]. split.
  - intros Heq. destruct (dateString_parse (LocalTime br d) Hl) as [_ Hp'].
    rewrite <- Heq, Hp in Hp'. injection Hp' as Hp'.
    unfold MakeDate, msPerDay in Hp'. lia.
  - intros Heq. unfold dateString, YearFromTime, MonthFromTime, DateFromTime.
    by rewrite Heq.
Qed.

Lemma formatDateKey_utc_day_witness :
  parseISOLocal (formatDateKey Sample.now +:+ "T12:00:00")
    = Some (MakeDate (Day Sample.now) (MakeTime 12 0 0 0)).
Proof.
  refine (proj1 (formatDateKey_utc_day Sample.browser Sample.now _ _)).
  - vm_compute. split; discriminate.
  - vm_compute. split; discriminate.
Defined.

(** ** Timezone names on display *)

Lemma replaceAll_spec (c r : ascii) (s : string) :
  c <> r ->
  String.length (replaceAll c r s) = String.length s /\
  occurrences c (replaceAll c r s) = 0%nat /\
  replaceAll c r (replaceAll c r s) = replaceAll c r s.
Proof.
  intros Hne. induction s as [|a t (IH1 & IH2 & IH3)]; [done|].
  cbn [replaceAll String.length occurrences]. rewrite IH1, IH2, IH3.
  split; [done|]. destruct (Ascii.eqb_spec a c) as [-> |Ha].
  - destruct (Ascii.eqb_spec r c); [congruence|done].
  - destruct (Ascii.eqb_spec a c); [congruence|done].
Qed.

Lemma replaceAll_none (c r : ascii) (s : string) :
  occurrences c s = 0%nat -> replaceAll c r s = s.
Proof.
  induction s as [|a t IH]; [done|]. cbn [replaceAll occurrences].
  destruct (Ascii.eqb a c); [done|]. intros H. by rewrite IH.
Qed.

Lemma replaceFirst_all (c r : ascii) (s : string) :
  c <> r ->
  replaceFirst c r s = replaceAll c r s <-> (occurrences c s <= 1)%nat.
Proof.
  intros Hne. induction s as [|a t IH].
  { cbn [replaceFirst replaceAll occurrences]. split; [lia|done]. }
  cbn [replaceFirst replaceAll occurrences].
  destruct (Ascii.eqb_spec a c) as [-> |Ha].
  - split.
    + intros [= Heq]. enough (occurrences c t = 0%nat) by lia.
      destruct (replaceAll_spec c r t Hne) as (_ & H0 & _). by rewrite <- Heq in H0.
    + intros H. rewrite replaceAll_none by lia. done.
  - rewrite <- IH. split; [by intros [= ?]|by intros ->].
Qed.

(** X19.  [formatTimezone] keeps the length of the name and leaves no
    underscore, so applying it again changes nothing; the legend of the map,
    which replaces the first underscore only, shows the same text exactly for
    the names with at most one underscore. *)
Theorem formatTimezone_legend (timezone : string) :
  String.length (formatTimezone timezone) = String.length timezone /\
  occurrences "_" (formatTimezone timezone) = 0%nat /\
  formatTimezone (formatTimezone timezone) = formatTimezone timezone /\
  (legendTimezone timezone = formatTimezone timezone
     <-> (occurrences "_" timezone <= 1)%nat).
Proof.
  unfold formatTimezone, legendTimezone.
  destruct (replaceAll_spec "_" " " timezone) as (H1 & H2 & H3); [done|].
  split_and!; [done..|]. by apply replaceFirst_all.
Qed.
